(** * Listing-tracker pipeline of spice-outreach: a shallow embedding

    The development follows [app_package/routes/deal_tracker.py],
    [app_package/routes/hotel_tracker.py] and
    [app_package/routes/youtube_leads.py].

    Conventions of the embedding:
    - a Python [str] is a [string], one [ascii] per character, and the
      character classes ([\d], white space, upper case) are the ASCII ones:
      the embedding covers ASCII texts. The rupee sign of the scenarios is
      written as its three UTF-8 bytes, none of which is a digit, a dot, a
      letter or white space, so that the code treats them as it treats the
      single character;
    - a Python [int] is a [Z]; a nullable Integer column is an [option Z];
    - a Python [float] is a binary64 number, modelled exactly (module
      [PyFloat]);
    - an exception that leaves a function is a value of [exn] in the [Raise]
      branch of [result];
    - the HTTP client and the HTML parser are outside the repository: what an
      adapter obtains from them is read from an environment ([Env]). *)

From Stdlib Require Import ZArith List String Ascii Bool Lia Permutation Sorted.
Import ListNotations.
Local Open Scope string_scope.
Local Open Scope list_scope.
Local Open Scope Z_scope.

(** ** Python strings *)

Module PyStr.

(** [\d] of [re], on ASCII. *)
Definition is_digit (c : ascii) : bool :=
  let n := N_of_ascii c in (48 <=? n)%N && (n <=? 57)%N.

Definition is_dot (c : ascii) : bool := Ascii.eqb c "."%char.

(** [str.lower], on ASCII. *)
Definition lower_char (c : ascii) : ascii :=
  let n := N_of_ascii c in
  if ((65 <=? n)%N && (n <=? 90)%N)%bool then ascii_of_N (n + 32) else c.

Fixpoint lower (s : string) : string :=
  match s with
  | EmptyString => EmptyString
  | String c s' => String (lower_char c) (lower s')
  end.

(** White space removed by [str.strip()], on ASCII: TAB, LF, VT, FF, CR,
    the separators 28..31 and the space. *)
Definition is_space (c : ascii) : bool :=
  let n := N_of_ascii c in
  ((9 <=? n)%N && (n <=? 13)%N) || ((28 <=? n)%N && (n <=? 32)%N).

Fixpoint lstrip (s : string) : string :=
  match s with
  | EmptyString => EmptyString
  | String c s' => if is_space c then lstrip s' else s
  end.

(** [rstrip]: a character is dropped when it is white space and everything
    after it has been dropped. *)
Fixpoint rstrip (s : string) : string :=
  match s with
  | EmptyString => EmptyString
  | String c s' =>
      match rstrip s' with
      | EmptyString => if is_space c then EmptyString else String c EmptyString
      | r => String c r
      end
  end.

Definition strip (s : string) : string := rstrip (lstrip s).

(** Truthiness of a string: [if s:]. *)
Definition truthy (s : string) : bool :=
  match s with EmptyString => false | _ => true end.

(** [needle in hay]. *)
Fixpoint contains (needle hay : string) : bool :=
  String.prefix needle hay ||
  match hay with
  | EmptyString => false
  | String _ hay' => contains needle hay'
  end.

(** Number of positions of [hay] at which [needle] starts. *)
Fixpoint occurrences (needle hay : string) : nat :=
  ((if String.prefix needle hay then 1 else 0) +
   match hay with
   | EmptyString => 0
   | String _ hay' => occurrences needle hay'
   end)%nat.

(** [s.endswith(suffix)]. *)
Definition endswith (s suffix : string) : bool :=
  let n := String.length s in
  let k := String.length suffix in
  (k <=? n)%nat && String.eqb (substring (n - k) k s) suffix.

(** [s[:n]]. *)
Definition take (n : nat) (s : string) : string := substring 0 n s.

(** [re.sub(r'[^...]', '', s)] for a character class given by [keep]:
    every character outside the class is deleted. *)
Fixpoint keep_chars (keep : ascii -> bool) (s : string) : string :=
  match s with
  | EmptyString => EmptyString
  | String c s' =>
      if keep c then String c (keep_chars keep s') else keep_chars keep s'
  end.

Fixpoint forallb_str (p : ascii -> bool) (s : string) : bool :=
  match s with
  | EmptyString => true
  | String c s' => p c && forallb_str p s'
  end.

(** [s * n]: repetition. *)
Fixpoint repeat_str (s : string) (n : nat) : string :=
  match n with
  | O => EmptyString
  | S n' => (s ++ repeat_str s n')%string
  end.

(** Value of a string of ASCII digits read in base ten. *)
Fixpoint digits_value_acc (acc : Z) (s : string) : Z :=
  match s with
  | EmptyString => acc
  | String c s' =>
      digits_value_acc (10 * acc + (Z.of_N (N_of_ascii c) - 48)) s'
  end.

Definition digits_value (s : string) : Z := digits_value_acc 0 s.

End PyStr.

(** ** Exceptions *)

Inductive exn : Type :=
| ValueError
| OverflowError
| StoreError.

Inductive result (A : Type) : Type :=
| Ok (a : A)
| Raise (e : exn).
Arguments Ok {A} a.
Arguments Raise {A} e.

Definition bind {A B} (r : result A) (k : A -> result B) : result B :=
  match r with
  | Ok a => k a
  | Raise e => Raise e
  end.

Notation "x <- c ;; k" := (bind c (fun x => k))
  (at level 61, c at next level, right associativity).

(** ** Python floats (IEEE 754 binary64, round to nearest, ties to even) *)

Module PyFloat.

(** A non-negative float: [Fin m e] is [m * 2^e]; the filter never builds a
    negative number or a NaN, since the text it converts holds digits and
    dots only. *)
Inductive float : Type :=
| Fin (m e : Z)
| Inf.

(** [round_ratio n d] is the binary64 number nearest to [n / d], for
    [0 <= n] and [0 < d]. *)
Definition round_ratio (n d : Z) : float :=
  if n =? 0 then Fin 0 0 else
  let e0 := Z.log2 n - Z.log2 d in
  let below :=
    if 0 <=? e0 then n <? d * 2 ^ e0 else n * 2 ^ (- e0) <? d in
  let e1 := if below then e0 - 1 else e0 in
  let ex := Z.max (e1 - 52) (-1074) in
  let num := if 0 <=? ex then n else n * 2 ^ (- ex) in
  let den := if 0 <=? ex then d * 2 ^ ex else d in
  let q := num / den in
  let r := num mod den in
  let m :=
    if 2 * r <? den then q
    else if den <? 2 * r then q + 1
    else if Z.even q then q else q + 1 in
  if (0 <=? ex) && (2 ^ 1024 <=? m * 2 ^ ex) then Inf else Fin m ex.

Definition of_Z (n : Z) : float := round_ratio n 1.

(** [x * y]. *)
Definition mul (x y : float) : float :=
  match x, y with
  | Fin m1 e1, Fin m2 e2 =>
      let m := m1 * m2 in
      let e := e1 + e2 in
      if 0 <=? e then round_ratio (m * 2 ^ e) 1 else round_ratio m (2 ^ (- e))
  | _, _ => Inf
  end.

(** [int(x)]: truncation; [int(inf)] raises [OverflowError]. *)
Definition to_int (x : float) : result Z :=
  match x with
  | Fin m e => Ok (if 0 <=? e then m * 2 ^ e else m / 2 ^ (- e))
  | Inf => Raise OverflowError
  end.

(** Splits at the first dot: the text before it, and the text after it when
    there is a dot. *)
Fixpoint split_dot (s : string) : string * option string :=
  match s with
  | EmptyString => (EmptyString, None)
  | String c s' =>
      if PyStr.is_dot c then (EmptyString, Some s')
      else let '(a, b) := split_dot s' in (String c a, b)
  end.

(** [float(s)] for a text [s] of digits and dots: digits, optionally one
    dot, at least one digit; anything else raises [ValueError]. *)
Definition of_string (s : string) : result float :=
  let '(ip, fo) := split_dot s in
  let fp := match fo with Some f => f | None => EmptyString end in
  if PyStr.forallb_str PyStr.is_digit ip
     && PyStr.forallb_str PyStr.is_digit fp
     && PyStr.truthy (ip ++ fp)%string
  then Ok (round_ratio (PyStr.digits_value (ip ++ fp)%string)
                       (10 ^ Z.of_nat (String.length fp)))
  else Raise ValueError.

End PyFloat.

(** Truthiness of a nullable integer: [None] and [0] are false. *)
Definition truthy_int (o : option Z) : bool :=
  match o with
  | Some z => negb (z =? 0)
  | None => false
  end.

(** [bound and val < bound], [bound and val > bound]. *)
Definition below_bound (bound : option Z) (val : Z) : bool :=
  match bound with
  | Some b => negb (b =? 0) && (val <? b)
  | None => false
  end.

Definition above_bound (bound : option Z) (val : Z) : bool :=
  match bound with
  | Some b => negb (b =? 0) && (val >? b)
  | None => false
  end.

(** What the body of the item loop does after a filter: go on to the
    insertion, or [continue] with the next item. *)
Inductive verdict : Type :=
| Admit
| Skip.

(** ** The deal tracker ([routes/deal_tracker.py]) *)

Module Deal.

(** The dictionaries built by the adapters; every adapter sets the six text
    keys, and only [scrape_serpapi] sets ['platform_override']. *)
Record RawItem : Type := mkRaw {
  r_title : string;
  r_price : string;
  r_location : string;
  r_url : string;
  r_image_url : string;
  r_description : string;
  r_platform_override : option string
}.

(** [models.DealTracker]. [platforms] is the decoded JSON list, [None] when
    the column is NULL or the empty text; [last_checked] is a time stamp. *)
Record DealTracker : Type := mkTracker {
  id : Z;
  search_query : string;
  category : string;
  city : option string;
  min_price : option Z;
  max_price : option Z;
  platforms : option (list string);
  whatsapp_number : string;
  is_active : bool;
  last_checked : option Z
}.

(** [models.DealListing]; a row is identified by its position in the
    table. *)
Record DealListing : Type := mkListing {
  tracker_id : Z;
  title : string;
  price : string;
  location : string;
  url : string;
  image_url : string;
  platform : string;
  description : string;
  is_new : bool
}.

(** The committed content of the database. *)
Record Store : Type := mkStore {
  trackers : list DealTracker;
  listings : list DealListing
}.

(** The requests of the four adapters, and what comes back: the call raised
    (time-out, DNS, HTTP error status), or the listings the adapter builds
    from the page it received. *)
Inductive Request : Type :=
| ReqSerpapi (site_query : string)
| ReqCardekho (query city category : string)
| ReqOlx (query city : string)
| ReqQuikr (query city category : string).

Inductive Response : Type :=
| Raised
| Page (items : list RawItem).

(** The world around one call: the network, the [serpapi_key] setting, and
    whether [db.session.commit()] raises while the given tracker is
    checked. *)
Record Env : Type := mkEnv {
  fetch : Request -> Response;
  serpapi_key : string;
  commit_raises : Z -> bool
}.

(** [try: requests.get(...) except Exception: return listings]. *)
Definition guarded (r : Response) : list RawItem :=
  match r with
  | Raised => []
  | Page items => items
  end.

Definition scrape_olx (env : Env) (query city : string) : list RawItem :=
  guarded (fetch env (ReqOlx query city)).

Definition scrape_quikr (env : Env) (query city category : string)
  : list RawItem :=
  guarded (fetch env (ReqQuikr query city category)).

Definition scrape_cardekho (env : Env) (query city category : string)
  : list RawItem :=
  if String.eqb category "cars" || String.eqb category "other"
     || String.eqb category "bikes"
  then guarded (fetch env (ReqCardekho query city category))
  else [].

(** The loop "Deduplicate by URL" that ends [scrape_serpapi]. *)
Fixpoint unique_by_url (seen_urls : list string) (items : list RawItem)
  : list RawItem :=
  match items with
  | [] => []
  | item :: rest =>
      if existsb (String.eqb (r_url item)) seen_urls
      then unique_by_url seen_urls rest
      else item :: unique_by_url (r_url item :: seen_urls) rest
  end.

Definition site_queries (query city : string) : list string :=
  [ (query ++ " " ++ city ++ " used buy site:olx.in OR site:quikr.com")%string;
    (query ++ " " ++ city ++ " used price buy sell")%string ].

Definition scrape_serpapi (env : Env) (query city category : string)
  : list RawItem :=
  if negb (PyStr.truthy (serpapi_key env)) then []
  else
    let listings :=
      flat_map (fun sq => guarded (fetch env (ReqSerpapi sq)))
        (site_queries query city) in
    unique_by_url [] listings.

(** The duplicate check: the session flushes the rows added so far before
    it runs the query, so the query sees them next to the committed rows. *)
Definition exists_listing (rows : list DealListing) (tid : Z) (u : string)
  : bool :=
  existsb (fun l => (tracker_id l =? tid) && String.eqb (url l) u) rows.

Definition numeric_class (c : ascii) : bool :=
  PyStr.is_digit c || PyStr.is_dot c.

(** The block under [if numeric:] up to [val = int(val)], for the text
    [numeric] and the outcome [lakh] of ['lakh' in price_text.lower()];
    [None] when [numeric] is empty. *)
Definition scaled_value (numeric : string) (lakh : bool)
  : result (option Z) :=
  if PyStr.truthy numeric then
    val <- PyFloat.of_string numeric ;;
    let val := if lakh then PyFloat.mul val (PyFloat.of_Z 100000) else val in
    val <- PyFloat.to_int val ;;
    Ok (Some val)
  else Ok None.

Definition mentions_lakh (price_text : string) : bool :=
  PyStr.contains "lakh" (PyStr.lower price_text).

(** The value the price filter compares:
    [numeric = re.sub(r'[^\d.]', '', price_text)], then the block above. *)
Definition price_value (price_text : string) : result (option Z) :=
  let numeric := PyStr.keep_chars numeric_class price_text in
  scaled_value numeric (mentions_lakh price_text).

Definition price_filter (mn mx : option Z) (price_text : string)
  : result verdict :=
  if truthy_int mn || truthy_int mx then
    ov <- price_value price_text ;;
    match ov with
    | None => Ok Admit
    | Some val =>
        if below_bound mn val then Ok Skip
        else if above_bound mx val then Ok Skip
        else Ok Admit
    end
  else Ok Admit.

Definition new_listing (tid : Z) (platform item_url : string)
    (item : RawItem) : DealListing :=
  {| tracker_id := tid;
     title := PyStr.take 500 (r_title item);
     price := PyStr.take 100 (r_price item);
     location := PyStr.take 200 (r_location item);
     url := PyStr.take 1000 item_url;
     image_url := PyStr.take 1000 (r_image_url item);
     platform := match r_platform_override item with
                 | Some p => p
                 | None => platform
                 end;
     description := r_description item;
     is_new := true |}.

(** One turn of [for item in raw], for the tracker [tid] with the bounds
    [mn] and [mx]: [new_listings] are the rows added to the session so
    far. *)
Definition process_item (tid : Z) (mn mx : option Z)
    (committed : list DealListing) (platform : string)
    (new_listings : list DealListing) (item : RawItem)
  : result (list DealListing) :=
  let item_url := PyStr.strip (r_url item) in
  if negb (PyStr.truthy item_url) then Ok new_listings
  else if exists_listing (committed ++ new_listings) tid item_url
  then Ok new_listings
  else
    v <- price_filter mn mx (r_price item) ;;
    match v with
    | Skip => Ok new_listings
    | Admit => Ok (new_listings ++ [new_listing tid platform item_url item])
    end.

Fixpoint process_items (t : DealTracker) (committed : list DealListing)
    (platform : string) (new_listings : list DealListing)
    (raw : list RawItem) : result (list DealListing) :=
  match raw with
  | [] => Ok new_listings
  | item :: rest =>
      acc <- process_item (id t) (min_price t) (max_price t) committed
               platform new_listings item ;;
      process_items t committed platform acc rest
  end.

(** The adapter chosen for a platform, [None] for an unknown one. *)
Definition scrape (env : Env) (t : DealTracker) (city platform : string)
  : option (list RawItem) :=
  if String.eqb platform "serpapi"
  then Some (scrape_serpapi env (search_query t) city (category t))
  else if String.eqb platform "cardekho"
  then Some (scrape_cardekho env (search_query t) city (category t))
  else if String.eqb platform "olx"
  then Some (scrape_olx env (search_query t) city)
  else if String.eqb platform "quikr"
  then Some (scrape_quikr env (search_query t) city (category t))
  else None.

Fixpoint process_platforms (env : Env) (t : DealTracker)
    (committed : list DealListing) (city : string)
    (new_listings : list DealListing) (ps : list string)
  : result (list DealListing) :=
  match ps with
  | [] => Ok new_listings
  | platform :: rest =>
      match scrape env t city platform with
      | None => process_platforms env t committed city new_listings rest
      | Some raw =>
          acc <- process_items t committed platform new_listings raw ;;
          process_platforms env t committed city acc rest
      end
  end.

Definition set_last_checked (tid now : Z) (t : DealTracker) : DealTracker :=
  if id t =? tid
  then {| id := id t; search_query := search_query t;
          category := category t; city := city t;
          min_price := min_price t; max_price := max_price t;
          platforms := platforms t; whatsapp_number := whatsapp_number t;
          is_active := is_active t; last_checked := Some now |}
  else t.

(** [json.loads(tracker.platforms) if tracker.platforms else ['serpapi']]. *)
Definition tracker_platforms (t : DealTracker) : list string :=
  match platforms t with
  | Some ps => ps
  | None => ["serpapi"]
  end.

(** [(tracker.city or 'Mumbai').strip().lower()]. *)
Definition tracker_city (t : DealTracker) : string :=
  PyStr.lower (PyStr.strip
    (match city t with
     | Some c => if PyStr.truthy c then c else "Mumbai"
     | None => "Mumbai"
     end)).

(** [check_tracker(tracker)] at time [now]: the new store and the list it
    returns, or the exception that leaves it (nothing is committed then). *)
Definition check_tracker (env : Env) (now : Z) (t : DealTracker) (s : Store)
  : result (Store * list DealListing) :=
  let ps := tracker_platforms t in
  let city := tracker_city t in
  new_listings <- process_platforms env t (listings s) city [] ps ;;
  if commit_raises env (id t) then Raise StoreError
  else Ok ({| trackers := map (set_last_checked (id t) now) (trackers s);
              listings := listings s ++ new_listings |},
           new_listings).

(** The network calls that the check of [t] makes for one platform. *)
Definition requests_of (t : DealTracker) (platform : string)
  : list Request :=
  let query := search_query t in
  let city := tracker_city t in
  if String.eqb platform "serpapi"
  then map ReqSerpapi (site_queries query city)
  else if String.eqb platform "cardekho"
  then [ReqCardekho query city (category t)]
  else if String.eqb platform "olx"
  then [ReqOlx query city]
  else if String.eqb platform "quikr"
  then [ReqQuikr query city (category t)]
  else [].

(** Every network call of the check of [t] raises. *)
Definition calls_raise (env : Env) (t : DealTracker) : Prop :=
  forall platform req,
    In platform (tracker_platforms t) ->
    In req (requests_of t platform) ->
    fetch env req = Raised.

(** [db.session.get(DealTracker, tracker_id)]. *)
Definition get_tracker (s : Store) (tid : Z) : option DealTracker :=
  find (fun t => id t =? tid) (trackers s).

(** The route [/check/<tracker_id>]: the store after the request; a request
    that ends in an exception commits nothing. *)
Definition check_single (env : Env) (now : Z) (tid : Z) (s : Store)
  : result Store :=
  match get_tracker s tid with
  | None => Ok s
  | Some t =>
      r <- check_tracker env now t s ;;
      Ok (fst r)
  end.

(** The route [/results/<tracker_id>]: "Mark viewed listings as not new". *)
Definition mark_viewed (tid : Z) (l : DealListing) : DealListing :=
  if (tracker_id l =? tid) && is_new l
  then {| tracker_id := tracker_id l; title := title l; price := price l;
          location := location l; url := url l; image_url := image_url l;
          platform := platform l; description := description l;
          is_new := false |}
  else l.

Definition results (tid : Z) (s : Store) : Store :=
  match get_tracker s tid with
  | None => s
  | Some _ =>
      {| trackers := trackers s;
         listings := map (mark_viewed tid) (listings s) |}
  end.

(** The route [/check-all]: the loop has no handler, so an exception of
    [check_tracker] leaves [check_all]; what earlier turns committed stays
    committed. The result pairs the committed store with the outcome: the
    total of new listings, or the exception. *)
Fixpoint check_all_loop (env : Env) (now : Z) (ts : list DealTracker)
    (s : Store) (total_new : Z) : Store * result Z :=
  match ts with
  | [] => (s, Ok total_new)
  | tracker :: rest =>
      match check_tracker env now tracker s with
      | Raise e => (s, Raise e)
      | Ok (s', new) =>
          check_all_loop env now rest s'
            (total_new + Z.of_nat (List.length new))
      end
  end.

Definition check_all (env : Env) (now : Z) (s : Store) : Store * result Z :=
  check_all_loop env now (filter is_active (trackers s)) s 0.

(** The requests that touch the listings: the pipeline ([/check/<id>] and
    [/check-all]) and the view path ([/results/<id>]). [step] is the
    committed store once the request is over. *)
Inductive Op : Type :=
| OpCheck (env : Env) (now : Z) (tid : Z)
| OpCheckAll (env : Env) (now : Z)
| OpView (tid : Z).

Definition step (s : Store) (o : Op) : Store :=
  match o with
  | OpCheck env now tid =>
      match check_single env now tid s with
      | Ok s' => s'
      | Raise _ => s
      end
  | OpCheckAll env now => fst (check_all env now s)
  | OpView tid => results tid s
  end.

Definition run (ops : list Op) (s : Store) : Store := fold_left step ops s.

(** The dedup invariant: no two rows agree on [tracker_id] and [url]. *)
Definition key (l : DealListing) : Z * string := (tracker_id l, url l).

Definition distinct_urls (rows : list DealListing) : Prop :=
  NoDup (map key rows).

(** The URLs that fit the column [url], of 1000 characters. *)
Definition short_url (item : RawItem) : Prop :=
  (String.length (PyStr.strip (r_url item)) <= 1000)%nat.

Definition short_urls (env : Env) : Prop :=
  forall req items, fetch env req = Page items -> Forall short_url items.

Definition op_short (o : Op) : Prop :=
  match o with
  | OpCheck env _ _ => short_urls env
  | OpCheckAll env _ => short_urls env
  | OpView _ => True
  end.

(** An item that a check leaves alone, given the rows in the session: it
    has no URL, or its URL is stored, or the price filter skips it. *)
Definition settled (tid : Z) (mn mx : option Z) (rows : list DealListing)
    (item : RawItem) : Prop :=
  PyStr.truthy (PyStr.strip (r_url item)) = false
  \/ exists_listing rows tid (PyStr.strip (r_url item)) = true
  \/ price_filter mn mx (r_price item) = Ok Skip.

End Deal.

(** ** The hotel tracker ([routes/hotel_tracker.py]) *)

Module Hotel.

Record RawItem : Type := mkRaw {
  r_name : string;
  r_price : string;
  r_rating : string;
  r_location : string;
  r_url : string;
  r_image_url : string;
  r_description : string
}.

Record HotelListing : Type := mkListing {
  tracker_id : Z;
  name : string;
  price : string;
  rating : string;
  location : string;
  url : string;
  image_url : string;
  platform : string;
  description : string;
  is_new : bool
}.

Definition exists_listing (rows : list HotelListing) (tid : Z) (u : string)
  : bool :=
  existsb (fun l => (tracker_id l =? tid) && String.eqb (url l) u) rows.

(** The price filter of [check_hotel_tracker]: here the dots are deleted
    too and the digits are read by [int]. *)
Definition price_filter (mn mx : option Z) (price_text : string) : verdict :=
  if truthy_int mn || truthy_int mx then
    let numeric := PyStr.keep_chars PyStr.is_digit price_text in
    if PyStr.truthy numeric then
      let val := PyStr.digits_value numeric in
      if below_bound mn val then Skip
      else if above_bound mx val then Skip
      else Admit
    else Admit
  else Admit.

Definition new_listing (tid : Z) (platform item_url : string)
    (item : RawItem) : HotelListing :=
  {| tracker_id := tid;
     name := PyStr.take 500 (r_name item);
     price := PyStr.take 100 (r_price item);
     rating := PyStr.take 50 (r_rating item);
     location := PyStr.take 200 (r_location item);
     url := PyStr.take 1000 item_url;
     image_url := PyStr.take 1000 (r_image_url item);
     platform := platform;
     description := r_description item;
     is_new := true |}.

(** One turn of [for item in raw] in [check_hotel_tracker], for the tracker
    [tid] with the bounds [mn] and [mx]. *)
Definition process_item (tid : Z) (mn mx : option Z)
    (committed : list HotelListing) (platform : string)
    (new_listings : list HotelListing) (item : RawItem)
  : list HotelListing :=
  let item_url := PyStr.strip (r_url item) in
  if negb (PyStr.truthy item_url) then new_listings
  else if exists_listing (committed ++ new_listings) tid item_url
  then new_listings
  else
    match price_filter mn mx (r_price item) with
    | Skip => new_listings
    | Admit => new_listings ++ [new_listing tid platform item_url item]
    end.

End Hotel.

(** ** Lead scoring ([routes/youtube_leads.py]) *)

Module YouTube.

Definition BUSINESS_KEYWORDS : list (string * Z) :=
  [ ("interested", 20); ("price", 20); ("pricing", 20); ("cost", 20);
    ("rate", 15);
    ("bulk", 20); ("supplier", 20); ("supply", 15); ("vendor", 15);
    ("dealer", 15);
    ("contact", 20); ("whatsapp", 20); ("order", 20); ("buy", 15);
    ("purchase", 15);
    ("available", 15); ("stock", 15); ("deliver", 15); ("delivery", 15);
    ("ship", 15);
    ("shipping", 15); ("wholesale", 20); ("distributor", 20);
    ("quotation", 20);
    ("quote", 20); ("sample", 15); ("catalog", 15); ("catalogue", 15);
    ("need", 10); ("require", 10); ("looking for", 15); ("want to buy", 20);
    ("export", 15); ("import", 15); ("business", 10); ("company", 10) ].

(** The comment dictionaries of [fetch_video_comments]. *)
Record Comment : Type := mkComment {
  c_author : string;
  c_author_channel : string;
  c_text : string;
  c_likes : Z;
  c_published : string
}.

Record Lead : Type := mkLead {
  author : string;
  author_channel : string;
  text : string;
  likes : Z;
  published : string;
  emails : list string;
  phones : list string;
  score : Z;
  keywords : list string
}.

(** [leads.sort(key=lambda x: x['score'], reverse=True)]: the sort of
    Python is stable, also with [reverse=True], so its result is the one of
    any stable sort by decreasing score. [insert_lead] puts a lead after the
    leads of strictly greater score only. *)
Fixpoint insert_lead (x : Lead) (l : list Lead) : list Lead :=
  match l with
  | [] => [x]
  | y :: l' => if score x <? score y then y :: insert_lead x l' else x :: l
  end.

Fixpoint sort_leads (l : list Lead) : list Lead :=
  match l with
  | [] => []
  | x :: l' => insert_lead x (sort_leads l')
  end.

Definition count_digits (s : string) : nat :=
  String.length (PyStr.keep_chars PyStr.is_digit s).

Section Scoring.

(** The standard library of Python is outside the repository:
    [EMAIL_findall] and [PHONE_findall] stand for [findall] of the two
    compiled patterns, and [published_at] for the instant, in microseconds,
    that [datetime.fromisoformat] reads from the text once ['Z'] is replaced
    by ['+00:00']; it is [None] when the [try] block ends in [ValueError] or
    [TypeError]. [now] is [datetime.now(timezone.utc)]. *)
Variable EMAIL_findall : string -> list string.
Variable PHONE_findall : string -> list string.
Variable published_at : string -> option Z.
Variable now : Z.

Definition thirty_days : Z := 30 * 86400 * 1000000.

(** The loop over [BUSINESS_KEYWORDS.items()], on the pair of [score] and
    [matched_keywords]. *)
Definition keyword_step (text_lower : string) (st : Z * list string)
    (entry : string * Z) : Z * list string :=
  let '(kw, pts) := entry in
  if PyStr.contains kw text_lower
  then (fst st + pts, snd st ++ [kw])
  else st.

Definition keyword_loop (text_lower : string) (st : Z * list string)
  : Z * list string :=
  fold_left (keyword_step text_lower) BUSINESS_KEYWORDS st.

Definition image_suffix (e : string) : bool :=
  PyStr.endswith e ".png" || PyStr.endswith e ".jpg"
  || PyStr.endswith e ".gif" || PyStr.endswith e ".mp4".

Definition lead_emails (text : string) : list string :=
  filter (fun e => negb (image_suffix e)) (EMAIL_findall text).

Definition lead_phones (text : string) : list string :=
  map PyStr.strip
    (filter (fun p => (7 <=? count_digits p)%nat) (PHONE_findall text)).

Definition nonempty {A} (l : list A) : bool :=
  match l with [] => false | _ => true end.

Definition recent (published : string) : bool :=
  match published_at published with
  | Some pub_date => now - pub_date <? thirty_days
  | None => false
  end.

(** The body of [for c in comments] after the keyword filter. *)
Definition lead_of (c : Comment) : Lead :=
  let text := c_text c in
  let text_lower := PyStr.lower text in
  let emails := lead_emails text in
  let phones := lead_phones text in
  let score := 0 in
  let score := if nonempty emails then score + 50 else score in
  let score := if nonempty phones then score + 40 else score in
  let '(score, matched_keywords) := keyword_loop text_lower (score, []) in
  let score := if 5 <=? c_likes c then score + 10 else score in
  let score := if recent (c_published c) then score + 10 else score in
  {| author := c_author c; author_channel := c_author_channel c;
     text := text; likes := c_likes c; published := c_published c;
     emails := emails; phones := phones; score := score;
     keywords := matched_keywords |}.

(** [if kw_filter and kw_filter not in text_lower: continue]. *)
Definition passes (kw_filter : string) (c : Comment) : bool :=
  negb (PyStr.truthy kw_filter
        && negb (PyStr.contains kw_filter (PyStr.lower (c_text c)))).

Definition extract_leads_from_comments (comments : list Comment)
    (keyword_filter : string) : list Lead :=
  let kw_filter := PyStr.strip (PyStr.lower keyword_filter) in
  sort_leads (map lead_of (filter (passes kw_filter) comments)).

End Scoring.

(** "Non-increasing score order". *)
Definition by_score_desc (a b : Lead) : Prop := score b <= score a.

(** What one entry of [BUSINESS_KEYWORDS] adds when each matched entry
    counts once: its weight when the keyword occurs in the text, however
    often, and nothing otherwise. *)
Definition entry_points (text_lower : string) (entry : string * Z) : Z :=
  if (1 <=? PyStr.occurrences (fst entry) text_lower)%nat
  then snd entry else 0.

Fixpoint sum_Z (l : list Z) : Z :=
  match l with
  | [] => 0
  | x :: l' => x + sum_Z l'
  end.

End YouTube.

(** ** The price rule as section 4.3 of the specification words it *)

Module SpecWords.

Fixpoint take_run (s : string) : string :=
  match s with
  | EmptyString => EmptyString
  | String c s' =>
      if Deal.numeric_class c then String c (take_run s') else EmptyString
  end.

(** "The first decimal run" of the price text: from its first digit on, the
    characters as long as they are digits or dots. *)
Fixpoint first_decimal_run (s : string) : string :=
  match s with
  | EmptyString => EmptyString
  | String c s' =>
      if PyStr.is_digit c then String c (take_run s')
      else first_decimal_run s'
  end.

(** The value compared with the bounds: the first decimal run, multiplied
    by 100,000 exactly when "lakh" occurs in the text. *)
Definition price_value (price_text : string) : result (option Z) :=
  Deal.scaled_value (first_decimal_run price_text)
                    (Deal.mentions_lakh price_text).

End SpecWords.

(** A price text cut into separators and runs: [assemble] puts the pieces
    back together, [runs] joins the runs alone. *)
Fixpoint assemble (chunks : list (string * string)) (tail : string)
  : string :=
  match chunks with
  | [] => tail
  | (sep, run) :: rest => (sep ++ run ++ assemble rest tail)%string
  end.

Fixpoint runs (chunks : list (string * string)) : string :=
  match chunks with
  | [] => EmptyString
  | (_, run) :: rest => (run ++ runs rest)%string
  end.

Definition no_numeric (s : string) : bool :=
  PyStr.forallb_str (fun c => negb (Deal.numeric_class c)) s.

Definition all_numeric (s : string) : bool :=
  PyStr.forallb_str Deal.numeric_class s.

Definition well_cut (chunks : list (string * string)) (tail : string)
  : bool :=
  forallb (fun ch => no_numeric (fst ch) && all_numeric (snd ch)) chunks
  && no_numeric tail.

(** ** Scenarios *)

Module Scenario.

(** The rupee sign, U+20B9, in UTF-8. *)
Definition rupee : string :=
  String "226" (String "130" (String "185" EmptyString)).

Definition three_lakh : string := (rupee ++ "3 Lakh")%string.

Definition tracker (tid : Z) (mn mx : option Z) : Deal.DealTracker :=
  {| Deal.id := tid; Deal.search_query := "iphone 13";
     Deal.category := "phones"; Deal.city := Some "Mumbai";
     Deal.min_price := mn; Deal.max_price := mx;
     Deal.platforms := Some ["olx"]; Deal.whatsapp_number := EmptyString;
     Deal.is_active := true; Deal.last_checked := None |}.

Definition item (u p : string) : Deal.RawItem :=
  {| Deal.r_title := "iPhone 13 128GB"; Deal.r_price := p;
     Deal.r_location := "Mumbai"; Deal.r_url := u;
     Deal.r_image_url := EmptyString;
     Deal.r_description := EmptyString;
     Deal.r_platform_override := None |}.

(** The OLX page lists [items]; every other request raises. *)
Definition olx_env (items : list Deal.RawItem) (fails : Z -> bool)
  : Deal.Env :=
  {| Deal.fetch := fun req =>
       match req with
       | Deal.ReqOlx _ _ => Deal.Page items
       | _ => Deal.Raised
       end;
     Deal.serpapi_key := EmptyString;
     Deal.commit_raises := fails |}.

(** The request to OLX raises; the other sites answer with [items]. *)
Definition olx_down_env (items : list Deal.RawItem) : Deal.Env :=
  {| Deal.fetch := fun req =>
       match req with
       | Deal.ReqOlx _ _ => Deal.Raised
       | _ => Deal.Page items
       end;
     Deal.serpapi_key := "key";
     Deal.commit_raises := fun _ => false |}.

Definition never : Z -> bool := fun _ => false.

(** A URL of 1024 characters. *)
Definition long_url : string :=
  ("https://www.olx.in/item/" ++ PyStr.repeat_str "a" 1000)%string.

Definition one_tracker : Deal.Store :=
  {| Deal.trackers := [tracker 1 None None]; Deal.listings := [] |}.

Definition two_trackers : Deal.Store :=
  {| Deal.trackers := [tracker 1 None None; tracker 2 None None];
     Deal.listings := [] |}.

Definition viewed_listing : Deal.DealListing :=
  {| Deal.tracker_id := 1; Deal.title := "iPhone 13 128GB";
     Deal.price := "5000"; Deal.location := "Mumbai";
     Deal.url := "https://www.olx.in/item/1";
     Deal.image_url := EmptyString; Deal.platform := "olx";
     Deal.description := EmptyString; Deal.is_new := false |}.

Definition viewed_store : Deal.Store :=
  {| Deal.trackers := [tracker 1 None None];
     Deal.listings := [viewed_listing] |}.

Definition some_ops : list Deal.Op :=
  [ Deal.OpCheck (olx_env [item "https://www.olx.in/item/2" "5000"] never)
      10 1;
    Deal.OpView 1;
    Deal.OpCheckAll
      (olx_env [item "https://www.olx.in/item/1" "4000";
                item "https://www.olx.in/item/3" "6000"] never) 20 ].

(** The commit raises while tracker 1 is checked. *)
Definition first_fails : Z -> bool := fun tid => tid =? 1.

Definition comment (t : string) (n : Z) : YouTube.Comment :=
  {| YouTube.c_author := "viewer"; YouTube.c_author_channel := EmptyString;
     YouTube.c_text := t; YouTube.c_likes := n;
     YouTube.c_published := EmptyString |}.

Definition comments : list YouTube.Comment :=
  [ comment "Nice video" 0;
    comment "PRICE? price please, what is the price" 2;
    comment "Need bulk supplier, share contact" 7;
    comment "What is the rate" 9 ].

Definition urls_of (tid : Z) (s : Deal.Store) : list string :=
  map Deal.url
    (filter (fun l => Deal.tracker_id l =? tid) (Deal.listings s)).

End Scenario.

(** ** Rounding to binary64, as IEEE 754 words it

    The relations below say what the conversions of the price filter are to
    compute, without computing it: they are what [PyFloat] is compared
    with. Fractions are pairs of integers, so that no division is needed. *)

Module Binary64.

(** The fraction [n/d] divided by [2^e], as a fraction again: the
    numerator is the first component, the denominator the second. *)
Definition shifted (n d e : Z) : Z * Z :=
  if 0 <=? e then (n, d * 2 ^ e) else (n * 2 ^ (- e), d).

(** [m] is the integer nearest to [num/den], and the even one when two
    integers are as near: [|m - num/den| <= 1/2], with the bound reached
    for an even [m] only. *)
Definition nearest_even (num den m : Z) : Prop :=
  Z.abs (2 * (m * den - num)) <= den
  /\ (Z.abs (2 * (m * den - num)) = den -> Z.even m = true).

(** [m * 2^e] is the binary64 number that the fraction [n/d], not negative
    and below [2^1024], rounds to. With [num/den] for [n/d] counted in
    units of [2^e]:
    - [e] is not below -1074, the least exponent of binary64;
    - [num/den < 2^53]: the units are not too small for 53 bits;
    - [2^52 <= num/den], unless [e] is -1074: the units are not larger
      than 53 bits allow;
    - [m] is [num/den] rounded to the nearest integer, ties to even. *)
Definition rounds_to (n d m e : Z) : Prop :=
  -1074 <= e
  /\ fst (shifted n d e) < 2 ^ 53 * snd (shifted n d e)
  /\ (2 ^ 52 * snd (shifted n d e) <= fst (shifted n d e) \/ e = -1074)
  /\ nearest_even (fst (shifted n d e)) (snd (shifted n d e)) m.

(** The number [m * 2^e] as a fraction. *)
Definition value (m e : Z) : Z * Z := shifted m 1 (- e).

(** [v] is [m * 2^e] without its fractional part:
    [v <= m * 2^e < v + 1]. *)
Definition truncates_to (m e v : Z) : Prop :=
  v * snd (value m e) <= fst (value m e) < (v + 1) * snd (value m e).


End Binary64.

(** * The rest of the pipeline *)

From Stdlib Require Import DecimalString.

(** ** The location filter of the CarDekho adapter
    ([routes/deal_tracker.py]) *)

Module Location.

Definition KERALA_CITIES : list string :=
  [ "thiruvananthapuram"; "trivandrum"; "kochi"; "ernakulam"; "kozhikode";
    "calicut"; "thrissur"; "kollam"; "palakkad"; "alappuzha"; "kannur";
    "kottayam"; "malappuram"; "pathanamthitta"; "idukki"; "wayanad";
    "kasaragod"; "kattappana"; "perumbavoor"; "angamaly"; "aluva";
    "changanassery"; "thodupuzha"; "munnar"; "guruvayur"; "kodungallur" ].

(** [STATE_CITIES.get(key)]. *)
Definition STATE_CITIES (key : string) : option (list string) :=
  if String.eqb key "kerala" then Some KERALA_CITIES else None.

(** [s.replace(a, b)] for single characters. *)
Fixpoint replace_char (a b : ascii) (s : string) : string :=
  match s with
  | EmptyString => EmptyString
  | String c s' =>
      String (if Ascii.eqb c a then b else c) (replace_char a b s')
  end.

Definition nonempty {A} (l : list A) : bool :=
  match l with [] => false | _ => true end.

Definition _is_location_match (location city_input : string) : bool :=
  if negb (PyStr.truthy location) then true
  else
    let loc_lower := replace_char "-" " " (PyStr.lower location) in
    let city_lower := PyStr.strip (PyStr.lower city_input) in
    if PyStr.contains city_lower loc_lower
       || PyStr.contains loc_lower city_lower
    then true
    else
      match STATE_CITIES city_lower with
      | Some state_cities =>
          if nonempty state_cities
          then existsb (String.eqb loc_lower) state_cities
               || existsb (fun c => PyStr.contains c loc_lower) state_cities
          else false
      | None => false
      end.

End Location.

(** ** Rows and bounds of the deal tracker *)

Module DealRows.

(** The lengths of the columns of [models.DealListing] that
    [check_tracker] cuts its texts to. *)
Definition fits_columns (l : Deal.DealListing) : Prop :=
  (String.length (Deal.title l) <= 500)%nat
  /\ (String.length (Deal.price l) <= 100)%nat
  /\ (String.length (Deal.location l) <= 200)%nat
  /\ (String.length (Deal.url l) <= 1000)%nat
  /\ (String.length (Deal.image_url l) <= 1000)%nat.

(** A row as [check_tracker] creates it for the tracker [tid]. *)
Definition fresh_row (tid : Z) (l : Deal.DealListing) : Prop :=
  Deal.tracker_id l = tid
  /\ Deal.is_new l = true
  /\ Deal.url l <> EmptyString
  /\ fits_columns l.

(** [v] lies within the bounds that are set; a bound that is None or 0 is
    not set. *)
Definition within (mn mx : option Z) (v : Z) : Prop :=
  (forall b, mn = Some b -> b <> 0 -> b <= v)
  /\ (forall b, mx = Some b -> b <> 0 -> v <= b).

Definition owned_by_active (s : Deal.Store) (l : Deal.DealListing) : Prop :=
  exists t, In t (Deal.trackers s) /\ Deal.is_active t = true
            /\ Deal.id t = Deal.tracker_id l.

End DealRows.

(** ** The WhatsApp alert ([send_deal_alert], [routes/deal_tracker.py]) *)

Module Alert.

(** U+1F514, U+1F4CD and U+1F517 in UTF-8. *)
Definition bell : string :=
  String "240" (String "159" (String "148" (String "148" EmptyString))).
Definition pin : string :=
  String "240" (String "159" (String "147" (String "141" EmptyString))).
Definition link : string :=
  String "240" (String "159" (String "148" (String "151" EmptyString))).

Definition newline : string := String "010" EmptyString.

(** [str(n)] for a length or an index. *)
Definition str_of_nat (n : nat) : string :=
  NilEmpty.string_of_uint (Nat.to_uint n).

(** [s.lstrip('0')]. *)
Fixpoint lstrip_zeros (s : string) : string :=
  match s with
  | EmptyString => EmptyString
  | String c s' => if Ascii.eqb c "0" then lstrip_zeros s' else s
  end.

(** The number the message is sent to. *)
Definition alert_phone (whatsapp_number : string) : string :=
  let phone := PyStr.strip whatsapp_number in
  if negb (String.prefix "+" phone)
  then ("+91" ++ lstrip_zeros phone)%string
  else phone.

(** The lines that one listing adds, [i] being its number. *)
Definition entry_lines (i : nat) (listing : Deal.DealListing)
  : list string :=
  [ (str_of_nat i ++ ". " ++ Deal.title listing ++ " - "
     ++ Deal.price listing)%string ]
  ++ (if PyStr.truthy (Deal.location listing)
      then [ ("   " ++ pin ++ " " ++ Deal.location listing)%string ]
      else [])
  ++ (if PyStr.truthy (Deal.url listing)
      then [ ("   " ++ link ++ " " ++ Deal.url listing)%string ]
      else [])
  ++ [ EmptyString ].

(** [for i, listing in enumerate(..., 1)], counting from [i]. *)
Fixpoint entries (i : nat) (ls : list Deal.DealListing) : list string :=
  match ls with
  | [] => []
  | listing :: rest => entry_lines i listing ++ entries (S i) rest
  end.

(** [f'{tracker.city}']: a NULL city prints as None. *)
Definition city_text (t : Deal.DealTracker) : string :=
  match Deal.city t with
  | Some c => c
  | None => "None"
  end.

Definition alert_lines (t : Deal.DealTracker)
    (new_listings : list Deal.DealListing) : list string :=
  [ (bell ++ " Deal Alert: " ++ Deal.search_query t ++ newline)%string;
    (str_of_nat (List.length new_listings) ++ " new listing(s) found in "
     ++ city_text t ++ ":" ++ newline)%string ]
  ++ entries 1 (firstn 10 new_listings)
  ++ (if (10 <? List.length new_listings)%nat
      then [ ("... and " ++ str_of_nat (List.length new_listings - 10)
              ++ " more.")%string ]
      else []).

(** The two transports of [routes/whatsapp_sender.py]; neither raises. *)
Inductive Transport : Type :=
| Twilio
| Pywhatkit.

Record Dispatch : Type := mkDispatch {
  via : Transport;
  phone : string;
  message : string
}.

(** [send_deal_alert(tracker, new_listings)], [wa_mode] being the setting
    [whatsapp_mode]: the message handed to a transport, or [None] when the
    function returns before. *)
Definition send_deal_alert (wa_mode : string) (t : Deal.DealTracker)
    (new_listings : list Deal.DealListing) : option Dispatch :=
  if negb (PyStr.truthy (Deal.whatsapp_number t))
     || negb (Location.nonempty new_listings)
  then None
  else
    Some {| via := if String.eqb wa_mode "twilio" then Twilio else Pywhatkit;
            phone := alert_phone (Deal.whatsapp_number t);
            message := String.concat newline (alert_lines t new_listings) |}.

End Alert.

(** ** Fetching and scanning comments ([routes/youtube_leads.py]) *)

Module Comments.

(** What the YouTube API answers to one request of [fetch_video_comments]:
    the request raised or its status is not 200, or a page of comments with
    its [nextPageToken]. The API is outside the repository; it is a function
    of the page token and of [maxResults]. *)
Inductive ApiResponse : Type :=
| ApiFailed
| ApiPage (items : list YouTube.Comment) (nextPageToken : option string).

Definition Api : Type := option string -> Z -> ApiResponse.

(** How [fetch_video_comments] ends: it returns the comments, an exception
    leaves it, or the loop is still running when the fuel is spent. *)
Inductive Fetched : Type :=
| Returned (comments : list YouTube.Comment)
| ApiError
| OutOfFuel.

(** [for item in data.get('items', [])], with its [break]. *)
Fixpoint take_items (max_results : Z) (items : list YouTube.Comment)
    (comments : list YouTube.Comment) (fetched : Z)
  : list YouTube.Comment * Z :=
  match items with
  | [] => (comments, fetched)
  | item :: rest =>
      let comments := comments ++ [item] in
      let fetched := fetched + 1 in
      if fetched >=? max_results then (comments, fetched)
      else take_items max_results rest comments fetched
  end.

(** [while fetched < max_results]. *)
Fixpoint fetch_loop (fuel : nat) (api : Api) (per_page max_results : Z)
    (page_token : option string) (comments : list YouTube.Comment)
    (fetched : Z) : Fetched :=
  if fetched <? max_results then
    match fuel with
    | O => OutOfFuel
    | S fuel' =>
        match api page_token per_page with
        | ApiFailed => ApiError
        | ApiPage items next =>
            let '(comments, fetched) :=
              take_items max_results items comments fetched in
            match next with
            | Some token =>
                if PyStr.truthy token
                then fetch_loop fuel' api per_page max_results (Some token)
                       comments fetched
                else Returned comments
            | None => Returned comments
            end
        end
    end
  else Returned comments.

Definition fetch_video_comments (fuel : nat) (api : Api) (max_results : Z)
  : Fetched :=
  let per_page := Z.min max_results 100 in
  fetch_loop fuel api per_page max_results None [] 0.

(** The states in which the loop sends a request: the first one, with no
    page token and no comment, and the one that follows each page that has
    a successor, with the token of that page and the comments read so
    far. *)
Inductive reached (api : Api) (max_results : Z)
  : option string -> list YouTube.Comment -> Z -> Prop :=
| reached_first : reached api max_results None [] 0
| reached_next (page_token : option string)
    (comments : list YouTube.Comment) (fetched : Z)
    (items : list YouTube.Comment) (token : string)
    (comments' : list YouTube.Comment) (fetched' : Z) :
    reached api max_results page_token comments fetched ->
    fetched < max_results ->
    api page_token (Z.min max_results 100) = ApiPage items (Some token) ->
    PyStr.truthy token = true ->
    take_items max_results items comments fetched = (comments', fetched') ->
    reached api max_results (Some token) comments' fetched'.

(** An API that never answers with an empty page that has a successor. *)
Definition productive (api : Api) : Prop :=
  forall page_token per_page token,
    api page_token per_page = ApiPage [] (Some token) ->
    PyStr.truthy token = false.

(** [max_results = min(max(max_results, 10), 500)] of the route [scan]. *)
Definition scan_max_results (max_results : Z) : Z :=
  Z.min (Z.max max_results 10) 500.

(** The statistics of [scan]. *)
Definition leads_with_contact (leads : list YouTube.Lead)
  : list YouTube.Lead :=
  filter (fun l => YouTube.nonempty (YouTube.emails l)
                   || YouTube.nonempty (YouTube.phones l)) leads.

Definition high_intent (leads : list YouTube.Lead) : list YouTube.Lead :=
  filter (fun l => 30 <=? YouTube.score l) leads.

End Comments.

(** ** Saving leads as contacts ([save_leads], [routes/youtube_leads.py]) *)

Module SaveLeads.

(** One entry of the posted list, [author] being absent when the key is. *)
Record LeadForm : Type := mkLeadForm {
  f_author : option string;
  f_email : string;
  f_phone : string;
  f_notes : string
}.

(** The columns of [models.Contact] that [save_leads] sets. *)
Record Contact : Type := mkContact {
  company_name : string;
  contact_person : string;
  email : string;
  phone : string;
  whatsapp : string;
  source : string;
  status : string;
  notes : string
}.

Definition contact_of (lead : LeadForm) : Contact :=
  let name := match f_author lead with
              | Some a => a
              | None => "YouTube Lead"
              end in
  {| company_name := name; contact_person := name;
     email := f_email lead; phone := f_phone lead;
     whatsapp := f_phone lead; source := "youtube"; status := "new";
     notes := f_notes lead |}.

(** [db.session.query(Contact).filter_by(email=email).first()]; the rows
    added so far in the request are among [contacts]. *)
Definition email_known (contacts : list Contact) (e : string) : bool :=
  existsb (fun c => String.eqb (email c) e) contacts.

Fixpoint save_loop (contacts : list Contact) (saved : Z)
    (leads : list LeadForm) : list Contact * Z :=
  match leads with
  | [] => (contacts, saved)
  | lead :: rest =>
      if negb (PyStr.truthy (f_email lead))
         && negb (PyStr.truthy (f_phone lead))
      then save_loop contacts saved rest
      else if PyStr.truthy (f_email lead)
              && email_known contacts (f_email lead)
      then save_loop contacts saved rest
      else save_loop (contacts ++ [contact_of lead]) (saved + 1) rest
  end.

(** The request: [None] stands for a body without the key ['leads'], which
    is answered with the status 400 and changes nothing. *)
Definition save_leads (contacts : list Contact)
    (data : option (list LeadForm)) : list Contact * option Z :=
  match data with
  | None => (contacts, None)
  | Some leads =>
      let '(contacts', saved) := save_loop contacts 0 leads in
      (contacts', Some saved)
  end.

(** The e-mail addresses that are set, in the order of the rows. *)
Definition emails_set (contacts : list Contact) : list string :=
  filter PyStr.truthy (map email contacts).

Definition saved_row (c : Contact) : Prop :=
  (email c <> EmptyString \/ phone c <> EmptyString)
  /\ whatsapp c = phone c
  /\ source c = "youtube" /\ status c = "new"
  /\ contact_person c = company_name c.

End SaveLeads.

Module ScanScenario.

(** An API with 3 pages of 2 comments. *)
Definition api : Comments.Api :=
  fun page_token _ =>
    match page_token with
    | None =>
        Comments.ApiPage
          [Scenario.comment "price?" 1; Scenario.comment "Nice" 0]
          (Some "p2")
    | Some token =>
        if String.eqb token "p2"
        then Comments.ApiPage
               [Scenario.comment "need supplier" 6;
                Scenario.comment "ok" 0] (Some "p3")
        else Comments.ApiPage
               [Scenario.comment "rate please" 0;
                Scenario.comment "hello" 0] None
    end.

(** An API whose first page has a successor and whose second request
    fails. *)
Definition broken_api : Comments.Api :=
  fun page_token _ =>
    match page_token with
    | None =>
        Comments.ApiPage
          [Scenario.comment "price?" 1; Scenario.comment "Nice" 0]
          (Some "p2")
    | Some _ => Comments.ApiFailed
    end.

End ScanScenario.

(** ** Video ids ([extract_video_id], [routes/youtube_leads.py]) *)

Module VideoId.

(** What [urllib.parse.urlparse] reads from a URL, as far as
    [extract_video_id] looks at it. *)
Record Parsed : Type := mkParsed {
  hostname : option string;
  path : string;
  query : string
}.

(** [[a-zA-Z0-9_\-]]. *)
Definition is_id_char (c : ascii) : bool :=
  let n := N_of_ascii c in
  ((97 <=? n)%N && (n <=? 122)%N) || ((65 <=? n)%N && (n <=? 90)%N)
  || PyStr.is_digit c || Ascii.eqb c "_" || Ascii.eqb c "-".

(** [re.match(r'^[a-zA-Z0-9_\-]{11}$', s)] for a stripped text [s]. *)
Definition is_bare_id (s : string) : bool :=
  (String.length s =? 11)%nat && PyStr.forallb_str is_id_char s.

(** [s.split(sep)[0]] for a separator of one character. *)
Fixpoint split_head (sep : ascii) (s : string) : string :=
  match s with
  | EmptyString => EmptyString
  | String c s' =>
      if Ascii.eqb c sep then EmptyString else String c (split_head sep s')
  end.

(** [s.lstrip('/')]. *)
Fixpoint lstrip_slash (s : string) : string :=
  match s with
  | EmptyString => EmptyString
  | String c s' => if Ascii.eqb c "/" then lstrip_slash s' else s
  end.

(** [s[len(prefix):]] when [s.startswith(prefix)]. *)
Fixpoint after_prefix (prefix s : string) : option string :=
  match prefix, s with
  | EmptyString, _ => Some s
  | String a prefix', String b s' =>
      if Ascii.eqb a b then after_prefix prefix' s' else None
  | String _ _, EmptyString => None
  end.

(** [for prefix in (...): if parsed.path.startswith(prefix): return ...]. *)
Fixpoint first_prefix (prefixes : list string) (p : string)
  : option string :=
  match prefixes with
  | [] => None
  | prefix :: rest =>
      match after_prefix prefix p with
      | Some tail => Some tail
      | None => first_prefix rest p
      end
  end.

Definition id_of_tail (tail : string) : string :=
  split_head "?" (split_head "/" tail).

Definition youtube_hosts : list string :=
  ["www.youtube.com"; "youtube.com"; "m.youtube.com"].

Definition short_hosts : list string := ["youtu.be"; "www.youtu.be"].

Definition among (hosts : list string) (host : string) : bool :=
  existsb (String.eqb host) hosts.

Section Parse.

(** The standard library is outside the repository: [urlparse] raises
    [ValueError] on some malformed URLs, and [first_v] stands for
    [parse_qs(query).get('v', [None])[0]]. *)
Variable urlparse : string -> result Parsed.
Variable first_v : string -> option string.

Definition extract_video_id (url : string) : result (option string) :=
  if negb (PyStr.truthy url) then Ok None
  else if is_bare_id (PyStr.strip url) then Ok (Some (PyStr.strip url))
  else
    parsed <- urlparse url ;;
    let host := match hostname parsed with
                | Some h => h
                | None => EmptyString
                end in
    let from_short :=
      if among short_hosts host
      then Some (id_of_tail (lstrip_slash (path parsed)))
      else None in
    if among youtube_hosts host then
      if String.eqb (path parsed) "/watch"
      then Ok (first_v (query parsed))
      else
        match first_prefix ["/embed/"; "/shorts/"; "/v/"] (path parsed) with
        | Some tail => Ok (Some (id_of_tail tail))
        | None => Ok from_short
        end
    else Ok from_short.

End Parse.

Definition no_separator (s : string) : bool :=
  PyStr.forallb_str
    (fun c => negb (Ascii.eqb c "/") && negb (Ascii.eqb c "?")) s.

End VideoId.

(** ** The job tracker ([routes/job_tracker.py]) *)

Module Job.

Record RawItem : Type := mkRaw {
  r_title : string;
  r_company : string;
  r_location : string;
  r_salary : string;
  r_experience : string;
  r_url : string;
  r_description : string;
  r_posted_date : string
}.

(** [models.JobTracker], as far as [check_job_tracker] reads it. *)
Record JobTracker : Type := mkTracker {
  id : Z;
  search_query : string;
  city : option string;
  job_type : option string;
  platforms : option (list string);
  is_active : bool;
  last_checked : option Z
}.

Record JobListing : Type := mkListing {
  tracker_id : Z;
  title : string;
  company : string;
  location : string;
  salary : string;
  experience : string;
  url : string;
  platform : string;
  description : string;
  posted_date : string;
  is_new : bool
}.

Record Store : Type := mkStore {
  trackers : list JobTracker;
  listings : list JobListing
}.

Inductive Request : Type :=
| ReqLinkedin (query city job_type : string)
| ReqFoundit (query city : string)
| ReqNaukri (query city : string)
| ReqSocial (query city site_filter : string)
| ReqGoogleJobs (query city : string).

(** The call raised, or the listings the adapter builds from the answer
    (none when the answer holds the key ['error']). *)
Inductive Response : Type :=
| Raised
| Page (items : list RawItem).

Record Env : Type := mkEnv {
  fetch : Request -> Response;
  serpapi_key : string;
  commit_raises : Z -> bool
}.

Definition guarded (r : Response) : list RawItem :=
  match r with
  | Raised => []
  | Page items => items
  end.

Definition scrape_linkedin (env : Env) (query city job_type : string)
  : list RawItem :=
  guarded (fetch env (ReqLinkedin query city job_type)).

Definition scrape_foundit (env : Env) (query city : string) : list RawItem :=
  guarded (fetch env (ReqFoundit query city)).

Definition scrape_naukri (env : Env) (query city : string) : list RawItem :=
  guarded (fetch env (ReqNaukri query city)).

Definition _scrape_serpapi_social (env : Env)
    (query city site_filter : string) : list RawItem :=
  if negb (PyStr.truthy (serpapi_key env)) then []
  else guarded (fetch env (ReqSocial query city site_filter)).

Definition scrape_facebook_jobs (env : Env) (query city : string) :=
  _scrape_serpapi_social env query city "site:facebook.com".

Definition scrape_instagram_jobs (env : Env) (query city : string) :=
  _scrape_serpapi_social env query city "site:instagram.com".

Definition scrape_twitter_jobs (env : Env) (query city : string) :=
  _scrape_serpapi_social env query city "site:x.com OR site:twitter.com".

Definition scrape_google_jobs (env : Env) (query city : string)
  : list RawItem :=
  if negb (PyStr.truthy (serpapi_key env)) then []
  else guarded (fetch env (ReqGoogleJobs query city)).

Definition exists_listing (rows : list JobListing) (tid : Z) (u : string)
  : bool :=
  existsb (fun l => (tracker_id l =? tid) && String.eqb (url l) u) rows.

Definition new_listing (tid : Z) (platform item_url : string)
    (item : RawItem) : JobListing :=
  {| tracker_id := tid;
     title := PyStr.take 500 (r_title item);
     company := PyStr.take 300 (r_company item);
     location := PyStr.take 200 (r_location item);
     salary := PyStr.take 200 (r_salary item);
     experience := PyStr.take 100 (r_experience item);
     url := PyStr.take 1000 item_url;
     platform := platform;
     description := r_description item;
     posted_date := PyStr.take 100 (r_posted_date item);
     is_new := true |}.

(** One turn of [for item in raw]. *)
Definition process_item (tid : Z) (committed : list JobListing)
    (platform : string) (new_listings : list JobListing) (item : RawItem)
  : list JobListing :=
  let item_url := PyStr.strip (r_url item) in
  if negb (PyStr.truthy item_url) then new_listings
  else if exists_listing (committed ++ new_listings) tid item_url
  then new_listings
  else new_listings ++ [new_listing tid platform item_url item].

Definition process_items (tid : Z) (committed : list JobListing)
    (platform : string) (new_listings : list JobListing)
    (raw : list RawItem) : list JobListing :=
  fold_left (process_item tid committed platform) raw new_listings.

(** [(tracker.city or 'Mumbai').strip()]. *)
Definition tracker_city (t : JobTracker) : string :=
  PyStr.strip
    (match city t with
     | Some c => if PyStr.truthy c then c else "Mumbai"
     | None => "Mumbai"
     end).

Definition tracker_platforms (t : JobTracker) : list string :=
  match platforms t with
  | Some ps => ps
  | None => ["linkedin"]
  end.

(** [tracker.job_type or '']. *)
Definition tracker_job_type (t : JobTracker) : string :=
  match job_type t with
  | Some j => j
  | None => EmptyString
  end.

Definition scrape (env : Env) (t : JobTracker) (platform : string)
  : option (list RawItem) :=
  let q := search_query t in
  let city := tracker_city t in
  if String.eqb platform "linkedin"
  then Some (scrape_linkedin env q city (tracker_job_type t))
  else if String.eqb platform "foundit"
  then Some (scrape_foundit env q city)
  else if String.eqb platform "naukri"
  then Some (scrape_naukri env q city)
  else if String.eqb platform "facebook"
  then Some (scrape_facebook_jobs env q city)
  else if String.eqb platform "instagram"
  then Some (scrape_instagram_jobs env q city)
  else if String.eqb platform "twitter"
  then Some (scrape_twitter_jobs env q city)
  else if String.eqb platform "google_jobs"
  then Some (scrape_google_jobs env q city)
  else None.

Definition process_platform (env : Env) (t : JobTracker)
    (committed : list JobListing) (new_listings : list JobListing)
    (platform : string) : list JobListing :=
  match scrape env t platform with
  | None => new_listings
  | Some raw => process_items (id t) committed platform new_listings raw
  end.

Definition set_last_checked (tid now : Z) (t : JobTracker) : JobTracker :=
  if id t =? tid
  then {| id := id t; search_query := search_query t; city := city t;
          job_type := job_type t; platforms := platforms t;
          is_active := is_active t; last_checked := Some now |}
  else t.

Definition check_job_tracker (env : Env) (now : Z) (t : JobTracker)
    (s : Store) : result (Store * list JobListing) :=
  let new_listings :=
    fold_left (process_platform env t (listings s)) (tracker_platforms t)
      [] in
  if commit_raises env (id t) then Raise StoreError
  else Ok ({| trackers := map (set_last_checked (id t) now) (trackers s);
              listings := listings s ++ new_listings |},
           new_listings).

Definition key (l : JobListing) : Z * string := (tracker_id l, url l).

Definition distinct_urls (rows : list JobListing) : Prop :=
  NoDup (map key rows).

Definition short_url (item : RawItem) : Prop :=
  (String.length (PyStr.strip (r_url item)) <= 1000)%nat.

Definition short_urls (env : Env) : Prop :=
  forall req items, fetch env req = Page items -> Forall short_url items.

(** The lengths of the columns of [models.JobListing]. *)
Definition fresh_row (tid : Z) (l : JobListing) : Prop :=
  tracker_id l = tid /\ is_new l = true /\ url l <> EmptyString
  /\ (String.length (title l) <= 500)%nat
  /\ (String.length (company l) <= 300)%nat
  /\ (String.length (location l) <= 200)%nat
  /\ (String.length (salary l) <= 200)%nat
  /\ (String.length (experience l) <= 100)%nat
  /\ (String.length (url l) <= 1000)%nat
  /\ (String.length (posted_date l) <= 100)%nat.

(** The LinkedIn page lists [items]; every other request raises. *)
Definition linkedin_env (items : list RawItem) : Env :=
  {| fetch := fun req =>
       match req with
       | ReqLinkedin _ _ _ => Page items
       | _ => Raised
       end;
     serpapi_key := EmptyString;
     commit_raises := fun _ => false |}.

Definition sample_item (u : string) : RawItem :=
  {| r_title := "Data Analyst"; r_company := "Acme";
     r_location := "Mumbai"; r_salary := EmptyString;
     r_experience := EmptyString; r_url := u;
     r_description := EmptyString; r_posted_date := "2 days ago" |}.

Definition sample_tracker : JobTracker :=
  {| id := 1; search_query := "data analyst"; city := Some "Mumbai";
     job_type := None; platforms := None; is_active := true;
     last_checked := None |}.

Definition sample_store : Store :=
  {| trackers := [sample_tracker]; listings := [] |}.

End Job.

Module JobFacts.

(** An item that a check of the tracker [tid] leaves alone, given the rows
    in the session: it has no URL, or its URL is stored. *)
Definition settled (tid : Z) (rows : list Job.JobListing)
    (item : Job.RawItem) : Prop :=
  PyStr.truthy (PyStr.strip (Job.r_url item)) = false
  \/ Job.exists_listing rows tid (PyStr.strip (Job.r_url item)) = true.

End JobFacts.

(** ** Product enquiries ([search_social_enquiries],
    [routes/deal_tracker.py]) *)

Module Enquiry.

(** One entry of ['organic_results'], absent keys read as the empty
    text. *)
Record Organic : Type := mkOrganic {
  o_title : string;
  o_link : string;
  o_snippet : string;
  o_thumbnail : string
}.

(** The request raised, was refused (a status other than 200, or an answer
    with the key ['error']), or brought results. *)
Inductive Response : Type :=
| Raised
| Refused
| Results (organic : list Organic).

Record Result : Type := mkResult {
  title : string;
  snippet : string;
  url : string;
  platform : string;
  author : string;
  posted_date : string;
  image_url : string
}.

Definition site_map (p : string) : option string :=
  if String.eqb p "facebook" then Some "site:facebook.com"
  else if String.eqb p "instagram" then Some "site:instagram.com"
  else if String.eqb p "twitter" then Some "site:twitter.com OR site:x.com"
  else None.

(** [[site_map[p] for p in platforms if p in site_map]]. *)
Definition site_parts (platforms : list string) : list string :=
  flat_map (fun p => match site_map p with
                     | Some site => [site]
                     | None => []
                     end) platforms.

Definition buying_keywords : string :=
  "looking for OR need OR want to buy OR supplier OR where to buy OR recommend".

Definition search_query (query location : string)
    (platforms : list string) : string :=
  let site_filter := String.concat " OR " (site_parts platforms) in
  if PyStr.truthy location
  then (query ++ " " ++ location ++ " (" ++ buying_keywords ++ ") ("
        ++ site_filter ++ ")")%string
  else (query ++ " (" ++ buying_keywords ++ ") (" ++ site_filter
        ++ ")")%string.

Definition detect_platform (link : string) : string :=
  let link_lower := PyStr.lower link in
  if PyStr.contains "facebook.com" link_lower then "facebook"
  else if PyStr.contains "instagram.com" link_lower then "instagram"
  else if PyStr.contains "twitter.com" link_lower
          || PyStr.contains "x.com" link_lower then "twitter"
  else "other".

(** [s.split(sep)[0]]. *)
Fixpoint split_before (sep s : string) : string :=
  if String.prefix sep s then EmptyString
  else match s with
       | EmptyString => EmptyString
       | String c s' => String c (split_before sep s')
       end.

(** [s[:s.lower().index(sep)]]. *)
Fixpoint before_lower (sep s : string) : string :=
  if String.prefix sep (PyStr.lower s) then EmptyString
  else match s with
       | EmptyString => EmptyString
       | String c s' => String c (before_lower sep s')
       end.

Definition author_of (title : string) : string :=
  if PyStr.contains " - " title
  then PyStr.strip (split_before " - " title)
  else if PyStr.contains " | " title
  then PyStr.strip (split_before " | " title)
  else if PyStr.contains " on " (PyStr.lower title)
  then PyStr.strip (before_lower " on " title)
  else EmptyString.

Definition member (x : string) (l : list string) : bool :=
  existsb (String.eqb x) l.

Section Search.

(** [date_of] stands for the search of the date pattern in the snippet,
    the empty text when there is no match. *)
Variable date_of : string -> string.

(** The body of [for item in data.get('organic_results', [])]. *)
Definition result_of (platforms : list string) (item : Organic)
  : list Result :=
  if negb (PyStr.truthy (o_title item)) || negb (PyStr.truthy (o_link item))
  then []
  else
    let platform := detect_platform (o_link item) in
    if negb (member platform platforms)
       && negb (String.eqb platform "other")
    then []
    else [ {| title := PyStr.take 500 (o_title item);
              snippet := PyStr.take 1000 (o_snippet item);
              url := o_link item;
              platform := platform;
              author := PyStr.take 300 (author_of (o_title item));
              posted_date := date_of (o_snippet item);
              image_url := o_thumbnail item |} ].

(** The loop "Deduplicate by URL". *)
Fixpoint unique (seen : list string) (results : list Result)
  : list Result :=
  match results with
  | [] => []
  | r :: rest =>
      if member (url r) seen then unique seen rest
      else r :: unique (url r :: seen) rest
  end.

Definition search_social_enquiries (serpapi_key : string)
    (fetch : string -> Response) (query : string)
    (platforms : option (list string)) (location : string) : list Result :=
  if negb (PyStr.truthy serpapi_key) then []
  else
    let platforms := match platforms with
                     | Some ps => ps
                     | None => ["facebook"; "instagram"; "twitter"]
                     end in
    if negb (Location.nonempty (site_parts platforms)) then []
    else
      match fetch (search_query query location platforms) with
      | Raised => []
      | Refused => []
      | Results organic => unique [] (flat_map (result_of platforms) organic)
      end.

End Search.

End Enquiry.

(** * Properties *)

(** ** Strings *)

Lemma append_empty_r (s : string) : (s ++ EmptyString)%string = s.
Proof.
  induction s as [|c s IH]; simpl; [reflexivity | now rewrite IH].
Qed.

Lemma keep_chars_app (keep : ascii -> bool) (a b : string) :
  PyStr.keep_chars keep (a ++ b)
  = (PyStr.keep_chars keep a ++ PyStr.keep_chars keep b)%string.
Proof.
  induction a as [|c a IH]; simpl.
  - reflexivity.
  - destruct (keep c); simpl; now rewrite IH.
Qed.

Lemma keep_chars_none (keep : ascii -> bool) (s : string) :
  PyStr.forallb_str (fun c => negb (keep c)) s = true ->
  PyStr.keep_chars keep s = EmptyString.
Proof.
  induction s as [|c s IH]; simpl; intros H.
  - reflexivity.
  - apply andb_true_iff in H. destruct H as [Hc Hs].
    destruct (keep c); [discriminate | now apply IH].
Qed.

Lemma keep_chars_all (keep : ascii -> bool) (s : string) :
  PyStr.forallb_str keep s = true -> PyStr.keep_chars keep s = s.
Proof.
  induction s as [|c s IH]; simpl; intros H.
  - reflexivity.
  - apply andb_true_iff in H. destruct H as [Hc Hs].
    rewrite Hc. now rewrite IH.
Qed.

Lemma contains_occurrences (needle hay : string) :
  PyStr.contains needle hay = (1 <=? PyStr.occurrences needle hay)%nat.
Proof.
  induction hay as [|c hay IH].
  - destruct needle; reflexivity.
  - cbn [PyStr.contains PyStr.occurrences]. rewrite IH.
    destruct (String.prefix needle (String c hay)); simpl.
    + reflexivity.
    + reflexivity.
Qed.

(** ** The price filter *)

(** A price text without a digit and without a dot passes the filter,
    whatever the bounds. *)
Lemma price_filter_no_numeric (mn mx : option Z) (price_text : string) :
  no_numeric price_text = true ->
  Deal.price_filter mn mx price_text = Ok Admit.
Proof.
  intros H. unfold Deal.price_filter, Deal.price_value.
  rewrite (keep_chars_none Deal.numeric_class _ H). simpl.
  now destruct (truthy_int mn || truthy_int mx).
Qed.

(** C3: with the bounds 1000 and 5000 the price text made of the rupee sign
    and "3 Lakh" is compared as 300000 and the candidate is skipped; with the bounds 100000 and
    500000 the same candidate is admitted. *)
Theorem three_lakh_filtered :
  Deal.price_value Scenario.three_lakh = Ok (Some 300000)
  /\ Deal.price_filter (Some 1000) (Some 5000) Scenario.three_lakh = Ok Skip
  /\ Deal.price_filter (Some 100000) (Some 500000) Scenario.three_lakh
     = Ok Admit
  /\ (forall tid committed platform new_listings u,
        Deal.process_item tid (Some 1000) (Some 5000) committed platform
          new_listings (Scenario.item u Scenario.three_lakh)
        = Ok new_listings)
  /\ Deal.process_item 1 (Some 100000) (Some 500000) [] "olx" []
       (Scenario.item "https://www.olx.in/item/1" Scenario.three_lakh)
     = Ok [Deal.new_listing 1 "olx" "https://www.olx.in/item/1"
             (Scenario.item "https://www.olx.in/item/1"
                Scenario.three_lakh)].
Proof.
  assert (Hskip : Deal.price_filter (Some 1000) (Some 5000)
                    Scenario.three_lakh = Ok Skip)
    by (vm_compute; reflexivity).
  split; [vm_compute; reflexivity|].
  split; [exact Hskip|].
  split; [vm_compute; reflexivity|].
  split; [|vm_compute; reflexivity].
  intros tid committed platform new_listings u.
  unfold Deal.process_item.
  destruct (negb (PyStr.truthy (PyStr.strip (Deal.r_url _)))); [reflexivity|].
  destruct (Deal.exists_listing _ _ _); [reflexivity|].
  change (Deal.r_price (Scenario.item u Scenario.three_lakh))
    with Scenario.three_lakh.
  now rewrite Hskip.
Qed.

(** C9: a bound equal to 0 counts as absent: it is not set, and no value is
    below or above it. In [check_tracker] and in [check_hotel_tracker]
    alike, a tracker whose [min_price] is 0 treats every candidate as a
    tracker without [min_price] does, a tracker whose [max_price] is 0
    treats every candidate as a tracker without [max_price] does, and when
    each bound is 0 or None, the price text is not looked at: every
    candidate passes the filter. *)
Theorem zero_bound_is_absent :
  (forall mx p, Deal.price_filter (Some 0) mx p = Deal.price_filter None mx p)
  /\ (forall p, Deal.price_filter (Some 0) (Some 0) p = Ok Admit)
  /\ (forall p, Deal.price_filter None None p = Ok Admit)
  /\ (forall tid mx committed platform new_listings item,
        Deal.process_item tid (Some 0) mx committed platform new_listings item
        = Deal.process_item tid None mx committed platform new_listings item)
  /\ (forall mx p,
        Hotel.price_filter (Some 0) mx p = Hotel.price_filter None mx p)
  /\ (forall p, Hotel.price_filter (Some 0) (Some 0) p = Admit)
  /\ (forall p, Hotel.price_filter None None p = Admit)
  /\ (forall tid mx committed platform new_listings item,
        Hotel.process_item tid (Some 0) mx committed platform new_listings
          item
        = Hotel.process_item tid None mx committed platform new_listings
            item)
  /\ (forall mn p,
        Deal.price_filter mn (Some 0) p = Deal.price_filter mn None p)
  /\ (forall tid mn committed platform new_listings item,
        Deal.process_item tid mn (Some 0) committed platform new_listings item
        = Deal.process_item tid mn None committed platform new_listings item)
  /\ (forall mn p,
        Hotel.price_filter mn (Some 0) p = Hotel.price_filter mn None p)
  /\ (forall tid mn committed platform new_listings item,
        Hotel.process_item tid mn (Some 0) committed platform new_listings
          item
        = Hotel.process_item tid mn None committed platform new_listings
            item)
  /\ (forall p, Deal.price_filter (Some 0) None p = Ok Admit
                /\ Deal.price_filter None (Some 0) p = Ok Admit
                /\ Hotel.price_filter (Some 0) None p = Admit
                /\ Hotel.price_filter None (Some 0) p = Admit)
  /\ (forall val, truthy_int (Some 0) = false
                  /\ below_bound (Some 0) val = false
                  /\ above_bound (Some 0) val = false).
Proof.
  repeat split; intros; reflexivity.
Qed.

(** C7: a candidate whose price text holds no number is to pass a configured
    price filter. The code departs from it when such a text holds a dot:
    from "Rs. " the substitution keeps ".", which is not empty, and
    [float(".")] raises [ValueError]; the exception leaves [check_tracker]
    and the request, and nothing is committed. *)
Theorem dotted_price_text_raises :
  SpecWords.first_decimal_run "Rs. " = EmptyString
  /\ Deal.price_filter (Some 100000) (Some 500000) "Rs. " = Raise ValueError
  /\ Deal.check_single
       (Scenario.olx_env
          [Scenario.item "https://www.olx.in/item/1" "Rs. "] Scenario.never)
       10 1
       {| Deal.trackers := [Scenario.tracker 1 (Some 100000) (Some 500000)];
          Deal.listings := [] |}
     = Raise ValueError.
Proof.
  repeat split; vm_compute; reflexivity.
Qed.


Lemma keep_numeric_assemble (chunks : list (string * string))
    (tail : string) :
  well_cut chunks tail = true ->
  PyStr.keep_chars Deal.numeric_class (assemble chunks tail) = runs chunks.
Proof.
  unfold well_cut. intros H. apply andb_true_iff in H.
  destruct H as [Hchunks Htail].
  induction chunks as [|[sep run] rest IH]; simpl.
  - now apply keep_chars_none.
  - simpl in Hchunks. apply andb_true_iff in Hchunks.
    destruct Hchunks as [Hhead Hrest].
    apply andb_true_iff in Hhead. destruct Hhead as [Hsep Hrun].
    rewrite !keep_chars_app.
    rewrite (keep_chars_none _ _ Hsep), (keep_chars_all _ _ Hrun).
    simpl. now rewrite IH.
Qed.

(** With a single run that begins with a digit, the code and the wording of
    the specification agree. *)
Lemma take_run_app (run tail : string) :
  all_numeric run = true -> no_numeric tail = true ->
  SpecWords.take_run (run ++ tail) = run.
Proof.
  intros Hrun Htail. induction run as [|c run IH]; simpl.
  - destruct tail as [|c tail]; simpl; [reflexivity|].
    simpl in Htail. apply andb_true_iff in Htail.
    destruct Htail as [Hc _]. now destruct (Deal.numeric_class c).
  - simpl in Hrun. apply andb_true_iff in Hrun. destruct Hrun as [Hc Hrun].
    rewrite Hc. now rewrite IH.
Qed.

Lemma no_numeric_no_digit (c : ascii) :
  negb (Deal.numeric_class c) = true -> PyStr.is_digit c = false.
Proof.
  unfold Deal.numeric_class. destruct (PyStr.is_digit c); simpl.
  - discriminate.
  - reflexivity.
Qed.

Lemma single_run_agrees (sep tail : string) (d : ascii) (run : string) :
  no_numeric sep = true -> PyStr.is_digit d = true ->
  all_numeric run = true -> no_numeric tail = true ->
  Deal.price_value (sep ++ String d run ++ tail)
  = SpecWords.price_value (sep ++ String d run ++ tail).
Proof.
  intros Hsep Hd Hrun Htail.
  assert (Hall : all_numeric (String d run) = true).
  { unfold all_numeric in *. cbn [PyStr.forallb_str].
    apply andb_true_iff. split; [|exact Hrun].
    unfold Deal.numeric_class. now rewrite Hd. }
  unfold Deal.price_value, SpecWords.price_value. f_equal.
  rewrite !keep_chars_app.
  rewrite (keep_chars_none _ _ Hsep), (keep_chars_all _ _ Hall).
  rewrite (keep_chars_none _ _ Htail). rewrite append_empty_r.
  cbn [append].
  induction sep as [|c sep IH]; simpl.
  - rewrite Hd. now rewrite take_run_app.
  - simpl in Hsep. apply andb_true_iff in Hsep. destruct Hsep as [Hc Hsep].
    rewrite (no_numeric_no_digit c Hc). now apply IH.
Qed.

(** ** A check while the network is down *)

Lemma process_platforms_offline (env : Deal.Env) (t : Deal.DealTracker)
    (committed : list Deal.DealListing)
    (new_listings : list Deal.DealListing) (ps : list string) :
  (forall platform req,
     In platform ps -> In req (Deal.requests_of t platform) ->
     Deal.fetch env req = Deal.Raised) ->
  Deal.process_platforms env t committed (Deal.tracker_city t) new_listings
    ps
  = Ok new_listings.
Proof.
  induction ps as [|platform rest IH]; intros Hdown; simpl.
  - reflexivity.
  - assert (Hrest : Deal.process_platforms env t committed
                      (Deal.tracker_city t) new_listings rest
                    = Ok new_listings).
    { apply IH. intros p req Hp. apply Hdown. now right. }
    assert (Hhere : forall req, In req (Deal.requests_of t platform) ->
                                Deal.fetch env req = Deal.Raised).
    { intros req. apply Hdown. now left. }
    unfold Deal.scrape, Deal.scrape_serpapi, Deal.scrape_cardekho,
      Deal.scrape_olx, Deal.scrape_quikr.
    unfold Deal.requests_of in Hhere.
    destruct (String.eqb platform "serpapi").
    { destruct (negb (PyStr.truthy (Deal.serpapi_key env))); [exact Hrest|].
      unfold Deal.site_queries in *. cbn [flat_map map] in *.
      rewrite !Hhere by (simpl; auto). exact Hrest. }
    destruct (String.eqb platform "cardekho").
    { destruct (String.eqb (Deal.category t) "cars"
                || String.eqb (Deal.category t) "other"
                || String.eqb (Deal.category t) "bikes"); [|exact Hrest].
      rewrite Hhere by (simpl; auto). exact Hrest. }
    destruct (String.eqb platform "olx").
    { rewrite Hhere by (simpl; auto). exact Hrest. }
    destruct (String.eqb platform "quikr"); [|exact Hrest].
    rewrite Hhere by (simpl; auto). exact Hrest.
Qed.

Lemma get_tracker_id (s : Deal.Store) (tid : Z) (t : Deal.DealTracker) :
  Deal.get_tracker s tid = Some t -> Deal.id t = tid.
Proof.
  unfold Deal.get_tracker. intros H. apply find_some in H.
  destruct H as [_ H]. now apply Z.eqb_eq.
Qed.

Lemma find_set_last_checked (tid now : Z) (ts : list Deal.DealTracker)
    (t : Deal.DealTracker) :
  find (fun t => Deal.id t =? tid) ts = Some t ->
  find (fun t => Deal.id t =? tid) (map (Deal.set_last_checked tid now) ts)
  = Some (Deal.set_last_checked tid now t).
Proof.
  induction ts as [|t0 ts IH]; simpl; [discriminate|].
  unfold Deal.set_last_checked at 1.
  destruct (Deal.id t0 =? tid) eqn:E; simpl.
  - rewrite E. intros H. injection H as <-.
    unfold Deal.set_last_checked. now rewrite E.
  - rewrite E. exact IH.
Qed.

(** C6: when the network calls of the adapters of a tracker raise, the check
    of the tracker ends without an exception, adds no listing, and sets
    [last_checked] of the tracker to the current time (the commit itself
    going through). *)
Theorem offline_check_completes (env : Deal.Env) (now tid : Z)
    (t : Deal.DealTracker) (s : Deal.Store) :
  Deal.calls_raise env t ->
  Deal.commit_raises env tid = false ->
  Deal.get_tracker s tid = Some t ->
  exists s' t',
    Deal.check_tracker env now t s = Ok (s', [])
    /\ Deal.check_single env now tid s = Ok s'
    /\ Deal.listings s' = Deal.listings s
    /\ Deal.get_tracker s' tid = Some t'
    /\ Deal.last_checked t' = Some now.
Proof.
  intros Hdown Hcommit Hget.
  pose proof (get_tracker_id s tid t Hget) as Hid.
  assert (Hcheck :
    Deal.check_tracker env now t s
    = Ok ({| Deal.trackers :=
               map (Deal.set_last_checked tid now) (Deal.trackers s);
             Deal.listings := Deal.listings s |}, [])).
  { unfold Deal.check_tracker. cbv zeta.
    rewrite process_platforms_offline by exact Hdown.
    cbn [bind]. rewrite Hid, Hcommit. now rewrite app_nil_r. }
  eexists. exists (Deal.set_last_checked tid now t).
  split; [exact Hcheck|].
  split.
  { unfold Deal.check_single. rewrite Hget, Hcheck. reflexivity. }
  split; [reflexivity|].
  split.
  { unfold Deal.get_tracker. cbn [Deal.trackers].
    now apply find_set_last_checked. }
  unfold Deal.set_last_checked. rewrite Hid, Z.eqb_refl. reflexivity.
Qed.

Lemma offline_check_completes_witness :
  exists s' t',
    Deal.check_tracker
      (Scenario.olx_down_env
         [Scenario.item "https://www.quikr.com/ad/1" "5000"])
      1700000000 (Scenario.tracker 1 None None) Scenario.one_tracker
    = Ok (s', [])
    /\ Deal.check_single
         (Scenario.olx_down_env
            [Scenario.item "https://www.quikr.com/ad/1" "5000"])
         1700000000 1 Scenario.one_tracker = Ok s'
    /\ Deal.listings s' = Deal.listings Scenario.one_tracker
    /\ Deal.get_tracker s' 1 = Some t'
    /\ Deal.last_checked t' = Some 1700000000.
Proof.
  apply (offline_check_completes
           (Scenario.olx_down_env
              [Scenario.item "https://www.quikr.com/ad/1" "5000"])
           1700000000 1 (Scenario.tracker 1 None None)
           Scenario.one_tracker).
  - intros platform req [<-|[]] [<-|[]]. reflexivity.
  - reflexivity.
  - reflexivity.
Defined.

(** ** Listings once viewed *)

Lemma check_tracker_appends (env : Deal.Env) (now : Z)
    (t : Deal.DealTracker) (s s' : Deal.Store)
    (new : list Deal.DealListing) :
  Deal.check_tracker env now t s = Ok (s', new) ->
  Deal.listings s' = Deal.listings s ++ new.
Proof.
  unfold Deal.check_tracker.
  destruct (Deal.process_platforms _ _ _ _ _ _) as [new_listings|e];
    cbn [bind]; [|discriminate].
  destruct (Deal.commit_raises env (Deal.id t)); [discriminate|].
  intros H. injection H as <- <-. reflexivity.
Qed.

Lemma check_all_loop_appends (env : Deal.Env) (now : Z)
    (ts : list Deal.DealTracker) (s : Deal.Store) (total : Z) :
  exists added,
    Deal.listings (fst (Deal.check_all_loop env now ts s total))
    = Deal.listings s ++ added.
Proof.
  revert s total. induction ts as [|t ts IH]; intros s total; simpl.
  - exists []. now rewrite app_nil_r.
  - destruct (Deal.check_tracker env now t s) as [[s' new]|e] eqn:E.
    + destruct (IH s' (total + Z.of_nat (List.length new))) as [added Ha].
      exists (new ++ added). rewrite Ha.
      rewrite (check_tracker_appends _ _ _ _ _ _ E). now rewrite app_assoc.
    + exists []. simpl. now rewrite app_nil_r.
Qed.

Lemma mark_viewed_viewed (tid : Z) (l : Deal.DealListing) :
  Deal.is_new l = false -> Deal.mark_viewed tid l = l.
Proof.
  intros H. unfold Deal.mark_viewed. rewrite H.
  now rewrite andb_false_r.
Qed.

Lemma mark_viewed_twice (tid : Z) (l : Deal.DealListing) :
  Deal.mark_viewed tid (Deal.mark_viewed tid l) = Deal.mark_viewed tid l.
Proof.
  destruct ((Deal.tracker_id l =? tid) && Deal.is_new l) eqn:E.
  - apply mark_viewed_viewed. unfold Deal.mark_viewed. now rewrite E.
  - assert (H : Deal.mark_viewed tid l = l)
      by (unfold Deal.mark_viewed; now rewrite E).
    now rewrite !H.
Qed.

Lemma step_keeps_viewed (o : Deal.Op) (s : Deal.Store) (i : nat)
    (l : Deal.DealListing) :
  nth_error (Deal.listings s) i = Some l ->
  Deal.is_new l = false ->
  nth_error (Deal.listings (Deal.step s o)) i = Some l.
Proof.
  intros Hnth Hviewed.
  assert (Hlt : (i < List.length (Deal.listings s))%nat)
    by (apply nth_error_Some; congruence).
  destruct o as [env now tid | env now | tid]; simpl.
  - unfold Deal.check_single.
    destruct (Deal.get_tracker s tid) as [t|]; [|exact Hnth].
    destruct (Deal.check_tracker env now t s) as [[s' new]|e] eqn:E;
      cbn [bind fst]; [|exact Hnth].
    rewrite (check_tracker_appends _ _ _ _ _ _ E).
    now rewrite nth_error_app1.
  - unfold Deal.check_all.
    destruct (check_all_loop_appends env now
                (filter Deal.is_active (Deal.trackers s)) s 0)
      as [added Ha].
    rewrite Ha. now rewrite nth_error_app1.
  - unfold Deal.results.
    destruct (Deal.get_tracker s tid); [|exact Hnth].
    cbn [Deal.listings]. rewrite nth_error_map, Hnth. simpl.
    now rewrite mark_viewed_viewed.
Qed.

(** C8: a listing whose [is_new] is false keeps its row, [is_new] included,
    through every sequence of checks, sweeps and views, so nothing sets the
    flag back to true; and viewing the results of a tracker a second time
    changes nothing. *)
Theorem viewed_is_final (ops : list Deal.Op) (s : Deal.Store) (i : nat)
    (l : Deal.DealListing) (tid : Z) :
  nth_error (Deal.listings s) i = Some l ->
  Deal.is_new l = false ->
  nth_error (Deal.listings (Deal.run ops s)) i = Some l
  /\ Deal.results tid (Deal.results tid s) = Deal.results tid s.
Proof.
  intros Hnth Hviewed. split.
  - revert s Hnth. unfold Deal.run.
    induction ops as [|o ops IH]; intros s Hnth; simpl.
    + exact Hnth.
    + apply IH. now apply step_keeps_viewed.
  - unfold Deal.results.
    destruct (Deal.get_tracker s tid) as [t|] eqn:E.
    + unfold Deal.get_tracker in *. cbn [Deal.trackers Deal.listings].
      rewrite E. f_equal. rewrite map_map.
      apply map_ext. intros a. apply mark_viewed_twice.
    + now rewrite E.
Qed.

Lemma viewed_is_final_witness :
  nth_error (Deal.listings (Deal.run Scenario.some_ops Scenario.viewed_store))
    0 = Some Scenario.viewed_listing
  /\ Deal.results 1 (Deal.results 1 Scenario.viewed_store)
     = Deal.results 1 Scenario.viewed_store.
Proof.
  apply (viewed_is_final Scenario.some_ops Scenario.viewed_store 0
           Scenario.viewed_listing 1).
  - reflexivity.
  - reflexivity.
Defined.

(** ** A store error during the sweep *)

(** An exception of [check_tracker] for the first active tracker ends
    [check_all]: the store is as it was, and no other tracker is checked. *)
Lemma check_all_stops (env : Deal.Env) (now : Z) (s : Deal.Store)
    (t : Deal.DealTracker) (rest : list Deal.DealTracker) (e : exn) :
  filter Deal.is_active (Deal.trackers s) = t :: rest ->
  Deal.check_tracker env now t s = Raise e ->
  Deal.check_all env now s = (s, Raise e).
Proof.
  intros Hactive Hraise. unfold Deal.check_all. rewrite Hactive. simpl.
  now rewrite Hraise.
Qed.

(** C5: a store error while one tracker of a "check all" sweep is committed
    is to cost that tracker's batch only, the sweep going on with the
    remaining active trackers. The route [check_all] departs from it: with
    two active trackers and a commit that raises for the first, the
    exception leaves [check_all], the second tracker is never checked (its
    [last_checked] stays empty, its listing is not stored), although a check
    of the second tracker alone succeeds. *)
Theorem check_all_aborts_on_store_error :
  let env :=
    Scenario.olx_env [Scenario.item "https://www.olx.in/item/1" "5000"]
      Scenario.first_fails in
  Deal.check_all env 10 Scenario.two_trackers
  = (Scenario.two_trackers, Raise StoreError)
  /\ option_map Deal.last_checked
       (Deal.get_tracker (fst (Deal.check_all env 10 Scenario.two_trackers))
          2)
     = Some None
  /\ exists s',
       Deal.check_single env 10 2 Scenario.two_trackers = Ok s'
       /\ Scenario.urls_of 2 s' = ["https://www.olx.in/item/1"]
       /\ option_map Deal.last_checked (Deal.get_tracker s' 2)
          = Some (Some 10).
Proof.
  cbv zeta. split; [vm_compute; reflexivity|].
  split; [vm_compute; reflexivity|].
  eexists. split; [vm_compute; reflexivity|].
  split; vm_compute; reflexivity.
Qed.

(** ** Duplicate URLs *)

(** C1: the listings of one tracker are to have pairwise distinct URLs
    after any sequence of checks. The code departs from it for a URL of
    more than 1000 characters: the duplicate check looks for the whole URL
    while the row stores its first 1000 characters, so the second check of
    the same page stores a second row with the same [url]. *)
Theorem truncated_url_stored_twice :
  let env :=
    Scenario.olx_env [Scenario.item Scenario.long_url "5000"]
      Scenario.never in
  String.length Scenario.long_url = 1024%nat
  /\ exists s1 s2,
       Deal.check_single env 10 1 Scenario.one_tracker = Ok s1
       /\ Deal.check_single env 20 1 s1 = Ok s2
       /\ Scenario.urls_of 1 s2
          = [PyStr.take 1000 Scenario.long_url;
             PyStr.take 1000 Scenario.long_url]
       /\ ~ NoDup (Scenario.urls_of 1 s2).
Proof.
  cbv zeta. split; [vm_compute; reflexivity|].
  eexists. eexists.
  split; [vm_compute; reflexivity|].
  split; [vm_compute; reflexivity|].
  assert (Hurls :
    Scenario.urls_of 1
      (Deal.run
         [Deal.OpCheck (Scenario.olx_env
                          [Scenario.item Scenario.long_url "5000"]
                          Scenario.never) 10 1;
          Deal.OpCheck (Scenario.olx_env
                          [Scenario.item Scenario.long_url "5000"]
                          Scenario.never) 20 1]
         Scenario.one_tracker)
    = [PyStr.take 1000 Scenario.long_url;
       PyStr.take 1000 Scenario.long_url])
    by (vm_compute; reflexivity).
  split.
  - exact Hurls.
  - intros Hnodup. apply NoDup_cons_iff in Hnodup.
    destruct Hnodup as [Hnotin _]. apply Hnotin. left. reflexivity.
Qed.

(** C2: a second check of a tracker, every adapter returning what it
    returned to the first, is to commit no new listing. The code departs
    from it for a URL of more than 1000 characters: the second
    [check_tracker] returns, and commits, one new listing. *)
Theorem truncated_url_rerun_commits :
  let env :=
    Scenario.olx_env [Scenario.item Scenario.long_url "5000"]
      Scenario.never in
  let t := Scenario.tracker 1 None None in
  exists s1 new1 s2 new2,
    Deal.check_tracker env 10 t Scenario.one_tracker = Ok (s1, new1)
    /\ Deal.check_tracker env 20 t s1 = Ok (s2, new2)
    /\ List.length new2 = 1%nat
    /\ List.length (Deal.listings s2)
       = S (List.length (Deal.listings s1)).
Proof.
  cbv zeta. do 4 eexists.
  split; [vm_compute; reflexivity|].
  split; [vm_compute; reflexivity|].
  split; reflexivity.
Qed.

(** ** Lead scoring *)

Lemma insert_lead_perm (x : YouTube.Lead) (l : list YouTube.Lead) :
  Permutation (YouTube.insert_lead x l) (x :: l).
Proof.
  induction l as [|y l IH]; simpl.
  - apply Permutation_refl.
  - destruct (YouTube.score x <? YouTube.score y).
    + eapply perm_trans; [apply perm_skip, IH | apply perm_swap].
    + apply Permutation_refl.
Qed.

Lemma sort_leads_perm (l : list YouTube.Lead) :
  Permutation (YouTube.sort_leads l) l.
Proof.
  induction l as [|x l IH]; simpl.
  - apply perm_nil.
  - eapply perm_trans; [apply insert_lead_perm | now apply perm_skip].
Qed.

Lemma insert_lead_sorted (x : YouTube.Lead) (l : list YouTube.Lead) :
  StronglySorted YouTube.by_score_desc l ->
  StronglySorted YouTube.by_score_desc (YouTube.insert_lead x l).
Proof.
  induction 1 as [|y l Hsorted IH Hall]; simpl.
  - constructor; constructor.
  - destruct (YouTube.score x <? YouTube.score y) eqn:E.
    + apply Z.ltb_lt in E. constructor; [exact IH|].
      eapply Permutation_Forall;
        [apply Permutation_sym, insert_lead_perm|].
      constructor; [unfold YouTube.by_score_desc; lia | exact Hall].
    + apply Z.ltb_ge in E. constructor.
      * now constructor.
      * constructor; [exact E|].
        eapply Forall_impl; [|exact Hall].
        unfold YouTube.by_score_desc. intros z Hz. lia.
Qed.

Lemma sort_leads_sorted (l : list YouTube.Lead) :
  StronglySorted YouTube.by_score_desc (YouTube.sort_leads l).
Proof.
  induction l as [|x l IH]; simpl.
  - constructor.
  - now apply insert_lead_sorted.
Qed.

Lemma keyword_fold (text_lower : string) (kws : list (string * Z))
    (sc : Z) (matched : list string) :
  fold_left (YouTube.keyword_step text_lower) kws (sc, matched)
  = (sc + YouTube.sum_Z (map (YouTube.entry_points text_lower) kws),
     matched
     ++ map fst
          (filter (fun entry => PyStr.contains (fst entry) text_lower) kws)).
Proof.
  revert sc matched. induction kws as [|[kw pts] kws IH]; intros sc matched.
  - simpl. now rewrite Z.add_0_r, app_nil_r.
  - cbn [fold_left map filter YouTube.sum_Z fst]. unfold YouTube.keyword_step at 2.
    unfold YouTube.entry_points at 1. cbn [fst snd].
    rewrite <- contains_occurrences.
    destruct (PyStr.contains kw text_lower).
    + rewrite IH. cbn [map fst]. rewrite <- app_assoc. simpl.
      f_equal. lia.
    + rewrite IH. f_equal.
Qed.

Lemma business_keywords_distinct :
  NoDup (map fst YouTube.BUSINESS_KEYWORDS).
Proof.
  apply (NoDup_count_occ' string_dec). intros kw Hin.
  cbn [map fst YouTube.BUSINESS_KEYWORDS] in Hin.
  repeat (destruct Hin as [<-|Hin]; [vm_compute; reflexivity|]).
  destruct Hin.
Qed.

(** A run of the scoring, with no address, no phone number and no date
    found: "price" three times weighs 20, as it does once. *)
Lemma scores_of_comments :
  map (fun l => (YouTube.score l, YouTube.keywords l))
    (YouTube.extract_leads_from_comments (fun _ => []) (fun _ => [])
       (fun _ => None) 0 Scenario.comments EmptyString)
  = [ (80, ["bulk"; "supplier"; "contact"; "need"]);
      (25, ["rate"]);
      (20, ["price"]);
      (0, []) ].
Proof. vm_compute. reflexivity. Qed.

Lemma lead_of_score (EMAIL_findall PHONE_findall : string -> list string)
    (published_at : string -> option Z) (now : Z) (c : YouTube.Comment) :
  YouTube.score
    (YouTube.lead_of EMAIL_findall PHONE_findall published_at now c)
  = (if YouTube.nonempty (YouTube.lead_emails EMAIL_findall
                            (YouTube.c_text c)) then 50 else 0)
    + (if YouTube.nonempty (YouTube.lead_phones PHONE_findall
                              (YouTube.c_text c)) then 40 else 0)
    + YouTube.sum_Z
        (map (YouTube.entry_points (PyStr.lower (YouTube.c_text c)))
           YouTube.BUSINESS_KEYWORDS)
    + (if 5 <=? YouTube.c_likes c then 10 else 0)
    + (if YouTube.recent published_at now (YouTube.c_published c)
       then 10 else 0).
Proof.
  unfold YouTube.lead_of, YouTube.keyword_loop.
  rewrite keyword_fold. cbn [YouTube.score].
  destruct (YouTube.nonempty (YouTube.lead_emails _ _));
    destruct (YouTube.nonempty (YouTube.lead_phones _ _));
    destruct (5 <=? YouTube.c_likes c);
    destruct (YouTube.recent _ _ _); lia.
Qed.

Lemma lead_of_keywords (EMAIL_findall PHONE_findall : string -> list string)
    (published_at : string -> option Z) (now : Z) (c : YouTube.Comment) :
  YouTube.keywords
    (YouTube.lead_of EMAIL_findall PHONE_findall published_at now c)
  = map fst
      (filter
         (fun entry =>
            PyStr.contains (fst entry) (PyStr.lower (YouTube.c_text c)))
         YouTube.BUSINESS_KEYWORDS).
Proof.
  unfold YouTube.lead_of, YouTube.keyword_loop.
  rewrite keyword_fold. reflexivity.
Qed.

(** C10: [extract_leads_from_comments] returns the leads of the comments
    that pass the keyword filter, in non-increasing order of score; the
    score of a comment is the sum of its bonuses (50 for an e-mail address,
    40 for a phone number, 10 for five likes or more, 10 for a comment of
    the last thirty days) and of the weight of every entry of
    [BUSINESS_KEYWORDS] that occurs in the lower-cased text, each entry
    counted once however often it occurs; the entries are pairwise distinct
    and each is listed at most once among the matched keywords. *)
Theorem leads_sorted_keywords_once
    (EMAIL_findall PHONE_findall : string -> list string)
    (published_at : string -> option Z) (now : Z)
    (comments : list YouTube.Comment) (keyword_filter : string) :
  let lead_of :=
    YouTube.lead_of EMAIL_findall PHONE_findall published_at now in
  let leads :=
    YouTube.extract_leads_from_comments EMAIL_findall PHONE_findall
      published_at now comments keyword_filter in
  StronglySorted YouTube.by_score_desc leads
  /\ Permutation leads
       (map lead_of
          (filter (YouTube.passes (PyStr.strip (PyStr.lower keyword_filter)))
             comments))
  /\ (forall c,
        YouTube.score (lead_of c)
        = (if YouTube.nonempty (YouTube.lead_emails EMAIL_findall
                                  (YouTube.c_text c)) then 50 else 0)
          + (if YouTube.nonempty (YouTube.lead_phones PHONE_findall
                                    (YouTube.c_text c)) then 40 else 0)
          + YouTube.sum_Z
              (map (YouTube.entry_points (PyStr.lower (YouTube.c_text c)))
                 YouTube.BUSINESS_KEYWORDS)
          + (if 5 <=? YouTube.c_likes c then 10 else 0)
          + (if YouTube.recent published_at now (YouTube.c_published c)
             then 10 else 0))
  /\ (forall c, NoDup (YouTube.keywords (lead_of c)))
  /\ NoDup (map fst YouTube.BUSINESS_KEYWORDS).
Proof.
  cbv zeta. unfold YouTube.extract_leads_from_comments.
  split; [apply sort_leads_sorted|].
  split; [apply sort_leads_perm|].
  split; [intros c; apply lead_of_score|].
  split; [|exact business_keywords_distinct].
  intros c. rewrite lead_of_keywords.
  generalize business_keywords_distinct.
  generalize YouTube.BUSINESS_KEYWORDS as kws.
  induction kws as [|[kw pts] kws IH]; simpl; intros Hnd.
  - constructor.
  - apply NoDup_cons_iff in Hnd. destruct Hnd as [Hkw Hnd].
    destruct (PyStr.contains kw _); [|now apply IH].
    simpl. constructor; [|now apply IH].
    intros Hin. apply Hkw. apply in_map_iff in Hin.
    destruct Hin as [entry [Heq Hin]]. apply filter_In in Hin.
    apply in_map_iff. exists entry. tauto.
Qed.

(** ** The dedup invariant for URLs that fit the column *)

Lemma take_short (n : nat) (s : string) :
  (String.length s <= n)%nat -> PyStr.take n s = s.
Proof.
  unfold PyStr.take. revert n. induction s as [|c s IH]; intros n H.
  - destruct n; reflexivity.
  - destruct n as [|n]; simpl in H; [lia|].
    simpl. rewrite IH by lia. reflexivity.
Qed.

Lemma exists_listing_app (rows more : list Deal.DealListing) (tid : Z)
    (u : string) :
  Deal.exists_listing (rows ++ more) tid u
  = Deal.exists_listing rows tid u || Deal.exists_listing more tid u.
Proof. unfold Deal.exists_listing. apply existsb_app. Qed.

Lemma exists_listing_In (rows : list Deal.DealListing) (tid : Z)
    (u : string) :
  Deal.exists_listing rows tid u = true <-> In (tid, u) (map Deal.key rows).
Proof.
  unfold Deal.exists_listing. rewrite existsb_exists, in_map_iff.
  split; intros [l H]; exists l.
  - destruct H as [Hin H]. apply andb_true_iff in H. destruct H as [H1 H2].
    apply Z.eqb_eq in H1. apply String.eqb_eq in H2.
    unfold Deal.key. now rewrite H1, H2.
  - destruct H as [H Hin]. unfold Deal.key in H. injection H as H1 H2.
    split; [exact Hin|]. apply andb_true_iff.
    now rewrite H1, H2, Z.eqb_refl, String.eqb_refl.
Qed.

Lemma distinct_urls_snoc (rows : list Deal.DealListing)
    (l : Deal.DealListing) :
  Deal.distinct_urls rows ->
  Deal.exists_listing rows (Deal.tracker_id l) (Deal.url l) = false ->
  Deal.distinct_urls (rows ++ [l]).
Proof.
  unfold Deal.distinct_urls. intros Hnd Hfresh. rewrite map_app.
  apply NoDup_app.
  - exact Hnd.
  - simpl. constructor; [intros [] | constructor].
  - intros k Hk [<-|[]].
    apply exists_listing_In in Hk. unfold Deal.key in Hfresh.
    congruence.
Qed.

Lemma process_item_distinct (tid : Z) (mn mx : option Z)
    (committed : list Deal.DealListing) (platform : string)
    (acc acc' : list Deal.DealListing) (item : Deal.RawItem) :
  Deal.short_url item ->
  Deal.distinct_urls (committed ++ acc) ->
  Deal.process_item tid mn mx committed platform acc item = Ok acc' ->
  Deal.distinct_urls (committed ++ acc').
Proof.
  unfold Deal.process_item, Deal.short_url. intros Hshort Hnd.
  destruct (negb (PyStr.truthy (PyStr.strip (Deal.r_url item)))).
  { intros H. injection H as <-. exact Hnd. }
  destruct (Deal.exists_listing (committed ++ acc) tid _) eqn:Hex.
  { intros H. injection H as <-. exact Hnd. }
  destruct (Deal.price_filter mn mx (Deal.r_price item)) as [[|]|e];
    cbn [bind]; intros H; try discriminate; injection H as <-.
  - rewrite app_assoc. apply distinct_urls_snoc; [exact Hnd|].
    cbn [Deal.new_listing Deal.tracker_id Deal.url].
    now rewrite take_short.
  - exact Hnd.
Qed.

Lemma process_items_distinct (t : Deal.DealTracker)
    (committed : list Deal.DealListing) (platform : string)
    (raw : list Deal.RawItem) (acc acc' : list Deal.DealListing) :
  Forall Deal.short_url raw ->
  Deal.distinct_urls (committed ++ acc) ->
  Deal.process_items t committed platform acc raw = Ok acc' ->
  Deal.distinct_urls (committed ++ acc').
Proof.
  intros Hshort. revert acc.
  induction Hshort as [|item raw Hitem Hraw IH]; intros acc Hnd; simpl.
  - intros H. injection H as <-. exact Hnd.
  - destruct (Deal.process_item _ _ _ _ _ _ _) as [acc1|e] eqn:E;
      cbn [bind]; [|discriminate].
    apply IH. eapply process_item_distinct; eassumption.
Qed.

Lemma unique_by_url_incl (seen : list string) (items : list Deal.RawItem) :
  incl (Deal.unique_by_url seen items) items.
Proof.
  revert seen. induction items as [|item items IH]; intros seen; simpl.
  - apply incl_refl.
  - destruct (existsb _ seen).
    + apply incl_tl, IH.
    + apply incl_cons; [now left | apply incl_tl, IH].
Qed.

Lemma guarded_short (env : Deal.Env) (req : Deal.Request) :
  Deal.short_urls env ->
  Forall Deal.short_url (Deal.guarded (Deal.fetch env req)).
Proof.
  intros Hshort. destruct (Deal.fetch env req) as [|items] eqn:E; simpl.
  - constructor.
  - eapply Hshort, E.
Qed.

Lemma scrape_short (env : Deal.Env) (t : Deal.DealTracker)
    (city platform : string) (raw : list Deal.RawItem) :
  Deal.short_urls env ->
  Deal.scrape env t city platform = Some raw ->
  Forall Deal.short_url raw.
Proof.
  intros Hshort. unfold Deal.scrape.
  destruct (String.eqb platform "serpapi").
  { intros H. injection H as <-. unfold Deal.scrape_serpapi.
    destruct (negb (PyStr.truthy (Deal.serpapi_key env))); [constructor|].
    eapply incl_Forall; [apply unique_by_url_incl|].
    apply Forall_flat_map. repeat constructor; now apply guarded_short. }
  destruct (String.eqb platform "cardekho").
  { intros H. injection H as <-. unfold Deal.scrape_cardekho.
    destruct (_ || _); [now apply guarded_short | constructor]. }
  destruct (String.eqb platform "olx").
  { intros H. injection H as <-. now apply guarded_short. }
  destruct (String.eqb platform "quikr"); [|discriminate].
  intros H. injection H as <-. now apply guarded_short.
Qed.

Lemma process_platforms_distinct (env : Deal.Env) (t : Deal.DealTracker)
    (committed : list Deal.DealListing) (city : string)
    (ps : list string) (acc acc' : list Deal.DealListing) :
  Deal.short_urls env ->
  Deal.distinct_urls (committed ++ acc) ->
  Deal.process_platforms env t committed city acc ps = Ok acc' ->
  Deal.distinct_urls (committed ++ acc').
Proof.
  intros Hshort. revert acc.
  induction ps as [|platform ps IH]; intros acc Hnd; simpl.
  - intros H. injection H as <-. exact Hnd.
  - destruct (Deal.scrape env t city platform) as [raw|] eqn:Hraw.
    + destruct (Deal.process_items _ _ _ _ _) as [acc1|e] eqn:E;
        cbn [bind]; [|discriminate].
      apply IH. eapply process_items_distinct; [|exact Hnd|exact E].
      eapply scrape_short; eassumption.
    + now apply IH.
Qed.

(** A check whose adapters return URLs of at most 1000 characters keeps the
    URLs of every tracker pairwise distinct. *)
Lemma check_tracker_distinct (env : Deal.Env) (now : Z)
    (t : Deal.DealTracker) (s s' : Deal.Store)
    (new : list Deal.DealListing) :
  Deal.short_urls env ->
  Deal.distinct_urls (Deal.listings s) ->
  Deal.check_tracker env now t s = Ok (s', new) ->
  Deal.distinct_urls (Deal.listings s').
Proof.
  intros Hshort Hnd. unfold Deal.check_tracker.
  destruct (Deal.process_platforms _ _ _ _ _ _) as [acc|e] eqn:E;
    cbn [bind]; [|discriminate].
  destruct (Deal.commit_raises env (Deal.id t)); [discriminate|].
  intros H. injection H as <- <-. cbn [Deal.listings].
  eapply process_platforms_distinct; [exact Hshort| |exact E].
  now rewrite app_nil_r.
Qed.

Lemma check_all_loop_distinct (env : Deal.Env) (now : Z)
    (ts : list Deal.DealTracker) (s : Deal.Store) (total : Z) :
  Deal.short_urls env ->
  Deal.distinct_urls (Deal.listings s) ->
  Deal.distinct_urls
    (Deal.listings (fst (Deal.check_all_loop env now ts s total))).
Proof.
  intros Hshort. revert s total.
  induction ts as [|t ts IH]; intros s total Hnd; simpl.
  - exact Hnd.
  - destruct (Deal.check_tracker env now t s) as [[s' new]|e] eqn:E.
    + apply IH. eapply check_tracker_distinct; eassumption.
    + exact Hnd.
Qed.

Lemma mark_viewed_key (tid : Z) (l : Deal.DealListing) :
  Deal.key (Deal.mark_viewed tid l) = Deal.key l.
Proof.
  unfold Deal.mark_viewed. now destruct (_ && _).
Qed.

Lemma step_distinct (o : Deal.Op) (s : Deal.Store) :
  Deal.op_short o ->
  Deal.distinct_urls (Deal.listings s) ->
  Deal.distinct_urls (Deal.listings (Deal.step s o)).
Proof.
  intros Hshort Hnd.
  destruct o as [env now tid | env now | tid]; simpl in *.
  - unfold Deal.check_single.
    destruct (Deal.get_tracker s tid) as [t|]; [|exact Hnd].
    destruct (Deal.check_tracker env now t s) as [[s' new]|e] eqn:E;
      cbn [bind fst]; [|exact Hnd].
    eapply check_tracker_distinct; eassumption.
  - now apply check_all_loop_distinct.
  - unfold Deal.results.
    destruct (Deal.get_tracker s tid); [|exact Hnd].
    cbn [Deal.listings]. unfold Deal.distinct_urls. rewrite map_map.
    erewrite map_ext; [exact Hnd|]. intros l. apply mark_viewed_key.
Qed.

(** With URLs of at most 1000 characters the invariant of C1 holds after
    every sequence of checks, sweeps and views. *)
Lemma distinct_urls_invariant (ops : list Deal.Op) (s : Deal.Store) :
  Forall Deal.op_short ops ->
  Deal.distinct_urls (Deal.listings s) ->
  Deal.distinct_urls (Deal.listings (Deal.run ops s)).
Proof.
  unfold Deal.run. intros Hshort. revert s.
  induction Hshort as [|o ops Ho Hops IH]; intros s Hnd; simpl.
  - exact Hnd.
  - apply IH. now apply step_distinct.
Qed.

(** ** A second check with the same results *)

Lemma settled_more (tid : Z) (mn mx : option Z)
    (rows more : list Deal.DealListing) (item : Deal.RawItem) :
  Deal.settled tid mn mx rows item ->
  Deal.settled tid mn mx (rows ++ more) item.
Proof.
  unfold Deal.settled. intros [H|[H|H]]; auto.
  right. left. rewrite exists_listing_app, H. reflexivity.
Qed.

Lemma process_item_settles (tid : Z) (mn mx : option Z)
    (committed : list Deal.DealListing) (platform : string)
    (acc acc' : list Deal.DealListing) (item : Deal.RawItem) :
  Deal.short_url item ->
  Deal.process_item tid mn mx committed platform acc item = Ok acc' ->
  Deal.settled tid mn mx (committed ++ acc') item
  /\ exists ext, acc' = acc ++ ext.
Proof.
  unfold Deal.process_item, Deal.short_url, Deal.settled. intros Hshort.
  destruct (PyStr.truthy (PyStr.strip (Deal.r_url item))); simpl.
  2:{ intros H. injection H as <-. split; [now left|].
      exists []. now rewrite app_nil_r. }
  destruct (Deal.exists_listing (committed ++ acc) tid _) eqn:Hex.
  { intros H. injection H as <-. split; [now right; left|].
    exists []. now rewrite app_nil_r. }
  destruct (Deal.price_filter mn mx (Deal.r_price item)) as [[|]|e];
    cbn [bind]; intros H; try discriminate; injection H as <-.
  - split; [|now eexists].
    right. left. rewrite app_assoc, exists_listing_app.
    apply orb_true_iff. right. simpl.
    rewrite take_short by exact Hshort.
    now rewrite Z.eqb_refl, String.eqb_refl.
  - split; [now right; right|]. exists []. now rewrite app_nil_r.
Qed.

Lemma process_items_settle (t : Deal.DealTracker)
    (committed : list Deal.DealListing) (platform : string)
    (raw : list Deal.RawItem) (acc acc' : list Deal.DealListing) :
  Forall Deal.short_url raw ->
  Deal.process_items t committed platform acc raw = Ok acc' ->
  Forall (Deal.settled (Deal.id t) (Deal.min_price t) (Deal.max_price t)
            (committed ++ acc')) raw
  /\ exists ext, acc' = acc ++ ext.
Proof.
  intros Hshort. revert acc.
  induction Hshort as [|item raw Hitem Hraw IH]; intros acc; simpl.
  - intros H. injection H as <-. split; [constructor|].
    exists []. now rewrite app_nil_r.
  - destruct (Deal.process_item _ _ _ _ _ _ _) as [acc1|e] eqn:E;
      cbn [bind]; [|discriminate].
    intros H. destruct (IH _ H) as [Hall [ext2 Hext2]].
    destruct (process_item_settles _ _ _ _ _ _ _ _ Hitem E)
      as [Hset [ext1 Hext1]].
    split.
    + constructor; [|exact Hall].
      rewrite Hext2, app_assoc. now apply settled_more.
    + exists (ext1 ++ ext2). rewrite Hext2, Hext1. now rewrite app_assoc.
Qed.

Lemma process_platforms_settle (env : Deal.Env) (t : Deal.DealTracker)
    (committed : list Deal.DealListing) (city : string)
    (ps : list string) (acc acc' : list Deal.DealListing) :
  Deal.short_urls env ->
  Deal.process_platforms env t committed city acc ps = Ok acc' ->
  (forall platform raw,
     In platform ps -> Deal.scrape env t city platform = Some raw ->
     Forall (Deal.settled (Deal.id t) (Deal.min_price t) (Deal.max_price t)
               (committed ++ acc')) raw)
  /\ exists ext, acc' = acc ++ ext.
Proof.
  intros Hshort. revert acc.
  induction ps as [|platform ps IH]; intros acc; simpl.
  - intros H. injection H as <-. split; [intros ? ? []|].
    exists []. now rewrite app_nil_r.
  - destruct (Deal.scrape env t city platform) as [raw|] eqn:Hraw.
    + destruct (Deal.process_items _ _ _ _ _) as [acc1|e] eqn:E;
        cbn [bind]; [|discriminate].
      intros H. destruct (IH _ H) as [Hall [ext2 Hext2]].
      destruct (process_items_settle _ _ _ _ _ _
                  (scrape_short _ _ _ _ _ Hshort Hraw) E)
        as [Hset [ext1 Hext1]].
      split.
      * intros p raw' [<-|Hin] Hp; [|now apply (Hall p)].
        rewrite Hraw in Hp. injection Hp as <-.
        rewrite Hext2, app_assoc.
        eapply Forall_impl; [|exact Hset].
        intros item. apply settled_more.
      * exists (ext1 ++ ext2). rewrite Hext2, Hext1. now rewrite app_assoc.
    + intros H. destruct (IH _ H) as [Hall Hext]. split; [|exact Hext].
      intros p raw' [<-|Hin] Hp; [congruence | now apply (Hall p)].
Qed.

Lemma process_items_settled (t : Deal.DealTracker)
    (rows : list Deal.DealListing) (platform : string)
    (raw : list Deal.RawItem) :
  Forall (Deal.settled (Deal.id t) (Deal.min_price t) (Deal.max_price t)
            rows) raw ->
  Deal.process_items t rows platform [] raw = Ok [].
Proof.
  induction 1 as [|item raw Hitem Hraw IH]; simpl; [reflexivity|].
  assert (E : Deal.process_item (Deal.id t) (Deal.min_price t)
                (Deal.max_price t) rows platform [] item = Ok []).
  { unfold Deal.process_item. rewrite app_nil_r.
    destruct Hitem as [H|[H|H]].
    - now rewrite H.
    - rewrite H. now destruct (negb _).
    - rewrite H. destruct (negb _); [reflexivity|].
      now destruct (Deal.exists_listing _ _ _). }
  rewrite E. exact IH.
Qed.

Lemma process_platforms_settled (env : Deal.Env) (t : Deal.DealTracker)
    (rows : list Deal.DealListing) (city : string) (ps : list string) :
  (forall platform raw,
     In platform ps -> Deal.scrape env t city platform = Some raw ->
     Forall (Deal.settled (Deal.id t) (Deal.min_price t) (Deal.max_price t)
               rows) raw) ->
  Deal.process_platforms env t rows city [] ps = Ok [].
Proof.
  induction ps as [|platform ps IH]; intros Hall; simpl; [reflexivity|].
  destruct (Deal.scrape env t city platform) as [raw|] eqn:Hraw.
  - rewrite (process_items_settled t rows platform raw).
    + cbn [bind]. apply IH. intros p raw' Hin. apply Hall. now right.
    + apply (Hall platform); [now left | exact Hraw].
  - apply IH. intros p raw' Hin. apply Hall. now right.
Qed.

(** When the adapters return URLs of at most 1000 characters, a check that
    follows a successful check and receives the same results returns no new
    listing and leaves the listings as they are. *)
Lemma rerun_commits_nothing (env : Deal.Env) (now now' : Z)
    (t : Deal.DealTracker) (s s1 : Deal.Store)
    (new1 : list Deal.DealListing) :
  Deal.short_urls env ->
  Deal.check_tracker env now t s = Ok (s1, new1) ->
  exists s2,
    Deal.check_tracker env now' t s1 = Ok (s2, [])
    /\ Deal.listings s2 = Deal.listings s1.
Proof.
  intros Hshort. unfold Deal.check_tracker.
  destruct (Deal.process_platforms env t (Deal.listings s) _ [] _)
    as [acc|e] eqn:E; cbn [bind]; [|discriminate].
  destruct (Deal.commit_raises env (Deal.id t)) eqn:Hcommit; [discriminate|].
  intros H. injection H as <- <-. cbn [Deal.listings Deal.trackers].
  destruct (process_platforms_settle _ _ _ _ _ _ _ Hshort E) as [Hall _].
  rewrite (process_platforms_settled env t (Deal.listings s ++ acc)).
  - cbn [bind]. eexists. split; [reflexivity|].
    cbn [Deal.listings]. now rewrite app_nil_r.
  - exact Hall.
Qed.

(** ** Whole numbers are compared exactly *)

Lemma round_ratio_scaled (n k : Z) :
  0 < n < 2 ^ 53 -> 0 <= k ->
  PyFloat.round_ratio (n * 2 ^ k) (2 ^ k)
  = PyFloat.Fin (n * 2 ^ (52 - Z.log2 n)) (Z.log2 n - 52).
Proof.
  intros [Hpos Hlt] Hk. unfold PyFloat.round_ratio. cbv zeta.
  assert (Hk2 : 0 < 2 ^ k) by (apply Z.pow_pos_nonneg; lia).
  assert (Hlog : 0 <= Z.log2 n <= 52).
  { split; [apply Z.log2_nonneg|].
    assert (Z.log2 n < 53) by (apply Z.log2_lt_pow2; lia). lia. }
  assert (Hlow : 2 ^ Z.log2 n <= n) by (apply Z.log2_spec; lia).
  replace (n * 2 ^ k =? 0) with false by (symmetry; apply Z.eqb_neq; nia).
  replace (Z.log2 (n * 2 ^ k) - Z.log2 (2 ^ k)) with (Z.log2 n)
    by (rewrite Z.log2_mul_pow2, Z.log2_pow2 by lia; lia).
  replace (0 <=? Z.log2 n) with true by (symmetry; apply Z.leb_le; lia).
  replace (n * 2 ^ k <? 2 ^ k * 2 ^ Z.log2 n) with false
    by (symmetry; apply Z.ltb_ge; rewrite (Z.mul_comm n);
        apply Z.mul_le_mono_nonneg_l; lia).
  cbv iota. rewrite Z.max_l by lia.
  destruct (Z.eq_dec (Z.log2 n) 52) as [E|E].
  - replace (52 - Z.log2 n) with 0 by lia.
    replace (Z.log2 n - 52) with 0 by lia.
    change (0 <=? 0) with true. cbv iota.
    change (2 ^ 0) with 1. rewrite !Z.mul_1_r.
    rewrite Z.div_mul by lia. rewrite Z.mod_mul by lia.
    replace (2 * 0 <? 2 ^ k) with true by (symmetry; apply Z.ltb_lt; lia).
    replace (2 ^ 1024 <=? n) with false
      by (symmetry; apply Z.leb_gt;
          apply Z.lt_trans with (2 ^ 53); [lia | reflexivity]).
    reflexivity.
  - replace (0 <=? Z.log2 n - 52) with false
      by (symmetry; apply Z.leb_gt; lia).
    cbv iota. cbn [andb].
    replace (- (Z.log2 n - 52)) with (52 - Z.log2 n) by lia.
    replace (n * 2 ^ k * 2 ^ (52 - Z.log2 n))
      with (n * 2 ^ (52 - Z.log2 n) * 2 ^ k) by ring.
    rewrite Z.div_mul by lia. rewrite Z.mod_mul by lia.
    replace (2 * 0 <? 2 ^ k) with true by (symmetry; apply Z.ltb_lt; lia).
    reflexivity.
Qed.

Lemma of_Z_exact (n : Z) :
  0 < n < 2 ^ 53 ->
  PyFloat.of_Z n = PyFloat.Fin (n * 2 ^ (52 - Z.log2 n)) (Z.log2 n - 52).
Proof.
  intros H. unfold PyFloat.of_Z.
  rewrite <- (round_ratio_scaled n 0 H) by lia.
  change (2 ^ 0) with 1. now rewrite Z.mul_1_r.
Qed.

Lemma to_int_of_Z (n : Z) :
  0 <= n < 2 ^ 53 -> PyFloat.to_int (PyFloat.of_Z n) = Ok n.
Proof.
  intros [Hn Hlt]. destruct (Z.eq_dec n 0) as [->|Hne]; [reflexivity|].
  rewrite of_Z_exact by lia. unfold PyFloat.to_int.
  assert (Hlog : 0 <= Z.log2 n <= 52).
  { split; [apply Z.log2_nonneg|].
    assert (Z.log2 n < 53) by (apply Z.log2_lt_pow2; lia). lia. }
  destruct (Z.eq_dec (Z.log2 n) 52) as [E|E].
  - replace (52 - Z.log2 n) with 0 by lia.
    replace (Z.log2 n - 52) with 0 by lia.
    change (0 <=? 0) with true. cbv iota.
    change (2 ^ 0) with 1. f_equal. lia.
  - replace (0 <=? Z.log2 n - 52) with false
      by (symmetry; apply Z.leb_gt; lia).
    replace (- (Z.log2 n - 52)) with (52 - Z.log2 n) by lia.
    rewrite Z.div_mul; [reflexivity|].
    assert (0 < 2 ^ (52 - Z.log2 n)) by (apply Z.pow_pos_nonneg; lia). lia.
Qed.

Lemma mul_of_Z (a b : Z) :
  0 < a -> 0 < b -> a * b < 2 ^ 53 ->
  PyFloat.mul (PyFloat.of_Z a) (PyFloat.of_Z b) = PyFloat.of_Z (a * b).
Proof.
  intros Ha Hb Hab.
  assert (Ha53 : a < 2 ^ 53) by nia.
  assert (Hb53 : b < 2 ^ 53) by nia.
  rewrite (of_Z_exact a), (of_Z_exact b), (of_Z_exact (a * b)) by lia.
  assert (Hla : 0 <= Z.log2 a <= 52).
  { split; [apply Z.log2_nonneg|].
    assert (Z.log2 a < 53) by (apply Z.log2_lt_pow2; lia). lia. }
  assert (Hlb : 0 <= Z.log2 b <= 52).
  { split; [apply Z.log2_nonneg|].
    assert (Z.log2 b < 53) by (apply Z.log2_lt_pow2; lia). lia. }
  unfold PyFloat.mul.
  set (k := (52 - Z.log2 a) + (52 - Z.log2 b)).
  replace (a * 2 ^ (52 - Z.log2 a) * (b * 2 ^ (52 - Z.log2 b)))
    with (a * b * 2 ^ k)
    by (unfold k; rewrite Z.pow_add_r by lia; ring).
  replace (Z.log2 a - 52 + (Z.log2 b - 52)) with (- k) by (unfold k; lia).
  destruct (Z.eq_dec k 0) as [E|E].
  - rewrite E. change (- 0) with 0. change (0 <=? 0) with true. cbv iota.
    change (2 ^ 0) with 1.
    rewrite !Z.mul_1_r. fold (PyFloat.of_Z (a * b)).
    apply of_Z_exact. nia.
  - replace (0 <=? - k) with false
      by (symmetry; apply Z.leb_gt; unfold k in *; lia).
    rewrite Z.opp_involutive.
    apply round_ratio_scaled; [nia | unfold k; lia].
Qed.

Lemma split_dot_digits (s : string) :
  PyStr.forallb_str PyStr.is_digit s = true ->
  PyFloat.split_dot s = (s, None).
Proof.
  induction s as [|c s IH]; simpl; intros H; [reflexivity|].
  apply andb_true_iff in H. destruct H as [Hc Hs].
  replace (PyStr.is_dot c) with false.
  - now rewrite IH.
  - unfold PyStr.is_dot. destruct (Ascii.eqb_spec c "."%char) as [->|];
      [discriminate Hc | reflexivity].
Qed.

Lemma digits_value_acc_bounds (s : string) (acc : Z) :
  PyStr.forallb_str PyStr.is_digit s = true -> 0 <= acc ->
  acc <= PyStr.digits_value_acc acc s.
Proof.
  revert acc.
  induction s as [|c s IH]; cbn [PyStr.digits_value_acc PyStr.forallb_str];
    intros acc H Hacc; [lia|].
  apply andb_true_iff in H. destruct H as [Hc Hs].
  unfold PyStr.is_digit in Hc. apply andb_true_iff in Hc.
  destruct Hc as [Hlo Hhi]. apply N.leb_le in Hlo. apply N.leb_le in Hhi.
  assert (Hd : 0 <= Z.of_N (N_of_ascii c) - 48) by lia.
  specialize (IH (10 * acc + (Z.of_N (N_of_ascii c) - 48)) Hs).
  assert (Hstep : 0 <= 10 * acc + (Z.of_N (N_of_ascii c) - 48)) by lia.
  specialize (IH Hstep). lia.
Qed.

(** A price text whose digits, once every other character is deleted, read
    [n] is compared as [n], or as [n * 100000] when it mentions lakh,
    as long as the number is below 2^53. *)
Lemma scaled_value_whole (numeric : string) (lakh : bool) :
  PyStr.truthy numeric = true ->
  PyStr.forallb_str PyStr.is_digit numeric = true ->
  PyStr.digits_value numeric * 100000 < 2 ^ 53 ->
  Deal.scaled_value numeric lakh
  = Ok (Some (if lakh then PyStr.digits_value numeric * 100000
              else PyStr.digits_value numeric)).
Proof.
  intros Hne Hdigits Hbound. unfold Deal.scaled_value. rewrite Hne.
  unfold PyFloat.of_string. rewrite (split_dot_digits _ Hdigits).
  rewrite append_empty_r, Hdigits, Hne. cbn [andb PyStr.forallb_str bind].
  change (10 ^ Z.of_nat (String.length EmptyString)) with 1.
  fold (PyFloat.of_Z (PyStr.digits_value numeric)).
  pose proof (digits_value_acc_bounds numeric 0 Hdigits (Z.le_refl 0)) as Hn.
  fold (PyStr.digits_value numeric) in Hn.
  set (n := PyStr.digits_value numeric) in *.
  destruct lakh.
  - destruct (Z.eq_dec n 0) as [E|E].
    + rewrite E. reflexivity.
    + rewrite mul_of_Z by lia. rewrite to_int_of_Z by lia. reflexivity.
  - rewrite to_int_of_Z by lia. reflexivity.
Qed.

(** Hence a price written with grouping commas, such as "Rs 3,50,000", is
    compared at the number its digits spell. *)
Lemma price_value_grouped (chunks : list (string * string)) (tail : string) :
  well_cut chunks tail = true ->
  PyStr.truthy (runs chunks) = true ->
  PyStr.forallb_str PyStr.is_digit (runs chunks) = true ->
  PyStr.digits_value (runs chunks) * 100000 < 2 ^ 53 ->
  Deal.price_value (assemble chunks tail)
  = Ok (Some (if Deal.mentions_lakh (assemble chunks tail)
              then PyStr.digits_value (runs chunks) * 100000
              else PyStr.digits_value (runs chunks))).
Proof.
  intros Hcut Hne Hdigits Hbound.
  unfold Deal.price_value. rewrite (keep_numeric_assemble _ _ Hcut).
  now apply scaled_value_whole.
Qed.

(** ** The value compared with the bounds, against IEEE 754 *)


Lemma shifted_pos (n d e : Z) :
  0 < d -> 0 < snd (Binary64.shifted n d e).
Proof.
  intros Hd. unfold Binary64.shifted.
  destruct (0 <=? e) eqn:E; cbn [snd]; [|exact Hd].
  apply Z.leb_le in E. apply Z.mul_pos_pos; [exact Hd|].
  apply Z.pow_pos_nonneg; lia.
Qed.


(** Lowering the exponent by [k] multiplies the fraction by [2^k]. *)
Lemma shifted_lower (n d e k : Z) :
  0 <= k ->
  fst (Binary64.shifted n d (e - k)) * snd (Binary64.shifted n d e)
  = 2 ^ k * fst (Binary64.shifted n d e)
    * snd (Binary64.shifted n d (e - k)).
Proof.
  intros Hk. unfold Binary64.shifted.
  destruct (0 <=? e) eqn:E; destruct (0 <=? e - k) eqn:Ek; cbn [fst snd].
  - apply Z.leb_le in E. apply Z.leb_le in Ek.
    replace e with (k + (e - k)) at 1 by lia.
    rewrite Z.pow_add_r by lia. ring.
  - apply Z.leb_le in E. apply Z.leb_gt in Ek.
    replace (- (e - k)) with (k - e) by lia.
    replace k with ((k - e) + e) at 2 by lia.
    rewrite Z.pow_add_r by lia. ring.
  - apply Z.leb_gt in E. apply Z.leb_le in Ek. lia.
  - apply Z.leb_gt in E. apply Z.leb_gt in Ek.
    replace (- (e - k)) with (k + - e) by lia.
    rewrite Z.pow_add_r by lia. ring.
Qed.



















(** The two relations determine the float and the integer. *)
Lemma nearest_even_unique (num den m m' : Z) :
  0 < den ->
  Binary64.nearest_even num den m -> Binary64.nearest_even num den m' ->
  m = m'.
Proof.
  intros Hden [H1 E1] [H2 E2].
  assert (Hd : -1 <= m - m' <= 1).
  { split.
    - assert (H : -2 < m - m'); [|lia].
      apply Z.mul_lt_mono_pos_r with den; [exact Hden|]. lia.
    - assert (H : m - m' < 2); [|lia].
      apply Z.mul_lt_mono_pos_r with den; [exact Hden|]. lia. }
  destruct (Z.eq_dec m m') as [|Hne]; [assumption|exfalso].
  assert (Hcase : m' = m + 1 \/ m = m' + 1) by lia.
  destruct Hcase as [-> | ->].
  - assert (T1 : Z.abs (2 * (m * den - num)) = den) by lia.
    assert (T2 : Z.abs (2 * ((m + 1) * den - num)) = den) by lia.
    specialize (E1 T1). specialize (E2 T2).
    rewrite Z.even_add, E1 in E2. discriminate E2.
  - assert (T1 : Z.abs (2 * ((m' + 1) * den - num)) = den) by lia.
    assert (T2 : Z.abs (2 * (m' * den - num)) = den) by lia.
    specialize (E1 T1). specialize (E2 T2).
    rewrite Z.even_add, E2 in E1. discriminate E1.
Qed.

Lemma rounds_to_exponent_le (n d m e m' e' : Z) :
  0 < n -> 0 < d ->
  Binary64.rounds_to n d m e -> Binary64.rounds_to n d m' e' -> e' <= e.
Proof.
  intros Hn Hd (He & Hhi & _ & _) (He' & _ & Hlo' & _).
  destruct (Z_le_gt_dec e' e) as [H|H]; [exact H|exfalso].
  destruct Hlo' as [Hlo'|Hlo']; [|lia].
  pose proof (shifted_lower n d e' (e' - e) ltac:(lia)) as Heq.
  replace (e' - (e' - e)) with e in Heq by lia.
  pose proof (shifted_pos n d e Hd) as Hp.
  pose proof (shifted_pos n d e' Hd) as Hp'.
  set (num := fst (Binary64.shifted n d e)) in *.
  set (den := snd (Binary64.shifted n d e)) in *.
  set (num' := fst (Binary64.shifted n d e')) in *.
  set (den' := snd (Binary64.shifted n d e')) in *.
  assert (Hk : 2 <= 2 ^ (e' - e)).
  { change 2 with (2 ^ 1) at 1. apply Z.pow_le_mono_r; lia. }
  assert (H1 : num * den' < 2 ^ 53 * den * den')
    by (apply Z.mul_lt_mono_pos_r; assumption).
  assert (H2 : 2 * (2 ^ 52 * den' * den) <= 2 ^ (e' - e) * (num' * den)).
  { assert (Ha : 0 <= 2 ^ 52 * den' * den).
    { apply Z.mul_nonneg_nonneg; [|lia].
      apply Z.mul_nonneg_nonneg; [apply Z.pow_nonneg|]; lia. }
    assert (Hb : 2 ^ 52 * den' * den <= num' * den)
      by (apply Z.mul_le_mono_pos_r; assumption).
    apply Z.mul_le_mono_nonneg; [lia | exact Hk | exact Ha | exact Hb]. }
  change (2 ^ 53) with (2 * 2 ^ 52) in H1. lia.
Qed.

Lemma rounds_to_unique (n d m e m' e' : Z) :
  0 < n -> 0 < d ->
  Binary64.rounds_to n d m e -> Binary64.rounds_to n d m' e' ->
  m = m' /\ e = e'.
Proof.
  intros Hn Hd H H'.
  pose proof (rounds_to_exponent_le n d m e m' e' Hn Hd H H') as H1.
  pose proof (rounds_to_exponent_le n d m' e' m e Hn Hd H' H) as H2.
  assert (Heq : e = e') by lia. subst e'. split; [|reflexivity].
  destruct H as (_ & _ & _ & Hnear). destruct H' as (_ & _ & _ & Hnear').
  apply (nearest_even_unique _ _ _ _ (shifted_pos n d e Hd) Hnear Hnear').
Qed.

Lemma truncates_to_unique (m e v v' : Z) :
  Binary64.truncates_to m e v -> Binary64.truncates_to m e v' -> v = v'.
Proof.
  unfold Binary64.truncates_to. intros [H1 H2] [H1' H2'].
  pose proof (shifted_pos m 1 (- e) ltac:(lia)) as Hp.
  fold (Binary64.value m e) in Hp.
  set (den := snd (Binary64.value m e)) in *.
  assert (Ha : v < v' + 1).
  { apply Z.mul_lt_mono_pos_r with den; [exact Hp | lia]. }
  assert (Hb : v' < v + 1).
  { apply Z.mul_lt_mono_pos_r with den; [exact Hp | lia]. }
  lia.
Qed.






(** * Further properties *)

(** ** The location filter *)

Lemma lower_char_idem (c : ascii) :
  PyStr.lower_char (PyStr.lower_char c) = PyStr.lower_char c.
Proof. destruct c as [[] [] [] [] [] [] [] []]; reflexivity. Qed.

Lemma lower_idem (s : string) : PyStr.lower (PyStr.lower s) = PyStr.lower s.
Proof.
  induction s as [|c s IH]; simpl; [reflexivity|].
  now rewrite lower_char_idem, IH.
Qed.

Lemma truthy_lower (s : string) :
  PyStr.truthy (PyStr.lower s) = PyStr.truthy s.
Proof. destruct s; reflexivity. Qed.

Lemma truthy_replace_char (a b : ascii) (s : string) :
  PyStr.truthy (Location.replace_char a b s) = PyStr.truthy s.
Proof. destruct s; reflexivity. Qed.

Lemma lower_replace_hyphen (s : string) :
  PyStr.lower (Location.replace_char "-" " " s)
  = Location.replace_char "-" " " (PyStr.lower s).
Proof.
  induction s as [|c s IH]; simpl; [reflexivity|]. rewrite IH. f_equal.
  destruct c as [[] [] [] [] [] [] [] []]; reflexivity.
Qed.

Lemma replace_hyphen_idem (s : string) :
  Location.replace_char "-" " " (Location.replace_char "-" " " s)
  = Location.replace_char "-" " " s.
Proof.
  induction s as [|c s IH]; simpl; [reflexivity|]. rewrite IH. f_equal.
  destruct (Ascii.eqb c "-") eqn:E; [reflexivity|]. now rewrite E.
Qed.

Lemma contains_empty (hay : string) : PyStr.contains EmptyString hay = true.
Proof. destruct hay; reflexivity. Qed.

(** X1: the location filter does not tell upper case from lower case, in
    the location and in the requested city alike, nor a hyphen of the
    location from a space. *)
Theorem location_match_normalised (location city_input : string) :
  Location._is_location_match (PyStr.lower location) city_input
  = Location._is_location_match location city_input
  /\ Location._is_location_match location (PyStr.lower city_input)
     = Location._is_location_match location city_input
  /\ Location._is_location_match (Location.replace_char "-" " " location)
       city_input
     = Location._is_location_match location city_input.
Proof.
  unfold Location._is_location_match. repeat split.
  - now rewrite truthy_lower, lower_idem.
  - now rewrite lower_idem.
  - now rewrite truthy_replace_char, lower_replace_hyphen,
      replace_hyphen_idem.
Qed.

(** X2: a requested city that is blank once stripped matches every
    location, since the empty text is contained in every text. *)
Theorem blank_city_matches_all (location city_input : string) :
  PyStr.strip (PyStr.lower city_input) = EmptyString ->
  Location._is_location_match location city_input = true.
Proof.
  intros H. unfold Location._is_location_match. rewrite H.
  destruct (negb (PyStr.truthy location)); [reflexivity|].
  now rewrite contains_empty.
Qed.

Lemma blank_city_matches_all_witness :
  PyStr.strip (PyStr.lower "  ") = EmptyString
  /\ Location._is_location_match "New Delhi" "  " = true.
Proof.
  split.
  - reflexivity.
  - apply (blank_city_matches_all "New Delhi" "  "). reflexivity.
Defined.

(** X3: when the requested city is the state Kerala, in any case and with
    any white space around it, every location that contains the name of one
    of the listed Kerala cities matches. *)
Theorem kerala_city_matches_state (location city_input c : string) :
  PyStr.strip (PyStr.lower city_input) = "kerala" ->
  In c Location.KERALA_CITIES ->
  PyStr.contains c
    (Location.replace_char "-" " " (PyStr.lower location)) = true ->
  Location._is_location_match location city_input = true.
Proof.
  intros Hstate Hc Hin. unfold Location._is_location_match.
  rewrite Hstate.
  destruct (negb (PyStr.truthy location)); [reflexivity|].
  destruct (_ || _); [reflexivity|].
  change (Location.STATE_CITIES "kerala") with (Some Location.KERALA_CITIES).
  change (Location.nonempty Location.KERALA_CITIES) with true. cbv iota.
  apply orb_true_iff. right. apply existsb_exists. exists c. now split.
Qed.

Lemma kerala_city_matches_state_witness :
  PyStr.strip (PyStr.lower " Kerala ") = "kerala"
  /\ In "kochi" Location.KERALA_CITIES
  /\ PyStr.contains "kochi"
       (Location.replace_char "-" " " (PyStr.lower "Fort-Kochi")) = true
  /\ Location._is_location_match "Fort-Kochi" " Kerala " = true.
Proof.
  assert (H1 : PyStr.strip (PyStr.lower " Kerala ") = "kerala")
    by reflexivity.
  assert (H2 : In "kochi" Location.KERALA_CITIES)
    by (simpl; tauto).
  assert (H3 : PyStr.contains "kochi"
                 (Location.replace_char "-" " " (PyStr.lower "Fort-Kochi"))
               = true) by reflexivity.
  split; [exact H1|]. split; [exact H2|]. split; [exact H3|].
  exact (kerala_city_matches_state "Fort-Kochi" " Kerala " "kochi" H1 H2 H3).
Defined.

(** ** The rows a check adds *)

Lemma take_length (n : nat) (s : string) :
  (String.length (PyStr.take n s) <= n)%nat.
Proof.
  unfold PyStr.take. revert n. induction s as [|c s IH]; intros n.
  - destruct n; simpl; lia.
  - destruct n as [|n]; simpl; [lia|]. specialize (IH n). lia.
Qed.

Lemma take_nonempty (n : nat) (s : string) :
  PyStr.truthy s = true -> PyStr.take (S n) s <> EmptyString.
Proof.
  destruct s as [|c s]; simpl; [discriminate|].
  intros _. unfold PyStr.take. simpl. discriminate.
Qed.

Lemma new_listing_fresh (tid : Z) (platform item_url : string)
    (item : Deal.RawItem) :
  PyStr.truthy item_url = true ->
  DealRows.fresh_row tid (Deal.new_listing tid platform item_url item).
Proof.
  intros Hurl. unfold DealRows.fresh_row, DealRows.fits_columns. simpl.
  repeat split; try apply take_length.
  now apply (take_nonempty 999).
Qed.

Lemma process_item_fresh (tid : Z) (mn mx : option Z)
    (committed : list Deal.DealListing) (platform : string)
    (acc acc' : list Deal.DealListing) (item : Deal.RawItem) :
  Forall (DealRows.fresh_row tid) acc ->
  Deal.process_item tid mn mx committed platform acc item = Ok acc' ->
  Forall (DealRows.fresh_row tid) acc'.
Proof.
  unfold Deal.process_item. intros Hacc.
  destruct (PyStr.truthy (PyStr.strip (Deal.r_url item))) eqn:Hurl; simpl.
  2:{ intros H. injection H as <-. exact Hacc. }
  destruct (Deal.exists_listing _ _ _).
  { intros H. injection H as <-. exact Hacc. }
  destruct (Deal.price_filter mn mx (Deal.r_price item)) as [[|]|e];
    cbn [bind]; intros H; try discriminate; injection H as <-.
  - apply Forall_app. split; [exact Hacc|].
    constructor; [|constructor]. now apply new_listing_fresh.
  - exact Hacc.
Qed.

Lemma process_items_fresh (t : Deal.DealTracker)
    (committed : list Deal.DealListing) (platform : string)
    (raw : list Deal.RawItem) (acc acc' : list Deal.DealListing) :
  Forall (DealRows.fresh_row (Deal.id t)) acc ->
  Deal.process_items t committed platform acc raw = Ok acc' ->
  Forall (DealRows.fresh_row (Deal.id t)) acc'.
Proof.
  revert acc. induction raw as [|item raw IH]; intros acc Hacc; simpl.
  - intros H. injection H as <-. exact Hacc.
  - destruct (Deal.process_item _ _ _ _ _ _ _) as [acc1|e] eqn:E;
      cbn [bind]; [|discriminate].
    apply IH. eapply process_item_fresh; eassumption.
Qed.

Lemma process_platforms_fresh (env : Deal.Env) (t : Deal.DealTracker)
    (committed : list Deal.DealListing) (city : string)
    (ps : list string) (acc acc' : list Deal.DealListing) :
  Forall (DealRows.fresh_row (Deal.id t)) acc ->
  Deal.process_platforms env t committed city acc ps = Ok acc' ->
  Forall (DealRows.fresh_row (Deal.id t)) acc'.
Proof.
  revert acc. induction ps as [|platform ps IH]; intros acc Hacc; simpl.
  - intros H. injection H as <-. exact Hacc.
  - destruct (Deal.scrape env t city platform) as [raw|].
    + destruct (Deal.process_items _ _ _ _ _) as [acc1|e] eqn:E;
        cbn [bind]; [|discriminate].
      apply IH. eapply process_items_fresh; eassumption.
    + now apply IH.
Qed.

Lemma check_tracker_fresh (env : Deal.Env) (now : Z) (t : Deal.DealTracker)
    (s s' : Deal.Store) (new : list Deal.DealListing) :
  Deal.check_tracker env now t s = Ok (s', new) ->
  Forall (DealRows.fresh_row (Deal.id t)) new.
Proof.
  unfold Deal.check_tracker.
  destruct (Deal.process_platforms _ _ _ _ _ _) as [acc|e] eqn:E;
    cbn [bind]; [|discriminate].
  destruct (Deal.commit_raises env (Deal.id t)); [discriminate|].
  intros H. injection H as <- <-.
  eapply process_platforms_fresh; [constructor | exact E].
Qed.

(** X4: every listing that a check returns belongs to the checked tracker,
    is flagged new, has a URL that is not empty, and fits the columns of
    the table: title 500, price 100, location 200, URL and image URL 1000
    characters. *)
Theorem check_tracker_rows_fresh (env : Deal.Env) (now : Z)
    (t : Deal.DealTracker) (s s' : Deal.Store)
    (new : list Deal.DealListing) :
  Deal.check_tracker env now t s = Ok (s', new) ->
  Forall (DealRows.fresh_row (Deal.id t)) new.
Proof. apply check_tracker_fresh. Qed.

Lemma check_tracker_rows_fresh_witness :
  exists s' new,
    Deal.check_tracker
      (Scenario.olx_env [Scenario.item Scenario.long_url "5000"]
         Scenario.never)
      10 (Scenario.tracker 1 None None) Scenario.one_tracker = Ok (s', new)
    /\ List.length new = 1%nat
    /\ Forall (DealRows.fresh_row 1) new.
Proof.
  eexists. eexists.
  assert (H : Deal.check_tracker
                (Scenario.olx_env [Scenario.item Scenario.long_url "5000"]
                   Scenario.never)
                10 (Scenario.tracker 1 None None) Scenario.one_tracker
              = Ok (Deal.run
                      [Deal.OpCheck
                         (Scenario.olx_env
                            [Scenario.item Scenario.long_url "5000"]
                            Scenario.never) 10 1] Scenario.one_tracker,
                    [Deal.new_listing 1 "olx" Scenario.long_url
                       (Scenario.item Scenario.long_url "5000")]))
    by (vm_compute; reflexivity).
  split; [exact H|]. split; [reflexivity|].
  exact (check_tracker_rows_fresh _ _ _ _ _ _ H).
Defined.

(** ** What a check leaves alone *)

Lemma find_set_last_checked_other (tid tid' now : Z)
    (ts : list Deal.DealTracker) :
  tid' <> tid ->
  find (fun t => Deal.id t =? tid') (map (Deal.set_last_checked tid now) ts)
  = find (fun t => Deal.id t =? tid') ts.
Proof.
  intros Hne. induction ts as [|t0 ts IH]; simpl; [reflexivity|].
  assert (Hid : Deal.id (Deal.set_last_checked tid now t0) = Deal.id t0).
  { unfold Deal.set_last_checked. now destruct (Deal.id t0 =? tid). }
  rewrite Hid. destruct (Deal.id t0 =? tid') eqn:E'; [|exact IH].
  apply Z.eqb_eq in E'. f_equal. unfold Deal.set_last_checked.
  replace (Deal.id t0 =? tid) with false
    by (symmetry; apply Z.eqb_neq; lia).
  reflexivity.
Qed.

(** X5: a check that succeeds keeps every stored listing as it is and in
    its place, appends the listings it returns, and changes no tracker but
    the checked one, of which it sets [last_checked] alone. *)
Theorem check_tracker_frame (env : Deal.Env) (now : Z)
    (t : Deal.DealTracker) (s s' : Deal.Store)
    (new : list Deal.DealListing) :
  Deal.check_tracker env now t s = Ok (s', new) ->
  Deal.listings s' = Deal.listings s ++ new
  /\ (forall tid', tid' <> Deal.id t ->
        Deal.get_tracker s' tid' = Deal.get_tracker s tid')
  /\ (forall t0, Deal.get_tracker s (Deal.id t) = Some t0 ->
        exists t1,
          Deal.get_tracker s' (Deal.id t) = Some t1
          /\ Deal.last_checked t1 = Some now
          /\ Deal.id t1 = Deal.id t0
          /\ Deal.search_query t1 = Deal.search_query t0
          /\ Deal.category t1 = Deal.category t0
          /\ Deal.city t1 = Deal.city t0
          /\ Deal.min_price t1 = Deal.min_price t0
          /\ Deal.max_price t1 = Deal.max_price t0
          /\ Deal.platforms t1 = Deal.platforms t0
          /\ Deal.whatsapp_number t1 = Deal.whatsapp_number t0
          /\ Deal.is_active t1 = Deal.is_active t0).
Proof.
  unfold Deal.check_tracker.
  destruct (Deal.process_platforms _ _ _ _ _ _) as [acc|e] eqn:E;
    cbn [bind]; [|discriminate].
  destruct (Deal.commit_raises env (Deal.id t)); [discriminate|].
  intros H. injection H as <- <-. cbn [Deal.listings].
  split; [reflexivity|]. split.
  - intros tid' Hne. unfold Deal.get_tracker. cbn [Deal.trackers].
    now apply find_set_last_checked_other.
  - intros t0 Hget. exists (Deal.set_last_checked (Deal.id t) now t0).
    split.
    { unfold Deal.get_tracker. cbn [Deal.trackers].
      now apply find_set_last_checked. }
    pose proof (get_tracker_id s (Deal.id t) t0 Hget) as Hid.
    unfold Deal.set_last_checked. rewrite Hid, Z.eqb_refl. simpl.
    repeat split; congruence.
Qed.

Lemma check_tracker_frame_witness :
  exists s' new,
    Deal.check_tracker
      (Scenario.olx_env [Scenario.item "https://www.olx.in/item/1" "5000"]
         Scenario.never)
      10 (Scenario.tracker 1 None None) Scenario.two_trackers = Ok (s', new)
    /\ Deal.listings s' = Deal.listings Scenario.two_trackers ++ new
    /\ Deal.get_tracker s' 2 = Deal.get_tracker Scenario.two_trackers 2.
Proof.
  eexists. eexists.
  assert (H : Deal.check_tracker
                (Scenario.olx_env
                   [Scenario.item "https://www.olx.in/item/1" "5000"]
                   Scenario.never)
                10 (Scenario.tracker 1 None None) Scenario.two_trackers
              = Ok (Deal.run
                      [Deal.OpCheck
                         (Scenario.olx_env
                            [Scenario.item "https://www.olx.in/item/1"
                               "5000"] Scenario.never) 10 1]
                      Scenario.two_trackers,
                    [Deal.new_listing 1 "olx" "https://www.olx.in/item/1"
                       (Scenario.item "https://www.olx.in/item/1" "5000")]))
    by (vm_compute; reflexivity).
  split; [exact H|].
  destruct (check_tracker_frame _ _ _ _ _ _ H) as [Happ [Hother _]].
  split; [exact Happ|].
  apply Hother. discriminate.
Defined.

(** ** The bounds of the price filter *)

(** X6: when a bound is set and the price text is read as the number [v],
    the candidate passes the filter exactly when [v] lies within the bounds
    that are set, the bounds themselves included. *)
Theorem price_filter_within (mn mx : option Z) (price_text : string)
    (v : Z) :
  truthy_int mn || truthy_int mx = true ->
  Deal.price_value price_text = Ok (Some v) ->
  (Deal.price_filter mn mx price_text = Ok Admit
   <-> DealRows.within mn mx v)
  /\ (Deal.price_filter mn mx price_text = Ok Skip
      <-> ~ DealRows.within mn mx v).
Proof.
  intros Hset Hval. unfold Deal.price_filter. rewrite Hset, Hval.
  cbn [bind]. unfold DealRows.within, below_bound, above_bound.
  destruct mn as [a|], mx as [b|]; simpl in *;
    repeat match goal with
    | |- context [?x =? 0] => destruct (Z.eqb_spec x 0)
    | |- context [?x <? ?y] => destruct (Z.ltb_spec x y)
    | |- context [?x >? ?y] =>
        rewrite (Z.gtb_ltb x y); destruct (Z.ltb_spec y x)
    end; simpl; try discriminate;
    (split; split;
     [ intros _; split; intros c Hc Hnz; inversion Hc; subst; lia
     | intros _; reflexivity
     | intros Hc; discriminate Hc
     | intros Hw; exfalso; apply Hw; split; intros c Hc Hnz;
       inversion Hc; subst; lia ]) ||
    (split; split;
     [ intros Hc; discriminate Hc
     | intros [H1 H2]; exfalso;
       try (specialize (H1 _ eq_refl); lia);
       try (specialize (H2 _ eq_refl); lia)
     | intros _ [H1 H2];
       try (specialize (H1 _ eq_refl); lia);
       try (specialize (H2 _ eq_refl); lia)
     | intros _; reflexivity ]).
Qed.

Lemma price_filter_within_witness :
  truthy_int (Some 300000) || truthy_int (Some 500000) = true
  /\ Deal.price_value Scenario.three_lakh = Ok (Some 300000)
  /\ (Deal.price_filter (Some 300000) (Some 500000) Scenario.three_lakh
      = Ok Admit
      <-> DealRows.within (Some 300000) (Some 500000) 300000).
Proof.
  assert (H1 : truthy_int (Some 300000) || truthy_int (Some 500000) = true)
    by reflexivity.
  assert (H2 : Deal.price_value Scenario.three_lakh = Ok (Some 300000))
    by (vm_compute; reflexivity).
  split; [exact H1|]. split; [exact H2|].
  exact (proj1 (price_filter_within (Some 300000) (Some 500000)
                  Scenario.three_lakh 300000 H1 H2)).
Defined.

(** ** The sweep *)

Lemma check_all_loop_rows (env : Deal.Env) (now : Z)
    (ts : list Deal.DealTracker) (s : Deal.Store) (total : Z) :
  exists added,
    Deal.listings (fst (Deal.check_all_loop env now ts s total))
    = Deal.listings s ++ added
    /\ Forall (fun l => Deal.is_new l = true
                        /\ exists t, In t ts /\ Deal.id t = Deal.tracker_id l)
         added
    /\ (forall n, snd (Deal.check_all_loop env now ts s total) = Ok n ->
                  n = total + Z.of_nat (List.length added)).
Proof.
  revert s total. induction ts as [|t ts IH]; intros s total; simpl.
  - exists []. rewrite app_nil_r. split; [reflexivity|].
    split; [constructor|]. intros n H. injection H as <-. simpl. lia.
  - destruct (Deal.check_tracker env now t s) as [[s1 new]|e] eqn:E.
    + destruct (IH s1 (total + Z.of_nat (List.length new)))
        as [added [Hrows [Hall Htotal]]].
      exists (new ++ added). split.
      { rewrite Hrows, (check_tracker_appends _ _ _ _ _ _ E).
        now rewrite app_assoc. }
      split.
      { apply Forall_app. split.
        - eapply Forall_impl; [|exact (check_tracker_fresh _ _ _ _ _ _ E)].
          intros l [Hid [Hnew _]]. split; [exact Hnew|].
          exists t. split; [now left | now symmetry].
        - eapply Forall_impl; [|exact Hall].
          intros l [Hnew [t' [Hin Hid]]]. split; [exact Hnew|].
          exists t'. split; [now right | exact Hid]. }
      intros n Hn. rewrite (Htotal n Hn), length_app. lia.
    + exists []. simpl. rewrite app_nil_r. split; [reflexivity|].
      split; [constructor|]. intros n H. discriminate H.
Qed.

(** X7: whether the sweep of [check_all] ends or is cut short by an
    exception, it keeps the stored listings and appends only listings that
    are flagged new and belong to an active tracker; when it ends, the total
    it reports is the number of listings it appended. *)
Theorem check_all_rows (env : Deal.Env) (now : Z) (s : Deal.Store) :
  exists added,
    Deal.listings (fst (Deal.check_all env now s))
    = Deal.listings s ++ added
    /\ Forall (fun l => Deal.is_new l = true
                        /\ DealRows.owned_by_active s l) added
    /\ (forall total, snd (Deal.check_all env now s) = Ok total ->
                      total = Z.of_nat (List.length added)).
Proof.
  unfold Deal.check_all.
  destruct (check_all_loop_rows env now
              (filter Deal.is_active (Deal.trackers s)) s 0)
    as [added [Hrows [Hall Htotal]]].
  exists added. split; [exact Hrows|]. split.
  - eapply Forall_impl; [|exact Hall].
    intros l [Hnew [t [Hin Hid]]]. split; [exact Hnew|].
    apply filter_In in Hin. exists t. tauto.
  - intros total H. rewrite (Htotal total H). lia.
Qed.

(** ** The view path *)






(** ** The SerpAPI adapter *)

Lemma unique_by_url_fresh (seen : list string) (items : list Deal.RawItem) :
  NoDup (map Deal.r_url (Deal.unique_by_url seen items))
  /\ forall u, In u (map Deal.r_url (Deal.unique_by_url seen items)) ->
               ~ In u seen.
Proof.
  revert seen. induction items as [|item items IH]; intros seen; simpl.
  - split; [constructor | intros u []].
  - destruct (existsb (String.eqb (Deal.r_url item)) seen) eqn:E.
    + apply IH.
    + destruct (IH (Deal.r_url item :: seen)) as [Hnd Hfresh].
      simpl. split.
      * constructor; [|exact Hnd].
        intros Hin. apply (Hfresh _ Hin). now left.
      * intros u [<-|Hin].
        -- intros Hseen.
           assert (Hex : existsb (String.eqb (Deal.r_url item)) seen = true).
           { apply existsb_exists. exists (Deal.r_url item).
             split; [exact Hseen | apply String.eqb_refl]. }
           congruence.
        -- intros Hseen. apply (Hfresh _ Hin). now right.
Qed.

Lemma unique_by_url_keeps (seen : list string) (items : list Deal.RawItem)
    (u : string) :
  In u (map Deal.r_url items) -> ~ In u seen ->
  In u (map Deal.r_url (Deal.unique_by_url seen items)).
Proof.
  revert seen. induction items as [|item items IH]; intros seen; simpl.
  - intros [].
  - intros Hin Hseen.
    destruct (existsb (String.eqb (Deal.r_url item)) seen) eqn:E.
    + destruct Hin as [<-|Hin]; [|now apply IH].
      apply existsb_exists in E. destruct E as [x [Hx Heq]].
      apply String.eqb_eq in Heq. subst x. contradiction.
    + simpl. destruct (string_dec (Deal.r_url item) u) as [Heq|Hne];
        [now left|].
      right. destruct Hin as [Heq|Hin]; [contradiction|].
      apply IH; [exact Hin|]. intros [Heq|Hs]; contradiction.
Qed.

(** X9: [scrape_serpapi] makes no request and returns nothing when the key
    is not configured; otherwise it returns items whose URLs are pairwise
    distinct, taken from what its two searches return, and it loses no URL
    of them. *)
Theorem scrape_serpapi_unique (env : Deal.Env)
    (query city category : string) :
  let fetched :=
    flat_map (fun sq => Deal.guarded (Deal.fetch env (Deal.ReqSerpapi sq)))
      (Deal.site_queries query city) in
  (Deal.serpapi_key env = EmptyString ->
   Deal.scrape_serpapi env query city category = [])
  /\ NoDup (map Deal.r_url (Deal.scrape_serpapi env query city category))
  /\ incl (Deal.scrape_serpapi env query city category) fetched
  /\ (Deal.serpapi_key env <> EmptyString ->
      forall u, In u (map Deal.r_url fetched) ->
                In u (map Deal.r_url
                        (Deal.scrape_serpapi env query city category))).
Proof.
  cbv zeta. unfold Deal.scrape_serpapi.
  destruct (Deal.serpapi_key env) as [|c k] eqn:Hkey; simpl PyStr.truthy;
    cbn [negb].
  - repeat split; try constructor.
    + intros x [].
    + intros H. now contradiction H.
  - split; [discriminate|].
    split; [apply unique_by_url_fresh|].
    split; [apply unique_by_url_incl|].
    intros _ u Hin. apply unique_by_url_keeps; [exact Hin | intros []].
Qed.

(** ** URLs that fit the column, at the level of the routes *)

Lemma distinct_keys_per_tracker (rows : list Deal.DealListing) (tid : Z) :
  Deal.distinct_urls rows ->
  NoDup (map Deal.url
           (filter (fun l => Deal.tracker_id l =? tid) rows)).
Proof.
  unfold Deal.distinct_urls.
  induction rows as [|l rows IH]; simpl; intros Hnd; [constructor|].
  apply NoDup_cons_iff in Hnd. destruct Hnd as [Hfresh Hnd].
  destruct (Deal.tracker_id l =? tid) eqn:E; [|now apply IH].
  simpl. constructor; [|now apply IH].
  intros Hin. apply Hfresh. apply in_map_iff in Hin.
  destruct Hin as [l' [Hurl Hin]]. apply filter_In in Hin.
  destruct Hin as [Hin Htid]. apply in_map_iff. exists l'.
  split; [|exact Hin]. unfold Deal.key.
  apply Z.eqb_eq in E. apply Z.eqb_eq in Htid. congruence.
Qed.

(** X10: starting from listings whose URLs are pairwise distinct within
    each tracker, and as long as the adapters return URLs of at most 1000
    characters, the URLs of the listings of every tracker are pairwise
    distinct after every sequence of checks, sweeps and views. *)
Theorem tracker_urls_stay_distinct (ops : list Deal.Op) (s : Deal.Store)
    (tid : Z) :
  Forall Deal.op_short ops ->
  Deal.distinct_urls (Deal.listings s) ->
  NoDup (Scenario.urls_of tid (Deal.run ops s)).
Proof.
  intros Hshort Hnd. unfold Scenario.urls_of.
  apply distinct_keys_per_tracker.
  revert s Hnd. unfold Deal.run.
  induction Hshort as [|o ops Ho Hops IH]; intros s Hnd; simpl.
  - exact Hnd.
  - apply IH. now apply step_distinct.
Qed.

Lemma olx_env_short (items : list Deal.RawItem) (fails : Z -> bool) :
  Forall Deal.short_url items ->
  Deal.short_urls (Scenario.olx_env items fails).
Proof.
  intros Hitems req its. destruct req; simpl; intros H;
    try discriminate H.
  injection H as <-. exact Hitems.
Qed.

Lemma short_item (u p : string) :
  (String.length (PyStr.strip u) <=? 1000)%nat = true ->
  Deal.short_url (Scenario.item u p).
Proof. intros H. unfold Deal.short_url. simpl. now apply Nat.leb_le. Qed.

Lemma some_ops_short : Forall Deal.op_short Scenario.some_ops.
Proof.
  unfold Scenario.some_ops.
  repeat constructor; simpl; apply olx_env_short;
    repeat constructor; apply short_item; reflexivity.
Qed.

Lemma tracker_urls_stay_distinct_witness :
  Forall Deal.op_short Scenario.some_ops
  /\ Deal.distinct_urls (Deal.listings Scenario.viewed_store)
  /\ NoDup (Scenario.urls_of 1
              (Deal.run Scenario.some_ops Scenario.viewed_store)).
Proof.
  assert (H2 : Deal.distinct_urls (Deal.listings Scenario.viewed_store)).
  { unfold Deal.distinct_urls. simpl.
    constructor; [intros [] | constructor]. }
  split; [exact some_ops_short|]. split; [exact H2|].
  exact (tracker_urls_stay_distinct Scenario.some_ops Scenario.viewed_store
           1 some_ops_short H2).
Defined.

Lemma process_items_same_fields (t t' : Deal.DealTracker)
    (committed : list Deal.DealListing) (platform : string)
    (acc : list Deal.DealListing) (raw : list Deal.RawItem) :
  Deal.id t' = Deal.id t -> Deal.min_price t' = Deal.min_price t ->
  Deal.max_price t' = Deal.max_price t ->
  Deal.process_items t' committed platform acc raw
  = Deal.process_items t committed platform acc raw.
Proof.
  intros Hid Hmn Hmx. revert acc.
  induction raw as [|item raw IH]; intros acc; simpl; [reflexivity|].
  rewrite Hid, Hmn, Hmx.
  destruct (Deal.process_item _ _ _ _ _ _ _); cbn [bind];
    [apply IH | reflexivity].
Qed.

Lemma check_tracker_after_stamp (env : Deal.Env) (now now' : Z)
    (t : Deal.DealTracker) (s : Deal.Store) :
  Deal.check_tracker env now'
    (Deal.set_last_checked (Deal.id t) now t) s
  = Deal.check_tracker env now' t s.
Proof.
  assert (Hstamp :
    Deal.set_last_checked (Deal.id t) now t
    = {| Deal.id := Deal.id t; Deal.search_query := Deal.search_query t;
         Deal.category := Deal.category t; Deal.city := Deal.city t;
         Deal.min_price := Deal.min_price t;
         Deal.max_price := Deal.max_price t;
         Deal.platforms := Deal.platforms t;
         Deal.whatsapp_number := Deal.whatsapp_number t;
         Deal.is_active := Deal.is_active t;
         Deal.last_checked := Some now |}).
  { unfold Deal.set_last_checked. now rewrite Z.eqb_refl. }
  rewrite Hstamp. set (t' := {| Deal.id := Deal.id t |}).
  unfold Deal.check_tracker. cbv zeta.
  change (Deal.tracker_platforms t') with (Deal.tracker_platforms t).
  change (Deal.tracker_city t') with (Deal.tracker_city t).
  change (Deal.id t') with (Deal.id t).
  replace (Deal.process_platforms env t' (Deal.listings s)
             (Deal.tracker_city t) [] (Deal.tracker_platforms t))
    with (Deal.process_platforms env t (Deal.listings s)
            (Deal.tracker_city t) [] (Deal.tracker_platforms t));
    [reflexivity|].
  generalize (@nil Deal.DealListing) as acc.
  induction (Deal.tracker_platforms t) as [|platform ps IH]; intros acc;
    simpl; [reflexivity|].
  change (Deal.scrape env t' (Deal.tracker_city t) platform)
    with (Deal.scrape env t (Deal.tracker_city t) platform).
  destruct (Deal.scrape env t (Deal.tracker_city t) platform) as [raw|];
    [|apply IH].
  rewrite (process_items_same_fields t t') by reflexivity.
  destruct (Deal.process_items _ _ _ _ _); cbn [bind];
    [apply IH | reflexivity].
Qed.

(** X11: when a request to check a tracker succeeds and the adapters return
    URLs of at most 1000 characters, a second request that receives the same
    results succeeds too and stores no listing. *)
Theorem recheck_stores_nothing (env : Deal.Env) (now now' tid : Z)
    (t : Deal.DealTracker) (s s1 : Deal.Store) :
  Deal.short_urls env ->
  Deal.get_tracker s tid = Some t ->
  Deal.check_single env now tid s = Ok s1 ->
  exists s2,
    Deal.check_single env now' tid s1 = Ok s2
    /\ Deal.listings s2 = Deal.listings s1.
Proof.
  intros Hshort Hget. unfold Deal.check_single at 1. rewrite Hget.
  destruct (Deal.check_tracker env now t s) as [[s1' new]|e] eqn:E;
    cbn [bind fst]; [|discriminate].
  intros H. injection H as <-.
  pose proof (get_tracker_id s tid t Hget) as Hid.
  destruct (rerun_commits_nothing env now now' t s s1' new Hshort E)
    as [s2 [Hcheck Hrows]].
  exists s2. split; [|exact Hrows].
  assert (Hget1 : Deal.get_tracker s1' tid
                  = Some (Deal.set_last_checked (Deal.id t) now t)).
  { unfold Deal.check_tracker in E.
    destruct (Deal.process_platforms _ _ _ _ _ _); cbn [bind] in E;
      [|discriminate].
    destruct (Deal.commit_raises env (Deal.id t)); [discriminate|].
    injection E as <- _. unfold Deal.get_tracker in *.
    cbn [Deal.trackers]. rewrite Hid.
    now apply find_set_last_checked. }
  unfold Deal.check_single.
  rewrite Hget1, check_tracker_after_stamp, Hcheck. reflexivity.
Qed.

Lemma recheck_stores_nothing_witness :
  exists s2,
    Deal.check_single
      (Scenario.olx_env [Scenario.item "https://www.olx.in/item/1" "5000"]
         Scenario.never) 20 1
      (Deal.run
         [Deal.OpCheck
            (Scenario.olx_env
               [Scenario.item "https://www.olx.in/item/1" "5000"]
               Scenario.never) 10 1] Scenario.one_tracker)
    = Ok s2
    /\ Deal.listings s2
       = Deal.listings
           (Deal.run
              [Deal.OpCheck
                 (Scenario.olx_env
                    [Scenario.item "https://www.olx.in/item/1" "5000"]
                    Scenario.never) 10 1] Scenario.one_tracker).
Proof.
  apply (recheck_stores_nothing
           (Scenario.olx_env
              [Scenario.item "https://www.olx.in/item/1" "5000"]
              Scenario.never)
           10 20 1 (Scenario.tracker 1 None None) Scenario.one_tracker).
  - apply olx_env_short.
    constructor; [apply short_item; reflexivity | constructor].
  - reflexivity.
  - vm_compute. reflexivity.
Defined.

(** ** Prices that are whole numbers, and prices that are not numbers *)

(** X12: when the digits and dots of a price text are digits only, spelling
    the number [n] with [n * 100000] below 2^53, the price filter compares
    exactly [n], or exactly [n * 100000] when the text mentions lakh: the
    passage through a float loses nothing. *)
Theorem whole_price_compared_exactly (price_text : string) :
  let numeric := PyStr.keep_chars Deal.numeric_class price_text in
  PyStr.truthy numeric = true ->
  PyStr.forallb_str PyStr.is_digit numeric = true ->
  PyStr.digits_value numeric * 100000 < 2 ^ 53 ->
  Deal.price_value price_text
  = Ok (Some (if Deal.mentions_lakh price_text
              then PyStr.digits_value numeric * 100000
              else PyStr.digits_value numeric)).
Proof.
  cbv zeta. intros Hne Hdigits Hbound. unfold Deal.price_value.
  now apply scaled_value_whole.
Qed.

Lemma whole_price_compared_exactly_witness :
  PyStr.truthy (PyStr.keep_chars Deal.numeric_class "Rs 12,50,000") = true
  /\ PyStr.forallb_str PyStr.is_digit
       (PyStr.keep_chars Deal.numeric_class "Rs 12,50,000") = true
  /\ PyStr.digits_value (PyStr.keep_chars Deal.numeric_class "Rs 12,50,000")
     * 100000 < 2 ^ 53
  /\ Deal.price_value "Rs 12,50,000"
     = Ok (Some (if Deal.mentions_lakh "Rs 12,50,000"
                 then PyStr.digits_value
                        (PyStr.keep_chars Deal.numeric_class "Rs 12,50,000")
                      * 100000
                 else PyStr.digits_value
                        (PyStr.keep_chars Deal.numeric_class
                           "Rs 12,50,000"))).
Proof.
  assert (H1 : PyStr.truthy
                 (PyStr.keep_chars Deal.numeric_class "Rs 12,50,000") = true)
    by reflexivity.
  assert (H2 : PyStr.forallb_str PyStr.is_digit
                 (PyStr.keep_chars Deal.numeric_class "Rs 12,50,000") = true)
    by reflexivity.
  assert (H3 : PyStr.digits_value
                 (PyStr.keep_chars Deal.numeric_class "Rs 12,50,000")
               * 100000 < 2 ^ 53) by (vm_compute; reflexivity).
  split; [exact H1|]. split; [exact H2|]. split; [exact H3|].
  exact (whole_price_compared_exactly "Rs 12,50,000" H1 H2 H3).
Defined.

(** X13: a candidate with a URL that is not stored yet and a price text
    without any digit and without any dot is stored whatever the price
    bounds of the tracker are. *)
Theorem unpriced_item_is_stored (tid : Z) (mn mx : option Z)
    (committed : list Deal.DealListing) (platform : string)
    (new_listings : list Deal.DealListing) (item : Deal.RawItem) :
  PyStr.truthy (PyStr.strip (Deal.r_url item)) = true ->
  Deal.exists_listing (committed ++ new_listings) tid
    (PyStr.strip (Deal.r_url item)) = false ->
  no_numeric (Deal.r_price item) = true ->
  Deal.process_item tid mn mx committed platform new_listings item
  = Ok (new_listings
        ++ [Deal.new_listing tid platform (PyStr.strip (Deal.r_url item))
              item]).
Proof.
  intros Hurl Hfresh Hprice. unfold Deal.process_item.
  rewrite Hurl, Hfresh. cbn [negb].
  now rewrite (price_filter_no_numeric mn mx _ Hprice).
Qed.

Lemma unpriced_item_is_stored_witness :
  Deal.process_item 1 (Some 1000) (Some 5000) [] "olx" []
    (Scenario.item " https://www.olx.in/item/9 " "Price on request")
  = Ok ([] ++ [Deal.new_listing 1 "olx"
                 (PyStr.strip
                    (Deal.r_url
                       (Scenario.item " https://www.olx.in/item/9 "
                          "Price on request")))
                 (Scenario.item " https://www.olx.in/item/9 "
                    "Price on request")]).
Proof.
  apply (unpriced_item_is_stored 1 (Some 1000) (Some 5000) [] "olx" []
           (Scenario.item " https://www.olx.in/item/9 " "Price on request")).
  - reflexivity.
  - reflexivity.
  - reflexivity.
Defined.

(** X14: the price filter of the hotel tracker keeps the digits of the
    price text alone, so a text without any digit, dots included, passes
    it whatever the bounds are. *)
Theorem hotel_price_without_digit (mn mx : option Z) (price_text : string) :
  PyStr.forallb_str (fun c => negb (PyStr.is_digit c)) price_text = true ->
  Hotel.price_filter mn mx price_text = Admit
  /\ forall tid committed platform new_listings item,
       Hotel.r_price item = price_text ->
       PyStr.truthy (PyStr.strip (Hotel.r_url item)) = true ->
       Hotel.exists_listing (committed ++ new_listings) tid
         (PyStr.strip (Hotel.r_url item)) = false ->
       Hotel.process_item tid mn mx committed platform new_listings item
       = new_listings
         ++ [Hotel.new_listing tid platform (PyStr.strip (Hotel.r_url item))
               item].
Proof.
  intros H.
  assert (Hadmit : Hotel.price_filter mn mx price_text = Admit).
  { unfold Hotel.price_filter.
    rewrite (keep_chars_none PyStr.is_digit _ H). simpl.
    now destruct (truthy_int mn || truthy_int mx). }
  split; [exact Hadmit|].
  intros tid committed platform new_listings item Hp Hurl Hfresh.
  unfold Hotel.process_item. rewrite Hurl, Hfresh, Hp, Hadmit. reflexivity.
Qed.

Lemma hotel_price_without_digit_witness :
  PyStr.forallb_str (fun c => negb (PyStr.is_digit c)) "Rs. " = true
  /\ Hotel.price_filter (Some 1000) (Some 5000) "Rs. " = Admit.
Proof.
  assert (H : PyStr.forallb_str (fun c => negb (PyStr.is_digit c)) "Rs. "
              = true) by reflexivity.
  split; [exact H|].
  exact (proj1 (hotel_price_without_digit (Some 1000) (Some 5000) "Rs. " H)).
Defined.

(** ** The alert *)

Lemma lstrip_zeros_no_zero (s : string) :
  String.prefix "0" (Alert.lstrip_zeros s) = false.
Proof.
  induction s as [|c s IH]; cbn [Alert.lstrip_zeros]; [reflexivity|].
  destruct (Ascii.eqb_spec c "0") as [->|Hne]; [exact IH|].
  cbn [String.prefix]. destruct (Ascii.ascii_dec "0" c) as [Heq|_].
  - now contradiction Hne.
  - reflexivity.
Qed.

Lemma entries_length (i : nat) (ls : list Deal.DealListing) :
  (List.length ls * 2 <= List.length (Alert.entries i ls)
   <= List.length ls * 4)%nat.
Proof.
  revert i. induction ls as [|l ls IH]; intros i; simpl; [lia|].
  specialize (IH (S i)). unfold Alert.entry_lines.
  rewrite !length_app. simpl.
  destruct (PyStr.truthy (Deal.location l));
    destruct (PyStr.truthy (Deal.url l)); simpl; lia.
Qed.

Lemma lstrip_zeros_split (s : string) :
  exists k, s = (PyStr.repeat_str "0" k ++ Alert.lstrip_zeros s)%string.
Proof.
  induction s as [|c s [k IH]]; [now exists 0%nat|].
  cbn [Alert.lstrip_zeros].
  destruct (Ascii.eqb_spec c "0") as [->|Hne].
  - exists (S k). cbn [PyStr.repeat_str String.append]. now f_equal.
  - now exists 0%nat.
Qed.

(** X15: [send_deal_alert] hands a message to a transport exactly when the
    tracker has a WhatsApp number and there is a new listing; the transport
    is Twilio exactly when the mode is "twilio"; the message is the lines
    joined by line breaks; the number always begins with "+": a stripped
    number that begins with "+" is sent as it is, and any other one, once
    cut into its leading zeros and the rest, is sent as "+91" followed by
    that rest. *)
Theorem alert_dispatch (wa_mode : string) (t : Deal.DealTracker)
    (new_listings : list Deal.DealListing) :
  (Alert.send_deal_alert wa_mode t new_listings = None
   <-> Deal.whatsapp_number t = EmptyString \/ new_listings = [])
  /\ forall d, Alert.send_deal_alert wa_mode t new_listings = Some d ->
       String.prefix "+" (Alert.phone d) = true
       /\ (Alert.via d = Alert.Twilio <-> wa_mode = "twilio")
       /\ (String.prefix "+" (PyStr.strip (Deal.whatsapp_number t)) = false ->
           exists k rest,
             PyStr.strip (Deal.whatsapp_number t)
             = (PyStr.repeat_str "0" k ++ rest)%string
             /\ String.prefix "0" rest = false
             /\ Alert.phone d = ("+91" ++ rest)%string)
       /\ (String.prefix "+" (PyStr.strip (Deal.whatsapp_number t)) = true ->
           Alert.phone d = PyStr.strip (Deal.whatsapp_number t))
       /\ Alert.message d
          = String.concat Alert.newline (Alert.alert_lines t new_listings).
Proof.
  unfold Alert.send_deal_alert. split.
  - destruct (Deal.whatsapp_number t) as [|c w]; simpl.
    + split; [now left | reflexivity].
    + destruct new_listings as [|l ls]; simpl.
      * split; [now right | reflexivity].
      * split; [discriminate | intros [H|H]; discriminate H].
  - intros d.
    destruct (negb (PyStr.truthy (Deal.whatsapp_number t))
              || negb (Location.nonempty new_listings)); [discriminate|].
    intros H. injection H as <-. cbn [Alert.phone Alert.via Alert.message].
    unfold Alert.alert_phone.
    destruct (String.prefix "+" (PyStr.strip (Deal.whatsapp_number t)))
      eqn:Hplus; cbn [negb].
    + split; [exact Hplus|]. split.
      * destruct (String.eqb_spec wa_mode "twilio"); split;
          congruence.
      * split; [discriminate|]. split; reflexivity.
    + split; [reflexivity|]. split.
      * destruct (String.eqb_spec wa_mode "twilio"); split;
          congruence.
      * split; [|split; [discriminate | reflexivity]]. intros _.
        destruct (lstrip_zeros_split (PyStr.strip (Deal.whatsapp_number t)))
          as [k Hk].
        exists k, (Alert.lstrip_zeros (PyStr.strip (Deal.whatsapp_number t))).
        split; [exact Hk|].
        split; [apply lstrip_zeros_no_zero | reflexivity].
Qed.

(** X16: the alert previews ten listings at most: whatever the number of
    new listings, the list [lines] that is joined into the message has at
    most 43 elements (two for the heading, four at most for each of ten
    listings, one for the rest), of which the last announces the listings
    left out exactly when there are more than ten; the listings after the
    tenth count in the numbers shown and in nothing else. *)
Theorem alert_lines_capped (t : Deal.DealTracker)
    (new_listings : list Deal.DealListing) :
  (List.length (Alert.alert_lines t new_listings) <= 43)%nat
  /\ ((10 < List.length new_listings)%nat ->
      last (Alert.alert_lines t new_listings) EmptyString
      = ("... and " ++ Alert.str_of_nat (List.length new_listings - 10)
         ++ " more.")%string)
  /\ ((List.length new_listings <= 10)%nat ->
      Alert.alert_lines t new_listings
      = [ (Alert.bell ++ " Deal Alert: " ++ Deal.search_query t
           ++ Alert.newline)%string;
          (Alert.str_of_nat (List.length new_listings)
           ++ " new listing(s) found in " ++ Alert.city_text t ++ ":"
           ++ Alert.newline)%string ]
        ++ Alert.entries 1 new_listings)
  /\ (forall others,
        List.length others = List.length new_listings ->
        firstn 10 others = firstn 10 new_listings ->
        Alert.alert_lines t others = Alert.alert_lines t new_listings)
  /\ (2 + 2 * Nat.min 10 (List.length new_listings)
      <= List.length (Alert.alert_lines t new_listings))%nat.
Proof.
  unfold Alert.alert_lines.
  pose proof (entries_length 1 (firstn 10 new_listings)) as [Hmin Hmax].
  assert (Hten : List.length (firstn 10 new_listings)
                 = Nat.min 10 (List.length new_listings))
    by apply length_firstn.
  split; [|split; [|split; [|split]]].
  - rewrite !length_app. cbn [List.length].
    destruct (10 <? List.length new_listings)%nat; cbn [List.length]; lia.
  - intros Hmany. apply Nat.ltb_lt in Hmany. rewrite Hmany.
    rewrite !app_assoc. apply last_last.
  - intros Hfew.
    replace (10 <? List.length new_listings)%nat with false
      by (symmetry; apply Nat.ltb_ge; lia).
    rewrite firstn_all2 by lia. now rewrite app_nil_r.
  - intros others Hlen Hfirst. now rewrite Hlen, Hfirst.
  - rewrite !length_app. cbn [List.length]. lia.
Qed.

(** ** Leads: the keyword filter, the score, the order *)

Lemma sort_leads_length (l : list YouTube.Lead) :
  List.length (YouTube.sort_leads l) = List.length l.
Proof. apply Permutation_length, sort_leads_perm. Qed.

Lemma lead_of_fields (EMAIL_findall PHONE_findall : string -> list string)
    (published_at : string -> option Z) (now : Z) (c : YouTube.Comment) :
  let lead :=
    YouTube.lead_of EMAIL_findall PHONE_findall published_at now c in
  YouTube.text lead = YouTube.c_text c
  /\ YouTube.emails lead
     = YouTube.lead_emails EMAIL_findall (YouTube.c_text c)
  /\ YouTube.phones lead
     = YouTube.lead_phones PHONE_findall (YouTube.c_text c).
Proof.
  cbv zeta. unfold YouTube.lead_of.
  destruct (YouTube.keyword_loop _ _) as [sc matched]. now repeat split.
Qed.

(** X17: with a keyword filter, every lead returned holds the keyword (lower
    case, stripped) in its lower-cased text, and there is one lead for each
    comment that does; a filter that is empty or blank lets every comment
    through, so that there are as many leads as comments, those of score 0
    included. *)
Theorem keyword_filter_leads
    (EMAIL_findall PHONE_findall : string -> list string)
    (published_at : string -> option Z) (now : Z)
    (comments : list YouTube.Comment) (keyword_filter : string) :
  let kw := PyStr.strip (PyStr.lower keyword_filter) in
  let leads :=
    YouTube.extract_leads_from_comments EMAIL_findall PHONE_findall
      published_at now comments keyword_filter in
  (forall lead, In lead leads ->
     PyStr.contains kw (PyStr.lower (YouTube.text lead)) = true)
  /\ List.length leads
     = List.length
         (filter (fun c => PyStr.contains kw (PyStr.lower (YouTube.c_text c)))
            comments)
  /\ (List.length leads <= List.length comments)%nat
  /\ (kw = EmptyString -> List.length leads = List.length comments).
Proof.
  cbv zeta. unfold YouTube.extract_leads_from_comments.
  set (kw := PyStr.strip (PyStr.lower keyword_filter)).
  assert (Hpass : forall c,
            YouTube.passes kw c
            = PyStr.contains kw (PyStr.lower (YouTube.c_text c))).
  { intros c. unfold YouTube.passes.
    destruct kw as [|a kw']; [now rewrite contains_empty|].
    simpl PyStr.truthy. cbn [andb]. now rewrite negb_involutive. }
  rewrite (filter_ext _ _ Hpass).
  repeat split.
  - intros lead Hin.
    apply (Permutation_in _ (sort_leads_perm _)) in Hin.
    apply in_map_iff in Hin. destruct Hin as [c [<- Hc]].
    apply filter_In in Hc.
    rewrite (proj1 (lead_of_fields _ _ _ _ c)). exact (proj2 Hc).
  - now rewrite sort_leads_length, length_map.
  - rewrite sort_leads_length, length_map. apply filter_length_le.
  - intros Hkw. rewrite sort_leads_length, length_map. rewrite Hkw.
    rewrite (filter_ext _ (fun _ => true)).
    + clear. induction comments as [|c cs IH]; simpl; congruence.
    + intros c. apply contains_empty.
Qed.

Lemma sum_entry_points_bounds (text_lower : string)
    (kws : list (string * Z)) :
  Forall (fun entry => 0 <= snd entry) kws ->
  0 <= YouTube.sum_Z (map (YouTube.entry_points text_lower) kws)
    <= YouTube.sum_Z (map snd kws).
Proof.
  induction 1 as [|entry kws Hentry Hkws IH]; simpl; [lia|].
  unfold YouTube.entry_points at 1 3.
  destruct (1 <=? PyStr.occurrences (fst entry) text_lower)%nat; lia.
Qed.

Lemma business_weights_nonneg :
  Forall (fun entry : string * Z => 0 <= snd entry)
    YouTube.BUSINESS_KEYWORDS.
Proof.
  unfold YouTube.BUSINESS_KEYWORDS.
  repeat (constructor; [simpl; lia|]). constructor.
Qed.

(** X18: the score of a lead lies between 0 and 700; it is at least 50 when
    an e-mail address was found and at least 40 when a phone number was, so
    that every lead with a contact counts among the leads of high intent,
    whose score is 30 or more. *)
Theorem score_bounds (EMAIL_findall PHONE_findall : string -> list string)
    (published_at : string -> option Z) (now : Z) (c : YouTube.Comment) :
  let lead :=
    YouTube.lead_of EMAIL_findall PHONE_findall published_at now c in
  0 <= YouTube.score lead <= 700
  /\ (YouTube.nonempty (YouTube.emails lead) = true ->
      50 <= YouTube.score lead)
  /\ (YouTube.nonempty (YouTube.phones lead) = true ->
      40 <= YouTube.score lead)
  /\ (YouTube.nonempty (YouTube.emails lead)
      || YouTube.nonempty (YouTube.phones lead) = true ->
      (30 <=? YouTube.score lead) = true).
Proof.
  cbv zeta. rewrite lead_of_score.
  pose proof (sum_entry_points_bounds (PyStr.lower (YouTube.c_text c))
                _ business_weights_nonneg) as Hsum.
  change (YouTube.sum_Z (map snd YouTube.BUSINESS_KEYWORDS)) with 590
    in Hsum.
  set (kw := YouTube.sum_Z _) in *.
  destruct (lead_of_fields EMAIL_findall PHONE_findall published_at now c)
    as [_ [-> ->]].
  destruct (YouTube.nonempty (YouTube.lead_emails _ _));
    destruct (YouTube.nonempty (YouTube.lead_phones _ _));
    destruct (5 <=? YouTube.c_likes c);
    destruct (YouTube.recent _ _ _);
    repeat split; intros; try discriminate; try apply Z.leb_le; lia.
Qed.

Lemma insert_lead_ties (v : Z) (x : YouTube.Lead) (l : list YouTube.Lead) :
  filter (fun y => YouTube.score y =? v) (YouTube.insert_lead x l)
  = filter (fun y => YouTube.score y =? v) (x :: l).
Proof.
  induction l as [|y l IH]; [reflexivity|].
  cbn [YouTube.insert_lead].
  destruct (YouTube.score x <? YouTube.score y) eqn:E; [|reflexivity].
  apply Z.ltb_lt in E. cbn [filter] in *. rewrite IH.
  destruct (Z.eqb_spec (YouTube.score y) v) as [Hy|Hy];
    destruct (Z.eqb_spec (YouTube.score x) v) as [Hx|Hx];
    try reflexivity.
  lia.
Qed.

(** X19: the sort of the leads is stable: the leads of one and the same
    score come out in the order of their comments. *)
Theorem ties_keep_comment_order
    (EMAIL_findall PHONE_findall : string -> list string)
    (published_at : string -> option Z) (now : Z)
    (comments : list YouTube.Comment) (keyword_filter : string) (v : Z) :
  filter (fun l => YouTube.score l =? v)
    (YouTube.extract_leads_from_comments EMAIL_findall PHONE_findall
       published_at now comments keyword_filter)
  = filter (fun l => YouTube.score l =? v)
      (map (YouTube.lead_of EMAIL_findall PHONE_findall published_at now)
         (filter (YouTube.passes (PyStr.strip (PyStr.lower keyword_filter)))
            comments)).
Proof.
  unfold YouTube.extract_leads_from_comments.
  generalize (map (YouTube.lead_of EMAIL_findall PHONE_findall published_at
                     now)
                (filter
                   (YouTube.passes
                      (PyStr.strip (PyStr.lower keyword_filter)))
                   comments)) as l.
  induction l as [|x l IH]; [reflexivity|].
  cbn [YouTube.sort_leads]. rewrite insert_lead_ties.
  cbn [filter]. now rewrite IH.
Qed.

Lemma sorted_high_intent_prefix (l : list YouTube.Lead) :
  StronglySorted YouTube.by_score_desc l ->
  Comments.high_intent l
  = firstn (List.length (Comments.high_intent l)) l.
Proof.
  unfold Comments.high_intent.
  induction 1 as [|x l Hsorted IH Hall]; [reflexivity|].
  cbn [filter]. destruct (30 <=? YouTube.score x) eqn:E.
  - cbn [List.length firstn]. now rewrite <- IH.
  - apply Z.leb_gt in E.
    replace (filter (fun l0 => 30 <=? YouTube.score l0) l) with
      (@nil YouTube.Lead); [reflexivity|].
    symmetry. clear IH Hsorted.
    induction Hall as [|y l Hy Hl IH]; [reflexivity|].
    cbn [filter]. unfold YouTube.by_score_desc in Hy.
    replace (30 <=? YouTube.score y) with false
      by (symmetry; apply Z.leb_gt; lia).
    exact IH.
Qed.

(** X20: in the list that [extract_leads_from_comments] returns, the leads
    of high intent (score 30 or more), which [scan] counts, are the leads
    at the head of the list, and every lead with an e-mail address or a
    phone number is one of them. *)
Theorem high_intent_leads_first
    (EMAIL_findall PHONE_findall : string -> list string)
    (published_at : string -> option Z) (now : Z)
    (comments : list YouTube.Comment) (keyword_filter : string) :
  let leads :=
    YouTube.extract_leads_from_comments EMAIL_findall PHONE_findall
      published_at now comments keyword_filter in
  Comments.high_intent leads
  = firstn (List.length (Comments.high_intent leads)) leads
  /\ incl (Comments.leads_with_contact leads) (Comments.high_intent leads)
  /\ (List.length (Comments.leads_with_contact leads)
      <= List.length (Comments.high_intent leads)
      <= List.length leads)%nat.
Proof.
  cbv zeta.
  set (leads := YouTube.extract_leads_from_comments _ _ _ _ _ _).
  assert (Hcontact : forall l, In l leads ->
            YouTube.nonempty (YouTube.emails l)
            || YouTube.nonempty (YouTube.phones l) = true ->
            (30 <=? YouTube.score l) = true).
  { intros l Hin Hc. unfold leads, YouTube.extract_leads_from_comments in Hin.
    apply (Permutation_in _ (sort_leads_perm _)) in Hin.
    apply in_map_iff in Hin. destruct Hin as [c [<- _]].
    revert Hc. rewrite lead_of_score.
    pose proof (sum_entry_points_bounds (PyStr.lower (YouTube.c_text c))
                  _ business_weights_nonneg) as [Hlo _].
    set (kw := YouTube.sum_Z _) in *.
    destruct (lead_of_fields EMAIL_findall PHONE_findall published_at now c)
      as [_ [-> ->]].
    destruct (YouTube.nonempty (YouTube.lead_emails _ _));
      destruct (YouTube.nonempty (YouTube.lead_phones _ _));
      destruct (5 <=? YouTube.c_likes c);
      destruct (YouTube.recent _ _ _);
      intros Hc; try discriminate Hc; apply Z.leb_le; lia. }
  split.
  { apply sorted_high_intent_prefix. apply sort_leads_sorted. }
  unfold Comments.leads_with_contact, Comments.high_intent.
  clearbody leads. split.
  - intros l Hin. apply filter_In in Hin. destruct Hin as [Hin Hc].
    apply filter_In. split; [exact Hin | now apply Hcontact].
  - split; [|apply filter_length_le].
    induction leads as [|l ls IH]; [simpl; lia|].
    cbn [filter].
    assert (IH' : (List.length
                     (filter (fun l0 => YouTube.nonempty (YouTube.emails l0)
                                        || YouTube.nonempty
                                             (YouTube.phones l0)) ls)
                   <= List.length
                        (filter (fun l0 => (30 <=? YouTube.score l0)%Z)
                           ls))%nat).
    { apply IH. intros l0 Hin Hc. apply Hcontact; [now right | exact Hc]. }
    destruct (YouTube.nonempty (YouTube.emails l)
              || YouTube.nonempty (YouTube.phones l)) eqn:Ec.
    + rewrite (Hcontact l (or_introl eq_refl) Ec). simpl. lia.
    + destruct (30 <=? YouTube.score l); simpl; lia.
Qed.

(** ** Fetching comments *)

Lemma take_items_spec (max_results : Z) (items : list YouTube.Comment)
    (comments : list YouTube.Comment) (fetched : Z) :
  fetched < max_results ->
  let r := Comments.take_items max_results items comments fetched in
  Z.of_nat (List.length (fst r)) - Z.of_nat (List.length comments)
  = snd r - fetched
  /\ fetched <= snd r <= max_results
  /\ (items <> [] -> fetched < snd r).
Proof.
  revert comments fetched.
  induction items as [|item items IH]; intros comments fetched Hlt; simpl.
  - repeat split; try lia. intros H. now contradiction H.
  - destruct (fetched + 1 >=? max_results) eqn:E; simpl.
    + rewrite length_app. simpl. repeat split; lia.
    + assert (Hlt' : fetched + 1 < max_results).
      { rewrite Z.geb_leb in E. apply Z.leb_gt in E. lia. }
      destruct (IH (comments ++ [item]) (fetched + 1) Hlt')
        as [Hlen [Hbound _]].
      rewrite length_app in Hlen. simpl in Hlen.
      repeat split; lia.
Qed.

Lemma fetch_loop_bounded (fuel : nat) (api : Comments.Api)
    (per_page max_results : Z) (page_token : option string)
    (comments : list YouTube.Comment) (fetched : Z)
    (l : list YouTube.Comment) :
  Z.of_nat (List.length comments) = fetched ->
  fetched <= Z.max 0 max_results ->
  Comments.fetch_loop fuel api per_page max_results page_token comments
    fetched = Comments.Returned l ->
  Z.of_nat (List.length l) <= Z.max 0 max_results.
Proof.
  revert page_token comments fetched.
  induction fuel as [|fuel IH];
    intros page_token comments fetched Hinv Hle;
    cbn [Comments.fetch_loop];
    destruct (fetched <? max_results) eqn:Hlt;
    try (intros H; injection H as <-; apply Z.ltb_ge in Hlt; lia);
    try discriminate.
  apply Z.ltb_lt in Hlt.
  destruct (api page_token per_page) as [|items next]; [discriminate|].
  pose proof (take_items_spec max_results items comments fetched Hlt)
    as Hspec. cbv zeta in Hspec.
  destruct (Comments.take_items max_results items comments fetched)
    as [comments' fetched']. cbn [fst snd] in Hspec.
  destruct Hspec as [Hlen [Hbound _]].
  assert (Hinv' : Z.of_nat (List.length comments') = fetched') by lia.
  destruct next as [token|].
  - destruct (PyStr.truthy token).
    + apply IH; [exact Hinv' | lia].
    + intros H. injection H as <-. lia.
  - intros H. injection H as <-. lia.
Qed.

Lemma fetch_loop_ends (fuel : nat) (api : Comments.Api)
    (per_page max_results : Z) (page_token : option string)
    (comments : list YouTube.Comment) (fetched : Z) :
  Comments.productive api ->
  (Z.to_nat (max_results - fetched) <= fuel)%nat ->
  Comments.fetch_loop fuel api per_page max_results page_token comments
    fetched <> Comments.OutOfFuel.
Proof.
  intros Hprod. revert page_token comments fetched.
  induction fuel as [|fuel IH]; intros page_token comments fetched Hfuel;
    cbn [Comments.fetch_loop];
    destruct (fetched <? max_results) eqn:Hlt; try discriminate.
  - apply Z.ltb_lt in Hlt. lia.
  - apply Z.ltb_lt in Hlt.
    destruct (api page_token per_page) as [|items next] eqn:Hapi;
      [discriminate|].
    pose proof (take_items_spec max_results items comments fetched Hlt)
      as Hspec. cbv zeta in Hspec.
    destruct (Comments.take_items max_results items comments fetched)
      as [comments' fetched']. cbn [fst snd] in Hspec.
    destruct Hspec as [_ [Hbound Hmore]].
    destruct next as [token|]; [|discriminate].
    destruct (PyStr.truthy token) eqn:Htoken; [|discriminate].
    apply IH.
    assert (Hne : items <> []).
    { intros ->. rewrite (Hprod _ _ _ Hapi) in Htoken. discriminate. }
    specialize (Hmore Hne). lia.
Qed.

Lemma fetch_reaches (api : Comments.Api) (max_results : Z)
    (page_token : option string) (comments : list YouTube.Comment)
    (fetched : Z) :
  Comments.reached api max_results page_token comments fetched ->
  exists n, forall k,
    Comments.fetch_video_comments (n + k) api max_results
    = Comments.fetch_loop k api (Z.min max_results 100) max_results
        page_token comments fetched.
Proof.
  induction 1 as [|page_token comments fetched items token comments'
                   fetched' _ [n IH] Hlt Hapi Htoken Htake].
  - exists 0%nat. reflexivity.
  - exists (S n). intros k.
    replace (S n + k)%nat with (n + S k)%nat by lia.
    rewrite IH. cbn [Comments.fetch_loop].
    replace (fetched <? max_results) with true
      by (symmetry; now apply Z.ltb_lt).
    now rewrite Hapi, Htake, Htoken.
Qed.

(** X21: [fetch_video_comments] never returns more than [max_results]
    comments, and returns none, without a request, when [max_results] is 0
    or less; a request that is answered with an error ends it in an
    exception, on the first page and on every later page the loop comes
    to, whatever was read before; and when the API never answers with an
    empty page that has a successor, the loop ends after [max_results]
    requests at most. *)
Theorem fetch_video_comments_bounded (fuel : nat) (api : Comments.Api)
    (max_results : Z) :
  (forall l, Comments.fetch_video_comments fuel api max_results
             = Comments.Returned l ->
             Z.of_nat (List.length l) <= Z.max 0 max_results)
  /\ (max_results <= 0 ->
      Comments.fetch_video_comments fuel api max_results
      = Comments.Returned [])
  /\ (0 < max_results ->
      api None (Z.min max_results 100) = Comments.ApiFailed ->
      Comments.fetch_video_comments (S fuel) api max_results
      = Comments.ApiError)
  /\ (Comments.productive api ->
      (Z.to_nat max_results <= fuel)%nat ->
      Comments.fetch_video_comments fuel api max_results
      <> Comments.OutOfFuel)
  /\ (forall page_token comments fetched,
        Comments.reached api max_results page_token comments fetched ->
        fetched < max_results ->
        api page_token (Z.min max_results 100) = Comments.ApiFailed ->
        exists n, forall k,
          (n <= k)%nat ->
          Comments.fetch_video_comments k api max_results
          = Comments.ApiError).
Proof.
  split; [|split; [|split; [|split]]].
  - intros l. unfold Comments.fetch_video_comments. cbv zeta.
    apply fetch_loop_bounded; [reflexivity | lia].
  - intros Hle. unfold Comments.fetch_video_comments. cbv zeta.
    destruct fuel; cbn [Comments.fetch_loop];
      replace (0 <? max_results) with false
        by (symmetry; apply Z.ltb_ge; lia); reflexivity.
  - intros Hpos Hfail. unfold Comments.fetch_video_comments. cbv zeta.
    cbn [Comments.fetch_loop].
    replace (0 <? max_results) with true
      by (symmetry; apply Z.ltb_lt; lia).
    now rewrite Hfail.
  - intros Hprod Hfuel. unfold Comments.fetch_video_comments. cbv zeta.
    apply fetch_loop_ends; [exact Hprod|].
    now rewrite Z.sub_0_r.
  - intros page_token comments fetched Hreached Hlt Hfail.
    destruct (fetch_reaches _ _ _ _ _ Hreached) as [n Hn].
    exists (S n). intros k Hk.
    replace k with (n + S (k - S n))%nat by lia.
    rewrite Hn. cbn [Comments.fetch_loop].
    replace (fetched <? max_results) with true
      by (symmetry; now apply Z.ltb_lt).
    now rewrite Hfail.
Qed.

Lemma fetch_video_comments_bounded_witness :
  Comments.reached ScanScenario.broken_api 10 (Some "p2")
    [Scenario.comment "price?" 1; Scenario.comment "Nice" 0] 2
  /\ exists n, forall k,
       (n <= k)%nat ->
       Comments.fetch_video_comments k ScanScenario.broken_api 10
       = Comments.ApiError.
Proof.
  assert (H : Comments.reached ScanScenario.broken_api 10 (Some "p2")
                [Scenario.comment "price?" 1; Scenario.comment "Nice" 0] 2).
  { apply (Comments.reached_next ScanScenario.broken_api 10 None [] 0
             [Scenario.comment "price?" 1; Scenario.comment "Nice" 0]
             "p2");
      [apply Comments.reached_first | reflexivity | reflexivity
      | reflexivity | reflexivity]. }
  split; [exact H|].
  apply (proj2 (proj2 (proj2 (proj2
           (fetch_video_comments_bounded 0 ScanScenario.broken_api 10))))
           (Some "p2")
           [Scenario.comment "price?" 1; Scenario.comment "Nice" 0] 2 H);
    reflexivity.
Defined.

(** X22: whatever number of results the form of [scan] asks for, the
    number passed on lies between 10 and 500, so that a scan reads at most
    500 comments and shows at most 500 leads. *)
Theorem scan_at_most_500
    (EMAIL_findall PHONE_findall : string -> list string)
    (published_at : string -> option Z) (now : Z) (fuel : nat)
    (api : Comments.Api) (max_results : Z) (keyword_filter : string)
    (comments : list YouTube.Comment) :
  Comments.fetch_video_comments fuel api
    (Comments.scan_max_results max_results) = Comments.Returned comments ->
  10 <= Comments.scan_max_results max_results <= 500
  /\ (List.length comments <= 500)%nat
  /\ (List.length
        (YouTube.extract_leads_from_comments EMAIL_findall PHONE_findall
           published_at now comments keyword_filter) <= 500)%nat.
Proof.
  intros Hfetch.
  assert (Hclamp : 10 <= Comments.scan_max_results max_results <= 500)
    by (unfold Comments.scan_max_results; lia).
  assert (Hlen : (List.length comments <= 500)%nat).
  { unfold Comments.fetch_video_comments in Hfetch. cbv zeta in Hfetch.
    assert (H0 : 0 <= Z.max 0 (Comments.scan_max_results max_results))
      by lia.
    pose proof (fetch_loop_bounded fuel api _ _ None [] 0 comments
                  eq_refl H0 Hfetch).
    lia. }
  split; [exact Hclamp|]. split; [exact Hlen|].
  unfold YouTube.extract_leads_from_comments.
  rewrite sort_leads_length, length_map.
  pose proof (filter_length_le
                (YouTube.passes (PyStr.strip (PyStr.lower keyword_filter)))
                comments).
  lia.
Qed.

Lemma scan_at_most_500_witness :
  exists comments,
    Comments.fetch_video_comments 10 ScanScenario.api
      (Comments.scan_max_results 3) = Comments.Returned comments
    /\ List.length comments = 6%nat
    /\ (List.length
          (YouTube.extract_leads_from_comments (fun _ => []) (fun _ => [])
             (fun _ => None) 0 comments "rate") <= 500)%nat.
Proof.
  eexists.
  assert (H : Comments.fetch_video_comments 10 ScanScenario.api
                (Comments.scan_max_results 3)
              = Comments.Returned
                  [Scenario.comment "price?" 1; Scenario.comment "Nice" 0;
                   Scenario.comment "need supplier" 6;
                   Scenario.comment "ok" 0;
                   Scenario.comment "rate please" 0;
                   Scenario.comment "hello" 0])
    by (vm_compute; reflexivity).
  split; [exact H|]. split; [reflexivity|].
  exact (proj2 (proj2 (scan_at_most_500 (fun _ => []) (fun _ => [])
                         (fun _ => None) 0 10 ScanScenario.api 3 "rate" _
                         H))).
Defined.

(** ** Saving leads *)

Lemma truthy_nonempty (s : string) :
  PyStr.truthy s = true -> s <> EmptyString.
Proof. destruct s; [discriminate | discriminate]. Qed.

Lemma emails_set_snoc (contacts : list SaveLeads.Contact)
    (c : SaveLeads.Contact) :
  SaveLeads.emails_set (contacts ++ [c])
  = SaveLeads.emails_set contacts
    ++ (if PyStr.truthy (SaveLeads.email c) then [SaveLeads.email c]
        else []).
Proof.
  unfold SaveLeads.emails_set. rewrite map_app, filter_app. reflexivity.
Qed.

Lemma email_known_In (contacts : list SaveLeads.Contact) (e : string) :
  In e (SaveLeads.emails_set contacts) ->
  SaveLeads.email_known contacts e = true.
Proof.
  unfold SaveLeads.emails_set, SaveLeads.email_known. intros Hin.
  apply filter_In in Hin. destruct Hin as [Hin _].
  apply in_map_iff in Hin. destruct Hin as [c [<- Hc]].
  apply existsb_exists. exists c. split; [exact Hc | apply String.eqb_refl].
Qed.

Lemma save_loop_spec (leads : list SaveLeads.LeadForm)
    (contacts : list SaveLeads.Contact) (saved : Z) :
  exists added,
    fst (SaveLeads.save_loop contacts saved leads) = contacts ++ added
    /\ snd (SaveLeads.save_loop contacts saved leads)
       = saved + Z.of_nat (List.length added)
    /\ Forall SaveLeads.saved_row added
    /\ (List.length added <= List.length leads)%nat
    /\ (NoDup (SaveLeads.emails_set contacts) ->
        NoDup (SaveLeads.emails_set (contacts ++ added))).
Proof.
  revert contacts saved.
  induction leads as [|lead leads IH]; intros contacts saved.
  - exists []. simpl. rewrite app_nil_r.
    repeat split; try constructor; try lia. intros H. exact H.
  - cbn [SaveLeads.save_loop].
    destruct (negb (PyStr.truthy (SaveLeads.f_email lead))
              && negb (PyStr.truthy (SaveLeads.f_phone lead))) eqn:Hnone.
    { destruct (IH contacts saved) as [added [H1 [H2 [H3 [H4 H5]]]]].
      exists added. simpl. repeat split; try assumption. lia. }
    destruct (PyStr.truthy (SaveLeads.f_email lead)
              && SaveLeads.email_known contacts (SaveLeads.f_email lead))
      eqn:Hknown.
    { destruct (IH contacts saved) as [added [H1 [H2 [H3 [H4 H5]]]]].
      exists added. simpl. repeat split; try assumption. lia. }
    destruct (IH (contacts ++ [SaveLeads.contact_of lead]) (saved + 1))
      as [added [H1 [H2 [H3 [H4 H5]]]]].
    exists (SaveLeads.contact_of lead :: added).
    split; [rewrite H1, <- app_assoc; reflexivity|].
    split; [rewrite H2; simpl List.length; lia|].
    split.
    { constructor; [|exact H3]. unfold SaveLeads.saved_row. simpl.
      repeat split.
      destruct (PyStr.truthy (SaveLeads.f_email lead)) eqn:He.
      - left. now apply truthy_nonempty.
      - right. apply truthy_nonempty.
        destruct (PyStr.truthy (SaveLeads.f_phone lead));
          [reflexivity | discriminate Hnone]. }
    split; [simpl; lia|].
    intros Hnd.
    replace (contacts ++ SaveLeads.contact_of lead :: added)
      with ((contacts ++ [SaveLeads.contact_of lead]) ++ added)
      by (rewrite <- app_assoc; reflexivity).
    apply H5. rewrite emails_set_snoc.
    change (SaveLeads.email (SaveLeads.contact_of lead))
      with (SaveLeads.f_email lead).
    destruct (PyStr.truthy (SaveLeads.f_email lead)) eqn:He;
      [|now rewrite app_nil_r].
    apply NoDup_app; [exact Hnd | constructor; [intros []|constructor] |].
    intros e Hin [<-|[]]. apply email_known_In in Hin.
    simpl in Hknown. congruence.
Qed.

(** X23: [save_leads] keeps the stored contacts and appends one contact for
    each lead it saves, the number it reports; a saved contact has an e-mail
    address or a phone number, the phone number as its WhatsApp number, the
    source "youtube" and the status "new"; no address that is set is stored
    twice if none was before; and a body without leads changes nothing. *)
Theorem save_leads_effect (contacts : list SaveLeads.Contact)
    (data : option (list SaveLeads.LeadForm)) :
  exists added,
    fst (SaveLeads.save_leads contacts data) = contacts ++ added
    /\ Forall SaveLeads.saved_row added
    /\ (NoDup (SaveLeads.emails_set contacts) ->
        NoDup (SaveLeads.emails_set (contacts ++ added)))
    /\ match data with
       | None => added = [] /\ snd (SaveLeads.save_leads contacts data) = None
       | Some leads =>
           snd (SaveLeads.save_leads contacts data)
           = Some (Z.of_nat (List.length added))
           /\ (List.length added <= List.length leads)%nat
       end.
Proof.
  destruct data as [leads|]; unfold SaveLeads.save_leads.
  - destruct (save_loop_spec leads contacts 0)
      as [added [H1 [H2 [H3 [H4 H5]]]]].
    destruct (SaveLeads.save_loop contacts 0 leads) as [contacts' saved].
    simpl in *. exists added. subst. repeat split; assumption.
  - exists []. simpl. rewrite app_nil_r.
    repeat split; try constructor. intros H. exact H.
Qed.

(** ** Video ids *)

Lemma split_head_free (sep : ascii) (s : string) :
  PyStr.forallb_str (fun c => negb (Ascii.eqb c sep)) (VideoId.split_head sep s)
  = true.
Proof.
  induction s as [|c s IH]; simpl; [reflexivity|].
  destruct (Ascii.eqb c sep) eqn:E; simpl; [reflexivity|].
  now rewrite E, IH.
Qed.

Lemma split_head_keeps (p : ascii -> bool) (sep : ascii) (s : string) :
  PyStr.forallb_str p s = true ->
  PyStr.forallb_str p (VideoId.split_head sep s) = true.
Proof.
  induction s as [|c s IH]; simpl; [reflexivity|].
  intros H. apply andb_true_iff in H. destruct H as [Hc Hs].
  destruct (Ascii.eqb c sep); simpl; [reflexivity|].
  now rewrite Hc, IH.
Qed.

Lemma id_of_tail_clean (tail : string) :
  VideoId.no_separator (VideoId.id_of_tail tail) = true.
Proof.
  unfold VideoId.no_separator, VideoId.id_of_tail.
  pose proof (split_head_free "?" (VideoId.split_head "/" tail)) as Hq.
  pose proof (split_head_keeps (fun c => negb (Ascii.eqb c "/")) "?" _
                (split_head_free "/" tail)) as Hs.
  revert Hq Hs.
  generalize (VideoId.split_head "?" (VideoId.split_head "/" tail)) as s.
  induction s as [|c s IH]; simpl; [reflexivity|].
  intros Hq Hs. apply andb_true_iff in Hq. apply andb_true_iff in Hs.
  destruct Hq as [Hq1 Hq2]. destruct Hs as [Hs1 Hs2].
  now rewrite Hq1, Hs1, IH.
Qed.

(** X24: a text that is, once stripped, eleven characters among letters,
    digits, "_" and "-" is returned as the video id without being parsed;
    for any other text that parses, no id is returned unless the host is
    one of the three YouTube hosts or of the two youtu.be hosts, and an id
    taken from the path holds neither "/" nor "?". *)
Theorem extract_video_id_cases (urlparse : string -> result VideoId.Parsed)
    (first_v : string -> option string) (url : string) :
  (PyStr.truthy url = true ->
   VideoId.is_bare_id (PyStr.strip url) = true ->
   VideoId.extract_video_id urlparse first_v url
   = Ok (Some (PyStr.strip url)))
  /\ (forall parsed host,
        VideoId.is_bare_id (PyStr.strip url) = false ->
        urlparse url = Ok parsed ->
        host = match VideoId.hostname parsed with
               | Some h => h
               | None => EmptyString
               end ->
        (VideoId.among VideoId.youtube_hosts host = false ->
         VideoId.among VideoId.short_hosts host = false ->
         VideoId.extract_video_id urlparse first_v url = Ok None)
        /\ (VideoId.path parsed <> "/watch" ->
            forall video_id,
              VideoId.extract_video_id urlparse first_v url
              = Ok (Some video_id) ->
              VideoId.no_separator video_id = true))
  /\ (url = EmptyString ->
      VideoId.extract_video_id urlparse first_v url = Ok None).
Proof.
  unfold VideoId.extract_video_id. repeat split.
  - intros Hurl Hbare. now rewrite Hurl, Hbare.
  - intros Hyt Hshort. subst host.
    destruct (negb (PyStr.truthy url)); [reflexivity|].
    rewrite H, H0. cbn [bind]. now rewrite Hyt, Hshort.
  - intros Hpath video_id. subst host.
    destruct (negb (PyStr.truthy url)); [discriminate|].
    rewrite H, H0. cbn [bind].
    assert (Hshort : forall r,
              (if VideoId.among VideoId.short_hosts
                    match VideoId.hostname parsed with
                    | Some h => h
                    | None => EmptyString
                    end
               then Some (VideoId.id_of_tail
                            (VideoId.lstrip_slash (VideoId.path parsed)))
               else None) = Some r ->
              VideoId.no_separator r = true).
    { intros r. destruct (VideoId.among VideoId.short_hosts _);
        [|discriminate].
      intros Hr. injection Hr as <-. apply id_of_tail_clean. }
    destruct (VideoId.among VideoId.youtube_hosts _).
    + replace (String.eqb (VideoId.path parsed) "/watch") with false
        by (symmetry; now apply String.eqb_neq).
      destruct (VideoId.first_prefix _ _) as [tail|].
      * intros Hr. injection Hr as <-. apply id_of_tail_clean.
      * intros Hr. injection Hr as Hr. now apply Hshort.
    + intros Hr. injection Hr as Hr. now apply Hshort.
  - intros ->. reflexivity.
Qed.

(** ** The job tracker *)

Lemma job_exists_app (rows more : list Job.JobListing) (tid : Z)
    (u : string) :
  Job.exists_listing (rows ++ more) tid u
  = Job.exists_listing rows tid u || Job.exists_listing more tid u.
Proof. unfold Job.exists_listing. apply existsb_app. Qed.

Lemma job_exists_In (rows : list Job.JobListing) (tid : Z) (u : string) :
  In (tid, u) (map Job.key rows) -> Job.exists_listing rows tid u = true.
Proof.
  intros Hin. apply in_map_iff in Hin. destruct Hin as [l [Hk Hl]].
  unfold Job.exists_listing. apply existsb_exists. exists l.
  split; [exact Hl|]. unfold Job.key in Hk. injection Hk as H1 H2.
  now rewrite H1, H2, Z.eqb_refl, String.eqb_refl.
Qed.

Lemma job_new_listing_fresh (tid : Z) (platform item_url : string)
    (item : Job.RawItem) :
  PyStr.truthy item_url = true ->
  Job.fresh_row tid (Job.new_listing tid platform item_url item).
Proof.
  intros Hurl. unfold Job.fresh_row. simpl.
  repeat split; try apply take_length.
  now apply (take_nonempty 999).
Qed.

(** What one turn of the item loop keeps and establishes. *)
Lemma job_process_item_spec (tid : Z) (committed : list Job.JobListing)
    (platform : string) (acc : list Job.JobListing) (item : Job.RawItem) :
  let acc' := Job.process_item tid committed platform acc item in
  (exists ext, acc' = acc ++ ext)
  /\ (Forall (Job.fresh_row tid) acc -> Forall (Job.fresh_row tid) acc')
  /\ (Job.short_url item ->
      JobFacts.settled tid (committed ++ acc') item
      /\ (Job.distinct_urls (committed ++ acc) ->
          Job.distinct_urls (committed ++ acc'))).
Proof.
  cbv zeta. unfold Job.process_item, JobFacts.settled, Job.short_url.
  destruct (PyStr.truthy (PyStr.strip (Job.r_url item))) eqn:Hurl; simpl.
  2:{ split; [exists []; now rewrite app_nil_r|].
      split; [tauto|]. intros _. split; [now left | tauto]. }
  destruct (Job.exists_listing (committed ++ acc) tid _) eqn:Hex.
  { split; [exists []; now rewrite app_nil_r|].
    split; [tauto|]. intros _. split; [now right | tauto]. }
  split; [now eexists|]. split.
  { intros Hacc. apply Forall_app. split; [exact Hacc|].
    constructor; [|constructor]. now apply job_new_listing_fresh. }
  intros Hshort. split.
  - right. rewrite app_assoc, job_exists_app. apply orb_true_iff. right.
    simpl. rewrite take_short by exact Hshort.
    now rewrite Z.eqb_refl, String.eqb_refl.
  - unfold Job.distinct_urls. intros Hnd.
    rewrite app_assoc, map_app. apply NoDup_app.
    + exact Hnd.
    + simpl. constructor; [intros [] | constructor].
    + intros k Hk [<-|[]]. unfold Job.key in Hk. simpl in Hk.
      rewrite take_short in Hk by exact Hshort.
      apply job_exists_In in Hk. congruence.
Qed.

Lemma job_settled_more (tid : Z) (rows more : list Job.JobListing)
    (item : Job.RawItem) :
  JobFacts.settled tid rows item ->
  JobFacts.settled tid (rows ++ more) item.
Proof.
  unfold JobFacts.settled. intros [H|H]; [now left|].
  right. rewrite job_exists_app, H. reflexivity.
Qed.

Lemma job_process_items_spec (tid : Z) (committed : list Job.JobListing)
    (platform : string) (raw : list Job.RawItem)
    (acc : list Job.JobListing) :
  let acc' := Job.process_items tid committed platform acc raw in
  (exists ext, acc' = acc ++ ext)
  /\ (Forall (Job.fresh_row tid) acc -> Forall (Job.fresh_row tid) acc')
  /\ (Forall Job.short_url raw ->
      Forall (JobFacts.settled tid (committed ++ acc')) raw
      /\ (Job.distinct_urls (committed ++ acc) ->
          Job.distinct_urls (committed ++ acc'))).
Proof.
  cbv zeta. unfold Job.process_items. revert acc.
  induction raw as [|item raw IH]; intros acc; simpl.
  - split; [exists []; now rewrite app_nil_r|].
    split; [tauto|]. intros _. split; [constructor | tauto].
  - destruct (job_process_item_spec tid committed platform acc item)
      as [[ext1 Hext1] [Hfresh1 Hshort1]]. cbv zeta in *.
    destruct (IH (Job.process_item tid committed platform acc item))
      as [[ext2 Hext2] [Hfresh2 Hshort2]].
    split.
    { exists (ext1 ++ ext2). rewrite Hext2, Hext1. now rewrite app_assoc. }
    split; [tauto|].
    intros Hraw. apply Forall_cons_iff in Hraw. destruct Hraw as [Hi Hr].
    destruct (Hshort1 Hi) as [Hset1 Hnd1].
    destruct (Hshort2 Hr) as [Hset2 Hnd2].
    split; [|tauto].
    constructor; [|exact Hset2].
    rewrite Hext2, app_assoc. now apply job_settled_more.
Qed.

Lemma job_scrape_short (env : Job.Env) (t : Job.JobTracker)
    (platform : string) (raw : list Job.RawItem) :
  Job.short_urls env ->
  Job.scrape env t platform = Some raw ->
  Forall Job.short_url raw.
Proof.
  intros Hshort.
  assert (Hg : forall req, Forall Job.short_url
                             (Job.guarded (Job.fetch env req))).
  { intros req. destruct (Job.fetch env req) as [|items] eqn:E; simpl;
      [constructor | eapply Hshort, E]. }
  unfold Job.scrape, Job.scrape_facebook_jobs, Job.scrape_instagram_jobs,
    Job.scrape_twitter_jobs, Job._scrape_serpapi_social,
    Job.scrape_google_jobs, Job.scrape_linkedin, Job.scrape_foundit,
    Job.scrape_naukri.
  repeat match goal with
  | |- context [String.eqb platform ?p] =>
      destruct (String.eqb platform p);
      [ intros H; injection H as <-;
        try (destruct (negb (PyStr.truthy (Job.serpapi_key env)));
             [constructor|]); apply Hg |]
  end.
  discriminate.
Qed.

Lemma job_process_platform_spec (env : Job.Env) (t : Job.JobTracker)
    (committed : list Job.JobListing) (platform : string)
    (acc : list Job.JobListing) :
  let acc' := Job.process_platform env t committed acc platform in
  (exists ext, acc' = acc ++ ext)
  /\ (Forall (Job.fresh_row (Job.id t)) acc ->
      Forall (Job.fresh_row (Job.id t)) acc')
  /\ (Job.short_urls env ->
      (forall raw,
         Job.scrape env t platform = Some raw ->
         Forall (JobFacts.settled (Job.id t) (committed ++ acc')) raw)
      /\ (Job.distinct_urls (committed ++ acc) ->
          Job.distinct_urls (committed ++ acc'))).
Proof.
  cbv zeta. unfold Job.process_platform.
  destruct (Job.scrape env t platform) as [raw|] eqn:Hraw.
  - destruct (job_process_items_spec (Job.id t) committed platform raw acc)
      as [Hext [Hfresh Hshort]]. cbv zeta in *.
    split; [exact Hext|]. split; [exact Hfresh|].
    intros Hs.
    destruct (Hshort (job_scrape_short _ _ _ _ Hs Hraw)) as [Hset Hnd].
    split; [|exact Hnd].
    intros raw' Hr. injection Hr as <-. exact Hset.
  - split; [exists []; now rewrite app_nil_r|].
    split; [tauto|]. intros _. split; [discriminate | tauto].
Qed.

Lemma job_platforms_spec (env : Job.Env) (t : Job.JobTracker)
    (committed : list Job.JobListing) (ps : list string)
    (acc : list Job.JobListing) :
  let acc' := fold_left (Job.process_platform env t committed) ps acc in
  (exists ext, acc' = acc ++ ext)
  /\ (Forall (Job.fresh_row (Job.id t)) acc ->
      Forall (Job.fresh_row (Job.id t)) acc')
  /\ (Job.short_urls env ->
      (forall platform raw,
         In platform ps -> Job.scrape env t platform = Some raw ->
         Forall (JobFacts.settled (Job.id t) (committed ++ acc')) raw)
      /\ (Job.distinct_urls (committed ++ acc) ->
          Job.distinct_urls (committed ++ acc'))).
Proof.
  cbv zeta. revert acc.
  induction ps as [|platform ps IH]; intros acc; simpl.
  - split; [exists []; now rewrite app_nil_r|].
    split; [tauto|]. intros _. split; [intros ? ? [] | tauto].
  - destruct (job_process_platform_spec env t committed platform acc)
      as [[ext1 Hext1] [Hfresh1 Hshort1]]. cbv zeta in *.
    revert Hext1 Hfresh1 Hshort1.
    generalize (Job.process_platform env t committed acc platform) as acc1.
    intros acc1 Hext1 Hfresh1 Hshort1.
    destruct (IH acc1) as [[ext2 Hext2] [Hfresh2 Hshort2]].
    split.
    { exists (ext1 ++ ext2). rewrite Hext2, Hext1. now rewrite app_assoc. }
    split; [tauto|].
    intros Hs. destruct (Hshort1 Hs) as [Hset1 Hnd1].
    destruct (Hshort2 Hs) as [Hset2 Hnd2].
    split; [|tauto].
    intros p raw [<-|Hin] Hp; [|now apply (Hset2 p)].
    rewrite Hext2, app_assoc.
    eapply Forall_impl; [|exact (Hset1 raw Hp)].
    intros item. apply job_settled_more.
Qed.

(** X25: a check of a job tracker that succeeds keeps the stored listings
    and appends the listings it returns; each of them belongs to the
    tracker, is flagged new, has a URL that is not empty and fits the
    columns (title 500, company 300, location 200, salary 200, experience
    100, URL 1000, posted date 100); and when the adapters return URLs of
    at most 1000 characters, listings that were pairwise distinct in
    tracker and URL stay so. *)
Theorem check_job_tracker_rows (env : Job.Env) (now : Z)
    (t : Job.JobTracker) (s s' : Job.Store) (new : list Job.JobListing) :
  Job.check_job_tracker env now t s = Ok (s', new) ->
  Job.listings s' = Job.listings s ++ new
  /\ Forall (Job.fresh_row (Job.id t)) new
  /\ (Job.short_urls env -> Job.distinct_urls (Job.listings s) ->
      Job.distinct_urls (Job.listings s')).
Proof.
  unfold Job.check_job_tracker. cbv zeta.
  destruct (Job.commit_raises env (Job.id t)); [discriminate|].
  intros H. injection H as <- <-. cbn [Job.listings].
  destruct (job_platforms_spec env t (Job.listings s)
              (Job.tracker_platforms t) [])
    as [_ [Hfresh Hshort]]. cbv zeta in *.
  split; [reflexivity|]. split; [apply Hfresh; constructor|].
  intros Hs Hnd. apply (proj2 (Hshort Hs)). now rewrite app_nil_r.
Qed.

Lemma linkedin_env_short (items : list Job.RawItem) :
  Forall Job.short_url items -> Job.short_urls (Job.linkedin_env items).
Proof.
  intros Hitems req its. destruct req; simpl; intros H;
    try discriminate H.
  injection H as <-. exact Hitems.
Qed.

Lemma check_job_tracker_rows_witness :
  exists s' new,
    Job.check_job_tracker
      (Job.linkedin_env
         [Job.sample_item "https://www.linkedin.com/jobs/view/1";
          Job.sample_item "https://www.linkedin.com/jobs/view/1"])
      10 Job.sample_tracker Job.sample_store = Ok (s', new)
    /\ List.length new = 1%nat
    /\ Job.listings s' = Job.listings Job.sample_store ++ new
    /\ Forall (Job.fresh_row 1) new.
Proof.
  eexists. eexists.
  assert (H : Job.check_job_tracker
                (Job.linkedin_env
                   [Job.sample_item "https://www.linkedin.com/jobs/view/1";
                    Job.sample_item "https://www.linkedin.com/jobs/view/1"])
                10 Job.sample_tracker Job.sample_store
              = Ok ({| Job.trackers :=
                         [Job.set_last_checked 1 10 Job.sample_tracker];
                       Job.listings :=
                         [Job.new_listing 1 "linkedin"
                            "https://www.linkedin.com/jobs/view/1"
                            (Job.sample_item
                               "https://www.linkedin.com/jobs/view/1")] |},
                    [Job.new_listing 1 "linkedin"
                       "https://www.linkedin.com/jobs/view/1"
                       (Job.sample_item
                          "https://www.linkedin.com/jobs/view/1")]))
    by (vm_compute; reflexivity).
  split; [exact H|]. split; [reflexivity|].
  destruct (check_job_tracker_rows _ _ _ _ _ _ H) as [Hrows [Hfresh _]].
  split; [exact Hrows | exact Hfresh].
Defined.

(** X26: when the adapters return URLs of at most 1000 characters, a check
    of a job tracker that follows a successful check and receives the same
    results returns no listing and leaves the listings as they are. *)
Theorem job_recheck_finds_nothing (env : Job.Env) (now now' : Z)
    (t : Job.JobTracker) (s s1 : Job.Store) (new1 : list Job.JobListing) :
  Job.short_urls env ->
  Job.check_job_tracker env now t s = Ok (s1, new1) ->
  exists s2,
    Job.check_job_tracker env now' t s1 = Ok (s2, [])
    /\ Job.listings s2 = Job.listings s1.
Proof.
  intros Hshort. unfold Job.check_job_tracker. cbv zeta.
  destruct (Job.commit_raises env (Job.id t)); [discriminate|].
  intros H. injection H as <- <-. cbn [Job.listings].
  destruct (job_platforms_spec env t (Job.listings s)
              (Job.tracker_platforms t) [])
    as [_ [_ Hspec]]. cbv zeta in Hspec.
  destruct (Hspec Hshort) as [Hset _].
  set (rows := Job.listings s ++ _) in *.
  assert (Hnone : forall ps,
            incl ps (Job.tracker_platforms t) ->
            fold_left (Job.process_platform env t rows) ps [] = []).
  { induction ps as [|platform ps IH]; intros Hincl; [reflexivity|].
    simpl. unfold Job.process_platform at 2.
    assert (Hin : In platform (Job.tracker_platforms t))
      by (apply Hincl; now left).
    destruct (Job.scrape env t platform) as [raw|] eqn:Hraw.
    - replace (Job.process_items (Job.id t) rows platform [] raw)
        with (@nil Job.JobListing).
      + apply IH. intros p Hp. apply Hincl. now right.
      + symmetry. pose proof (Hset platform raw Hin Hraw) as Hall.
        unfold Job.process_items. clear Hraw.
        induction Hall as [|item raw Hitem Hraw' IHraw]; [reflexivity|].
        simpl. unfold Job.process_item at 2. rewrite app_nil_r.
        destruct Hitem as [Hi|Hi]; rewrite Hi; simpl.
        * exact IHraw.
        * destruct (negb _); exact IHraw.
    - apply IH. intros p Hp. apply Hincl. now right. }
  rewrite (Hnone _ (incl_refl _)).
  eexists. split; [reflexivity|]. cbn [Job.listings]. now rewrite app_nil_r.
Qed.

Lemma job_recheck_finds_nothing_witness :
  exists s2,
    Job.check_job_tracker
      (Job.linkedin_env
         [Job.sample_item "https://www.linkedin.com/jobs/view/1"])
      20 Job.sample_tracker
      {| Job.trackers := [Job.set_last_checked 1 10 Job.sample_tracker];
         Job.listings :=
           [Job.new_listing 1 "linkedin"
              "https://www.linkedin.com/jobs/view/1"
              (Job.sample_item "https://www.linkedin.com/jobs/view/1")] |}
    = Ok (s2, [])
    /\ Job.listings s2
       = [Job.new_listing 1 "linkedin"
            "https://www.linkedin.com/jobs/view/1"
            (Job.sample_item "https://www.linkedin.com/jobs/view/1")].
Proof.
  eapply (job_recheck_finds_nothing
            (Job.linkedin_env
               [Job.sample_item "https://www.linkedin.com/jobs/view/1"])
            10 20 Job.sample_tracker Job.sample_store).
  - apply linkedin_env_short. constructor; [|constructor].
    unfold Job.short_url. apply Nat.leb_le. reflexivity.
  - vm_compute. reflexivity.
Defined.

(** ** Product enquiries *)

Lemma enquiry_unique_spec (seen : list string)
    (results : list Enquiry.Result) :
  NoDup (map Enquiry.url (Enquiry.unique seen results))
  /\ incl (Enquiry.unique seen results) results
  /\ forall u, In u (map Enquiry.url (Enquiry.unique seen results)) ->
               ~ In u seen.
Proof.
  revert seen. induction results as [|r results IH]; intros seen; simpl.
  - repeat split; [constructor | apply incl_refl | intros u []].
  - destruct (Enquiry.member (Enquiry.url r) seen) eqn:E.
    + destruct (IH seen) as [Hnd [Hincl Hfresh]].
      repeat split; [exact Hnd | now apply incl_tl | exact Hfresh].
    + destruct (IH (Enquiry.url r :: seen)) as [Hnd [Hincl Hfresh]].
      simpl. repeat split.
      * constructor; [|exact Hnd]. intros Hin.
        apply (Hfresh _ Hin). now left.
      * apply incl_cons; [now left | now apply incl_tl].
      * intros u [<-|Hin] Hseen.
        -- assert (Hm : Enquiry.member (Enquiry.url r) seen = true).
           { apply existsb_exists. exists (Enquiry.url r).
             split; [exact Hseen | apply String.eqb_refl]. }
           congruence.
        -- apply (Hfresh _ Hin). now right.
Qed.

(** X27: [search_social_enquiries] returns nothing when the key is not
    configured, when none of the platforms asked for is Facebook, Instagram
    or Twitter, or when the request fails; what it returns has pairwise
    distinct URLs, titles of at most 500 characters, snippets of at most
    1000 and authors of at most 300, a title and a URL that are not empty,
    and a platform that is "other" or one of those asked for. *)
Theorem enquiry_results_spec (date_of : string -> string)
    (serpapi_key : string) (fetch : string -> Enquiry.Response)
    (query : string) (platforms : option (list string))
    (location : string) :
  let asked := match platforms with
               | Some ps => ps
               | None => ["facebook"; "instagram"; "twitter"]
               end in
  let found :=
    Enquiry.search_social_enquiries date_of serpapi_key fetch query
      platforms location in
  NoDup (map Enquiry.url found)
  /\ Forall (fun r =>
       (Enquiry.platform r = "other" \/ In (Enquiry.platform r) asked)
       /\ Enquiry.url r <> EmptyString
       /\ Enquiry.title r <> EmptyString
       /\ (String.length (Enquiry.title r) <= 500)%nat
       /\ (String.length (Enquiry.snippet r) <= 1000)%nat
       /\ (String.length (Enquiry.author r) <= 300)%nat) found
  /\ (serpapi_key = EmptyString -> found = [])
  /\ (Enquiry.site_parts asked = [] -> found = [])
  /\ (fetch (Enquiry.search_query query location asked) = Enquiry.Raised ->
      found = []).
Proof.
  cbv zeta. unfold Enquiry.search_social_enquiries.
  set (asked := match platforms with
                | Some ps => ps
                | None => ["facebook"; "instagram"; "twitter"]
                end).
  destruct (PyStr.truthy serpapi_key) eqn:Hkey; cbn [negb].
  2:{ repeat split; try constructor. }
  destruct (Enquiry.site_parts asked) as [|part parts] eqn:Hparts;
    cbn [Location.nonempty negb].
  { repeat split; try constructor. }
  destruct (fetch (Enquiry.search_query query location asked))
    as [| |organic] eqn:Hfetch;
    try (repeat split; try constructor; intros; discriminate).
  destruct (enquiry_unique_spec []
              (flat_map (Enquiry.result_of date_of asked) organic))
    as [Hnd [Hincl _]].
  split; [exact Hnd|]. split.
  - apply Forall_forall. intros r Hin. apply Hincl in Hin.
    apply in_flat_map in Hin. destruct Hin as [item [_ Hr]].
    unfold Enquiry.result_of in Hr.
    destruct (PyStr.truthy (Enquiry.o_title item)) eqn:Ht;
      destruct (PyStr.truthy (Enquiry.o_link item)) eqn:Hl;
      cbn [negb orb] in Hr; try (now destruct Hr).
    destruct (Enquiry.member (Enquiry.detect_platform (Enquiry.o_link item))
                asked) eqn:Hm;
      destruct (String.eqb_spec
                  (Enquiry.detect_platform (Enquiry.o_link item)) "other")
        as [Ho|Ho];
      cbn [negb andb] in Hr; try (now destruct Hr);
      destruct Hr as [<-|[]]; cbn [Enquiry.platform Enquiry.url
        Enquiry.title Enquiry.snippet Enquiry.author];
      (split; [|split; [now apply truthy_nonempty
                       |split; [now apply (take_nonempty 499)
                               | repeat split; apply take_length]]]).
    + now left.
    + right. apply existsb_exists in Hm. destruct Hm as [x [Hx Heq]].
      apply String.eqb_eq in Heq. now subst x.
    + now left.
  - split; [intros ->; discriminate Hkey|].
    split; [discriminate | discriminate].
Qed.
